(** * The che-code gateway: session broker, websocket upgrade, channels

    A shallow embedding of the TypeScript sources of the remote-workbench
    gateway, and the properties of its specification settled against it.

    - [UriTransformer]: the raw URI transformer (che-uri-transformer).
    - [RemoteFileSystemChannel]: the watch / unwatch arms of the remote
      filesystem channel and the hooks of its [filechange] event.
    - [WebsocketUpgrade]: the RFC 6455 handshake written by [upgradeSocket].
    - [Broker]: [CheWebsocketHandler], [VSCodeProtocolHolder], the two
      reconnection tables and the [ExtensionHost] supervisor.
    - [Examples], [Scenario]: one concrete platform and the end-to-end
      scenarios, run on the model.
    - [UriTransformerFacts], [RemoteFileSystemChannelFacts],
      [WebsocketUpgradeFacts], [Run], [BrokerFacts]: the properties.
    - [Transient], [Invariants]: the stores between the steps of a first
      connect; the events of the gateway and what a handler keeps.
    - [Http], [HttpExamples]: [HttpMessage] and [CheHttpRequestHandler],
      and one concrete platform for them.
    - [UriTransformerMore], [RemoteFileSystemChannelMore],
      [WebsocketUpgradeMore], [BrokerMore], [HttpFacts]: further
      properties of the code.

    Objects that the source mutates through shared references (protocols,
    sessions, extension hosts, child processes) live in an explicit store;
    calls on collaborators that are outside the sources (sockets, the
    persistent protocol, the child process) are recorded, in program order,
    in an effect trace. *)

From Stdlib Require Import ZArith List Lia.
From Stdlib.Strings Require Import Byte.
From stdpp Require Import base option gmap strings list pretty.

Local Open Scope string_scope.
Local Open Scope list_scope.

(* ===================================================================== *)
(** ** The raw URI transformer *)
(* ===================================================================== *)

Module UriTransformer.

(** [UriParts] of vs/base/common/uriIpc: every component but the scheme
    is optional; an absent property and [undefined] are both [None]. *)
Record UriParts := mkUri {
  scheme : string;
  authority : option string;
  path : option string;
  query : option string;
  fragment : option string
}.

#[global] Instance UriParts_eq_dec : EqDecision UriParts.
Proof. solve_decision. Defined.

(** [transformIncoming]: [file] becomes [vscode-local], [vscode-remote]
    becomes [file]; both object literals carry [scheme] and [path] only. *)
Definition transformIncoming (uri : UriParts) : UriParts :=
  if String.eqb (scheme uri) "file" then
    mkUri "vscode-local" None (path uri) None None
  else if String.eqb (scheme uri) "vscode-remote" then
    mkUri "file" None (path uri) None None
  else uri.

(** [transformOutgoing], closed over the [remoteAuthority] argument of
    [transformer]. *)
Definition transformOutgoing (remoteAuthority : string) (uri : UriParts) : UriParts :=
  if String.eqb (scheme uri) "file" then
    mkUri "vscode-remote" (Some remoteAuthority) (path uri) None None
  else if String.eqb (scheme uri) "vscode-local" then
    mkUri "file" None (path uri) None None
  else uri.

Definition transformOutgoingScheme (s : string) : string :=
  if String.eqb s "file" then "vscode-remote"
  else if String.eqb s "vscode-local" then "file"
  else s.

(** Two [vscode-remote] URIs as a client may send them: one of the
    authority of the session [localhost:8080], one of another. *)
Definition session_uri : UriParts :=
  mkUri "vscode-remote" (Some "localhost:8080") (Some "/eclipse/che-dashboard")
        None None.

Definition foreign_uri : UriParts :=
  mkUri "vscode-remote" (Some "example.org:9000") (Some "/eclipse/che-dashboard")
        None None.

End UriTransformer.

(* ===================================================================== *)
(** ** The remote filesystem channel: watch, unwatch, filechange *)
(* ===================================================================== *)

Module RemoteFileSystemChannel.
Import UriTransformer.

(** The fourth argument of a [watch] call. *)
Record WatchOptions := mkWatchOptions {
  recursive : bool;
  excludes : list string
}.

(** A [DiskFileSystemProvider] created by the [filechange] hook is known
    by the number of its creation. *)
Definition WatcherId := nat.

(** The disposable returned by [fileWatcher.watch(resource, opts)]. *)
Record Disposable := mkDisposable {
  d_watcher : WatcherId;
  d_resource : UriParts;
  d_opts : WatchOptions
}.

(** Calls made on the watchers and on the disposables. *)
Inductive Effect :=
| ProviderWatch (w : WatcherId) (resource : UriParts) (opts : WatchOptions)
| ProviderDispose (w : WatcherId)
| DisposableDispose (d : Disposable).

(** The two private maps of the channel, and the count of providers
    created so far. *)
Record Channel := mkChannel {
  fileWatchers : gmap string WatcherId;
  fileWatcherDisposables : gmap string Disposable;
  created : nat
}.

Definition init : Channel := mkChannel ∅ ∅ 0.

(** The options of the example call quoted in the source. *)
Definition default_opts : WatchOptions :=
  mkWatchOptions true
    ["**/.git/objects/**"; "**/.git/subtree-cache/**";
     "**/node_modules/*/**"; "**/.hg/store/**"].

(** [case 'watch']: the key is the template literal
    [`${arg[0]}${arg[1]}`]; [watchId] is the text that the literal gives
    for [arg[1]].  The resource is the URI after the incoming
    transformation.  The call returns [undefined] on both paths, so the
    result is the new state and the calls made. *)
Definition call_watch (sessionId watchId : string) (uri : UriParts)
    (opts : WatchOptions) (st : Channel) : Channel * list Effect :=
  let watchKey := sessionId +:+ watchId in
  let resource := transformIncoming uri in
  match fileWatchers st !! watchKey with
  | Some fileWatcher =>
      let watchDisposable := mkDisposable fileWatcher resource opts in
      (mkChannel (fileWatchers st)
                 (<[watchKey := watchDisposable]> (fileWatcherDisposables st))
                 (created st),
       [ProviderWatch fileWatcher resource opts])
  | None => (st, [])
  end.

(** [case 'unwatch']. *)
Definition call_unwatch (sessionId watchId : string) (st : Channel)
    : Channel * list Effect :=
  let unwatchKey := sessionId +:+ watchId in
  match fileWatcherDisposables st !! unwatchKey with
  | Some toUnwatchDisposable =>
      (mkChannel (fileWatchers st)
                 (delete unwatchKey (fileWatcherDisposables st))
                 (created st),
       [DisposableDispose toUnwatchDisposable])
  | None => (st, [])
  end.

(** [onFirstListenerAdd] of the emitter that [listen('filechange', arg)]
    returns: [fileWatchers.set(arg[0], new DiskFileSystemProvider(..))]. *)
Definition filechange_onFirstListenerAdd (sessionId : string) (st : Channel)
    : Channel * list Effect :=
  (mkChannel (<[sessionId := created st]> (fileWatchers st))
             (fileWatcherDisposables st)
             (S (created st)),
   []).

(** [onLastListenerRemove] of the same emitter:
    [fileWatchers.get(arg[0])?.dispose(); fileWatchers.delete(arg[0])]. *)
Definition filechange_onLastListenerRemove (sessionId : string) (st : Channel)
    : Channel * list Effect :=
  (mkChannel (delete sessionId (fileWatchers st))
             (fileWatcherDisposables st)
             (created st),
   match fileWatchers st !! sessionId with
   | Some w => [ProviderDispose w]
   | None => []
   end).

(** What can happen to a channel. *)
Inductive Event :=
| CallWatch (sessionId watchId : string) (uri : UriParts) (opts : WatchOptions)
| CallUnwatch (sessionId watchId : string)
| FirstListenerAdd (sessionId : string)
| LastListenerRemove (sessionId : string).

Definition step (ev : Event) (st : Channel) : Channel * list Effect :=
  match ev with
  | CallWatch s w u o => call_watch s w u o st
  | CallUnwatch s w => call_unwatch s w st
  | FirstListenerAdd s => filechange_onFirstListenerAdd s st
  | LastListenerRemove s => filechange_onLastListenerRemove s st
  end.

Fixpoint run (evs : list Event) (st : Channel) : Channel :=
  match evs with
  | [] => st
  | ev :: rest => run rest (fst (step ev st))
  end.

End RemoteFileSystemChannel.

(* ===================================================================== *)
(** ** Collaborators outside the sources *)
(* ===================================================================== *)

Module Platform.

(** A value of one parameter of an extension offer, as the header parser
    gives it: [true] for a parameter offered without a value, the text of
    the value otherwise; [upgradeSocket] itself writes the number 15. *)
Inductive ParamValue :=
| PTrue
| PText (s : string)
| PNumber (n : Z).

(** The value of one key of a parsed query string (Node's
    [querystring.parse]): a string, or an array when the key is given
    more than once. *)
Inductive QueryValue :=
| QString (s : string)
| QArray (l : list string).

(** What the gateway calls and this repository does not define: Node's
    [crypto], [Buffer], [url] and [querystring], the operating system, and
    the [HeaderParser] of vs/che/node/ws/header-parser, whose source is
    not among the files.  They are taken as they are. *)
Class Externals := {
  (** [crypto.createHash('sha1').update(s).digest('base64')] *)
  sha1_base64 : string -> string;
  (** [Buffer.from(bytes).toString('base64')] *)
  base64 : list byte -> string;
  (** [headerParser.parse(header)]: extension name to the list of its
      offers, an offer being a map from parameter name to values. *)
  HeaderParser_parse : option string -> gmap string (list (gmap string (list ParamValue)));
  (** [headerParser.format(offers)] *)
  HeaderParser_format : gmap string (list (gmap string (list ParamValue))) -> string;
  (** [parseQuery(url.parse(u).query || '')] *)
  parseQuery : string -> gmap string QueryValue;
  (** the answer of [findFreePort(randomPort(), 10, 6000)] to the
      [n]-th object-creating step of the gateway *)
  findFreePort : nat -> Z;
  (** [platform.isWindows] *)
  isWindows : bool;
  (** the [uriTransformerPath] that the service setup gives to the
      constructor of [CheWebsocketHandler] *)
  uriTransformerPath : string
}.

End Platform.

(* ===================================================================== *)
(** ** The websocket upgrade (RFC 6455 handshake) *)
(* ===================================================================== *)

Module WebsocketUpgrade.
Import Platform.

Definition GUID : string := "258EAFA5-E914-47DA-95CA-C5AB0DC85B11".
Definition DEFAULT_CLIENT_MAX_WINDOW_BITS : Z := 15.

Definition CRLF : string :=
  String (Ascii.ascii_of_nat 13) (String (Ascii.ascii_of_nat 10) "").

(** [IncomingMessage]: the request target and the headers, whose names
    Node gives in lower case and whose values are Latin-1 text. *)
Record IncomingMessage := mkRequest {
  url : option string;
  headers : gmap string string
}.

(** White space of [String.prototype.trim] among the Latin-1 code units:
    TAB, LF, VT, FF, CR, SP and NBSP. *)
Definition is_white_space (c : Ascii.ascii) : bool :=
  let n := Ascii.nat_of_ascii c in
  (n =? 9)%nat || (n =? 10)%nat || (n =? 11)%nat || (n =? 12)%nat
  || (n =? 13)%nat || (n =? 32)%nat || (n =? 160)%nat.

Fixpoint trim_start (s : string) : string :=
  match s with
  | String c rest => if is_white_space c then trim_start rest else s
  | EmptyString => EmptyString
  end.

Fixpoint trim_end (s : string) : string :=
  match s with
  | String c rest =>
      match trim_end rest with
      | EmptyString => if is_white_space c then EmptyString else String c EmptyString
      | rest' => String c rest'
      end
  | EmptyString => EmptyString
  end.

Definition trim (s : string) : string := trim_end (trim_start s).

(** [Array.prototype.join]. *)
Fixpoint join (sep : string) (l : list string) : string :=
  match l with
  | [] => ""
  | [x] => x
  | x :: rest => x +:+ sep +:+ join sep rest
  end.

(** [const key = header !== undefined ? header.trim() : false]; in
    [key + GUID] the boolean [false] is written as the text [false]. *)
Definition key_of (req : IncomingMessage) : option string :=
  trim <$> headers req !! "sec-websocket-key".

Definition key_text (key : option string) : string :=
  match key with
  | Some k => k
  | None => "false"
  end.

(** The callback of [offers['permessage-deflate'].map]: the values of
    [client_max_window_bits] are replaced by [[15]] when the first of them
    is [true]. *)
Definition normalize_params (params : gmap string (list ParamValue))
    : gmap string (list ParamValue) :=
  match params !! "client_max_window_bits" with
  | Some (PTrue :: _) =>
      <["client_max_window_bits" := [PNumber DEFAULT_CLIENT_MAX_WINDOW_BITS]]> params
  | _ => params
  end.

Section Upgrade.
Context `{Externals}.

Definition offers_of (req : IncomingMessage)
    : gmap string (list (gmap string (list ParamValue))) :=
  HeaderParser_parse (headers req !! "sec-websocket-extensions").

(** The [headers] array at the moment it is written. *)
Definition response_headers (req : IncomingMessage) : list string :=
  let digest := sha1_base64 (key_text (key_of req) +:+ GUID) in
  let headers :=
    ["HTTP/1.1 101 Switching Protocols";
     "Upgrade: websocket";
     "Connection: Upgrade";
     "Sec-WebSocket-Accept: " +:+ digest] in
  match offers_of req !! "permessage-deflate" with
  | Some offered =>
      let value :=
        HeaderParser_format
          {[ "permessage-deflate" := normalize_params <$> offered ]} in
      headers ++ ["Sec-WebSocket-Extensions: " +:+ value]
  | None => headers
  end.

(** [headers.concat('\r\n').join('\r\n')], the text given to
    [socket.write]. *)
Definition response_text (req : IncomingMessage) : string :=
  join CRLF (response_headers req ++ [CRLF]).

(** [!!(offers['permessage-deflate'] || false)]: an array is truthy. *)
Definition permessageDeflate_of (req : IncomingMessage) : bool :=
  bool_decide (is_Some (offers_of req !! "permessage-deflate")).

End Upgrade.

End WebsocketUpgrade.

(* ===================================================================== *)
(** ** The session broker and the extension-host supervisor *)
(* ===================================================================== *)

Module Broker.
Import Platform WebsocketUpgrade.

(** *** Identities *)

Definition SocketId := nat.   (* a [net.Socket] *)
Definition WsId := nat.       (* a [WebSocketNodeSocket] *)
Definition ProtoId := nat.    (* a [PersistentProtocol] *)
Definition HostId := nat.     (* an [ExtensionHost] *)
Definition DetailsId := nat.  (* a [...ReconnectionDetails] *)
Definition Pid := nat.        (* a [ChildProcess] *)

(** *** Messages *)

(** The object literals given to [JSON.stringify] are flat: a list of
    properties, in the order of the literal, each a string or a number. *)
Inductive JValue :=
| JString (s : string)
| JNumber (n : Z).

Definition JObject := list (string * JValue).

Definition okMessage : JObject := [("type", JString "ok")].
Definition signRequest : JObject :=
  [("type", JString "sign"); ("data", JString "")].
Definition errorMessage (reason : string) : JObject :=
  [("reason", JString reason); ("type", JString "error")].

(** The value of a property of an object literal. *)
Fixpoint property (name : string) (o : JObject) : option JValue :=
  match o with
  | [] => None
  | (k, v) :: rest => if String.eqb k name then Some v else property name rest
  end.

(** [ConnectionType] of remoteAgentConnection. *)
Inductive ConnectionType := Management | ExtensionHost | Tunnel.

(** [IRemoteExtensionHostStartParams]; [port] is [None] for [undefined]
    and for [null]. *)
Record StartParams := mkStartParams {
  language : option string;
  port : option Z;
  break : option bool
}.

(** [ConnectionTypeRequest]; an unknown or absent
    [desiredConnectionType] is [None]. *)
Record ConnectionTypeRequest := mkConnectionTypeRequest {
  desiredConnectionType : option ConnectionType;
  commit : option string;
  args : option StartParams
}.

(** A control message after [JSON.parse], by its [type]. *)
Inductive ControlMessage :=
| AuthRequest
| ConnectionTypeMessage (request : ConnectionTypeRequest)
| OtherControlMessage.

(** [IExtHostSocketMessage]. *)
Record ExtHostSocketMessage := mkExtHostSocketMessage {
  msg_type : string;
  initialDataChunk : string;
  msg_skipWebSocketFrames : bool;
  msg_permessageDeflate : bool;
  inflateBytes : string
}.

(** A message of the worker to the gateway, by its [type]. *)
Inductive WorkerMessage :=
| IpcReady                                   (* VSCODE_EXTHOST_IPC_READY *)
| ConsoleLog (severity arguments : string)   (* __$console *)
| OtherWorkerMessage.

(** *** Objects *)

(** [VSCodeProtocolHolder]: its fields are set by the constructor and
    never assigned again, so a holder is a value. *)
Record VSCodeProtocolHolder := mkHolder {
  webSocketNodeSocket : WsId;
  reconnection : bool;
  reconnectionToken : string;
  permessageDeflate : bool;
  skipWebSocketFrames : bool;
  persistentProtocol : ProtoId
}.

Definition getProtocol (holder : VSCodeProtocolHolder) : ProtoId :=
  persistentProtocol holder.
Definition getPermessageDeflate (holder : VSCodeProtocolHolder) : bool :=
  permessageDeflate holder.
Definition isReconnecting (holder : VSCodeProtocolHolder) : bool :=
  reconnection holder.
Definition isSkipWebSocketFrames (holder : VSCodeProtocolHolder) : bool :=
  skipWebSocketFrames holder.

(** Modelled from the spec: [PersistentProtocol] of
    vs/base/parts/ipc/common/ipc.net is not among the sources.  Of its
    state the broker observes the current socket ([getSocket]), the
    incoming bytes buffered and not yet consumed ([readEntireBuffer]
    drains them) and whether it was disposed. *)
Record PersistentProtocol := mkProtocol {
  pp_socket : WsId;
  pp_incoming : list byte;
  pp_disposed : bool
}.

(** Modelled from the spec: [WebSocketNodeSocket] of
    vs/base/parts/ipc/node/ipc.net is not among the sources.  It wraps
    the OS socket and keeps the recorded inflate bytes. *)
Record WebSocketNodeSocket := mkWebSocket {
  ws_socket : SocketId;
  ws_permessageDeflate : bool;
  recordedInflateBytes : list byte
}.

Record ManagementReconnectionDetails := mkManagementDetails {
  md_protocolHolder : VSCodeProtocolHolder;
  md_disposed : bool
}.

(** [onDidClientDisconnect] lists the listeners of the emitter of that
    name: each deletes the token it captured from
    [extensionHostConnections]. *)
Record ExtensionHostReconnectionDetails := mkExtensionHostDetails {
  ed_protocolHolder : VSCodeProtocolHolder;
  remoteStartParams : StartParams;
  ed_extensionHost : option HostId;
  ed_disposed : bool;
  ed_onDidClientDisconnect : list string
}.

Record ExtensionHostState := mkExtensionHost {
  eh_uriTransformerPath : string;
  eh_socket : SocketId;
  eh_protocolHolder : VSCodeProtocolHolder;
  eh_disposed : bool;
  extensionHostProcess : option Pid
}.

(** The listeners that [start] attaches to the events of the worker. *)
Inductive MessageListener :=
| onConsoleMessageListener (host : HostId)
| onMessageReadyListener (host : HostId) (initialDataChunk : string).

#[global] Instance MessageListener_eq_dec : EqDecision MessageListener.
Proof. solve_decision. Defined.

Record ChildProcess := mkChildProcess {
  messageListeners : list MessageListener;
  exitListeners : list HostId;
  errorListeners : list HostId
}.

(** *** Calls on the collaborators, in program order *)

Inductive Effect :=
| SocketWrite (s : SocketId) (data : string)
| SocketEnd (s : SocketId) (data : option string)
| SocketPause (s : SocketId)
| WsDrain (ws : WsId)
| WsDispose (ws : WsId)
| WsEnd (ws : WsId)
| SendControl (p : ProtoId) (message : JObject)
| SendDisconnect (p : ProtoId)
| ReadEntireBuffer (p : ProtoId)
| BeginAcceptReconnection (p : ProtoId) (ws : WsId) (initialDataChunk : list byte)
| EndAcceptReconnection (p : ProtoId)
| ProtocolDispose (p : ProtoId)
| ClientConnected (p : ProtoId) (details : DetailsId)
| Fork (pid : Pid) (modulePath : string) (argv execArgv : list string)
       (detached silent : bool)
| ProcessSend (pid : Pid) (message : ExtHostSocketMessage) (handle : SocketId)
| ProcessKill (pid : Pid).

(** *** The store *)

Record World := mkWorld {
  protocols : gmap ProtoId PersistentProtocol;
  websockets : gmap WsId WebSocketNodeSocket;
  hosts : gmap HostId ExtensionHostState;
  processes : gmap Pid ChildProcess;
  managementDetails : gmap DetailsId ManagementReconnectionDetails;
  extensionHostDetails : gmap DetailsId ExtensionHostReconnectionDetails;
  (** the two tables of [CheWebsocketHandler] *)
  managementConnections : gmap string DetailsId;
  extensionHostConnections : gmap string DetailsId;
  (** the subscriptions to [onControlMessage], with what each closure
      captured *)
  controlListeners : list (ProtoId * VSCodeProtocolHolder * SocketId);
  (** the number of objects created so far *)
  nextId : nat;
  trace : list Effect
}.

Definition empty_world : World :=
  mkWorld ∅ ∅ ∅ ∅ ∅ ∅ ∅ ∅ [] 0 [].

Definition set_protocols f w :=
  mkWorld (f (protocols w)) (websockets w) (hosts w) (processes w)
    (managementDetails w) (extensionHostDetails w) (managementConnections w)
    (extensionHostConnections w) (controlListeners w) (nextId w) (trace w).
Definition set_websockets f w :=
  mkWorld (protocols w) (f (websockets w)) (hosts w) (processes w)
    (managementDetails w) (extensionHostDetails w) (managementConnections w)
    (extensionHostConnections w) (controlListeners w) (nextId w) (trace w).
Definition set_hosts f w :=
  mkWorld (protocols w) (websockets w) (f (hosts w)) (processes w)
    (managementDetails w) (extensionHostDetails w) (managementConnections w)
    (extensionHostConnections w) (controlListeners w) (nextId w) (trace w).
Definition set_processes f w :=
  mkWorld (protocols w) (websockets w) (hosts w) (f (processes w))
    (managementDetails w) (extensionHostDetails w) (managementConnections w)
    (extensionHostConnections w) (controlListeners w) (nextId w) (trace w).
Definition set_managementDetails f w :=
  mkWorld (protocols w) (websockets w) (hosts w) (processes w)
    (f (managementDetails w)) (extensionHostDetails w) (managementConnections w)
    (extensionHostConnections w) (controlListeners w) (nextId w) (trace w).
Definition set_extensionHostDetails f w :=
  mkWorld (protocols w) (websockets w) (hosts w) (processes w)
    (managementDetails w) (f (extensionHostDetails w)) (managementConnections w)
    (extensionHostConnections w) (controlListeners w) (nextId w) (trace w).
Definition set_managementConnections f w :=
  mkWorld (protocols w) (websockets w) (hosts w) (processes w)
    (managementDetails w) (extensionHostDetails w) (f (managementConnections w))
    (extensionHostConnections w) (controlListeners w) (nextId w) (trace w).
Definition set_extensionHostConnections f w :=
  mkWorld (protocols w) (websockets w) (hosts w) (processes w)
    (managementDetails w) (extensionHostDetails w) (managementConnections w)
    (f (extensionHostConnections w)) (controlListeners w) (nextId w) (trace w).
Definition set_controlListeners f w :=
  mkWorld (protocols w) (websockets w) (hosts w) (processes w)
    (managementDetails w) (extensionHostDetails w) (managementConnections w)
    (extensionHostConnections w) (f (controlListeners w)) (nextId w) (trace w).
Definition set_nextId f w :=
  mkWorld (protocols w) (websockets w) (hosts w) (processes w)
    (managementDetails w) (extensionHostDetails w) (managementConnections w)
    (extensionHostConnections w) (controlListeners w) (f (nextId w)) (trace w).
Definition set_trace f w :=
  mkWorld (protocols w) (websockets w) (hosts w) (processes w)
    (managementDetails w) (extensionHostDetails w) (managementConnections w)
    (extensionHostConnections w) (controlListeners w) (nextId w) (f (trace w)).

(** *** The monad of gateway code

    A computation runs on the store and returns, throws (for an [async]
    function: its promise is rejected), or follows a reference to an
    object that is not in the store, which no run that creates its
    objects through the gateway does.  A handler runs to its end before
    the next event is taken: the interleavings that [await] allows are
    not part of the model. *)

Inductive Outcome (A : Type) :=
| Returned (a : A)
| Thrown (message : string)
| Dangling.
Arguments Returned {A} a.
Arguments Thrown {A} message.
Arguments Dangling {A}.

Definition M (A : Type) : Type := World -> Outcome A * World.

#[global] Instance M_ret : MRet M := fun A a w => (Returned a, w).
#[global] Instance M_bind : MBind M := fun A B f m w =>
  match m w with
  | (Returned a, w') => f a w'
  | (Thrown msg, w') => (Thrown msg, w')
  | (Dangling, w') => (Dangling, w')
  end.

Definition get : M World := fun w => (Returned w, w).
Definition modify (f : World -> World) : M unit := fun w => (Returned tt, f w).
Definition throw {A} (message : string) : M A := fun w => (Thrown message, w).
Definition deref {A} (o : option A) : M A :=
  fun w => match o with Some a => (Returned a, w) | None => (Dangling, w) end.
Definition emit (e : Effect) : M unit := modify (set_trace (fun t => (t ++ [e])%list)).
Definition fresh : M nat :=
  fun w => (Returned (nextId w), set_nextId S w).

(** The final store of a computation. *)
Definition exec {A} (m : M A) (w : World) : World := snd (m w).

Fixpoint forEach {A} (f : A -> M unit) (l : list A) : M unit :=
  match l with
  | [] => mret tt
  | x :: rest => f x;; forEach f rest
  end.

(** *** Observations on the trace *)

Definition is_kill (e : Effect) : bool :=
  match e with ProcessKill _ => true | _ => false end.

Definition not_kill (e : Effect) : Prop := is_kill e = false.

Definition is_ready (message : WorkerMessage) : bool :=
  match message with IpcReady => true | _ => false end.

(** The computation [m] adds to the trace only calls that satisfy [P],
    from whatever store it starts. *)
Definition only (P : Effect -> Prop) {A} (m : M A) : Prop :=
  forall w, exists added,
    trace (snd (m w)) = trace w ++ added /\ Forall P added.

(** *** Access to the objects of the store *)

Definition theProtocol (p : ProtoId) : M PersistentProtocol :=
  w ← get; deref (protocols w !! p).
Definition theWebSocket (ws : WsId) : M WebSocketNodeSocket :=
  w ← get; deref (websockets w !! ws).
Definition theHost (h : HostId) : M ExtensionHostState :=
  w ← get; deref (hosts w !! h).
Definition theProcess (pid : Pid) : M ChildProcess :=
  w ← get; deref (processes w !! pid).
Definition theManagementDetails (d : DetailsId) : M ManagementReconnectionDetails :=
  w ← get; deref (managementDetails w !! d).
Definition theExtensionHostDetails (d : DetailsId)
    : M ExtensionHostReconnectionDetails :=
  w ← get; deref (extensionHostDetails w !! d).

(** *** PersistentProtocol *)

(** Modelled from the spec: [PersistentProtocol.getSocket], the socket
    the protocol currently rides on. *)
Definition getSocket (p : ProtoId) : M WsId :=
  st ← theProtocol p; mret (pp_socket st).

(** Modelled from the spec: [PersistentProtocol.sendControl]; the call is
    recorded with the object whose JSON text is sent. *)
Definition sendControl (p : ProtoId) (message : JObject) : M unit :=
  emit (SendControl p message).

(** Modelled from the spec: [PersistentProtocol.sendDisconnect]. *)
Definition sendDisconnect (p : ProtoId) : M unit :=
  emit (SendDisconnect p).

(** Modelled from the spec: [PersistentProtocol.readEntireBuffer] drains
    all currently buffered incoming bytes and returns them. *)
Definition readEntireBuffer (p : ProtoId) : M (list byte) :=
  st ← theProtocol p;
  emit (ReadEntireBuffer p);;
  modify (set_protocols
            <[p := mkProtocol (pp_socket st) [] (pp_disposed st)]>);;
  mret (pp_incoming st).

(** Modelled from the spec: [PersistentProtocol.beginAcceptReconnection]
    swaps the socket and takes the residual bytes as if they had arrived
    on the new socket. *)
Definition beginAcceptReconnection (p : ProtoId) (socket : WsId)
    (initialDataChunk : list byte) : M unit :=
  st ← theProtocol p;
  emit (BeginAcceptReconnection p socket initialDataChunk);;
  modify (set_protocols
            <[p := mkProtocol socket (pp_incoming st ++ initialDataChunk)%list
                              (pp_disposed st)]>).

(** Modelled from the spec: [PersistentProtocol.endAcceptReconnection],
    which closes the swap (and replays what was not acknowledged). *)
Definition endAcceptReconnection (p : ProtoId) : M unit :=
  emit (EndAcceptReconnection p).

(** Modelled from the spec: [PersistentProtocol.dispose]. *)
Definition protocol_dispose (p : ProtoId) : M unit :=
  st ← theProtocol p;
  emit (ProtocolDispose p);;
  modify (set_protocols
            <[p := mkProtocol (pp_socket st) (pp_incoming st) true]>).

(** *** VSCodeProtocolHolder *)

(** [sendControl(VSBuffer.fromString(JSON.stringify(request)))]: the
    trace keeps the object that is stringified. *)
Definition sendControlMessage (holder : VSCodeProtocolHolder)
    (request : JObject) : M unit :=
  sendControl (persistentProtocol holder) request.

(** *** ManagementReconnectionDetails *)

Definition ManagementReconnectionDetails_reconnect (this : DetailsId)
    (protocolHolder : VSCodeProtocolHolder) : M unit :=
  self ← theManagementDetails this;
  let protocolToConnect := getProtocol protocolHolder in
  sendControlMessage protocolHolder okMessage;;
  entireBuffer ← readEntireBuffer protocolToConnect;
  socket ← getSocket protocolToConnect;
  beginAcceptReconnection (getProtocol (md_protocolHolder self)) socket entireBuffer;;
  endAcceptReconnection (getProtocol (md_protocolHolder self));;
  protocol_dispose protocolToConnect.

Definition ManagementReconnectionDetails_dispose (this : DetailsId) : M unit :=
  self ← theManagementDetails this;
  if md_disposed self then mret tt
  else
    modify (set_managementDetails
              <[this := mkManagementDetails (md_protocolHolder self) true]>);;
    let protocol := getProtocol (md_protocolHolder self) in
    socket ← getSocket protocol;
    sendDisconnect protocol;;
    protocol_dispose protocol;;
    emit (WsEnd socket).

Section Gateway.
Context `{Externals}.

(** *** ExtensionHost *)

(** [if (debugPort)]: a number other than zero. *)
Definition truthy_port (debugPort : option Z) : option Z :=
  match debugPort with
  | Some n => if (n =? 0)%Z then None else Some n
  | None => None
  end.

(** The object literal that [connect] sends: [{ debugPort }] or [{}]. *)
Definition connect_message (debugPort : option Z) : JObject :=
  match truthy_port debugPort with
  | Some n => [("debugPort", JNumber n)]
  | None => []
  end.

(** The buffer is read from [this.protocolHolder], the protocol that is
    disposed is that of the argument, the socket paused is
    [this.socket]. *)
Definition ExtensionHost_connect (this : HostId)
    (protocolHolder : VSCodeProtocolHolder) (debugPort : option Z) : M string :=
  match truthy_port debugPort with
  | Some n => sendControlMessage protocolHolder [("debugPort", JNumber n)]
  | None => sendControlMessage protocolHolder []
  end;;
  self ← theHost this;
  buffer ← readEntireBuffer (getProtocol (eh_protocolHolder self));
  let initialDataChunk := base64 buffer in
  protocol_dispose (getProtocol protocolHolder);;
  emit (SocketPause (eh_socket self));;
  mret initialDataChunk.

Definition sendExthostIpcSocket (this : HostId) (webSocketNodeSocket : WsId)
    (socket : SocketId) (extensionHostProcess : Pid)
    (initialDataChunk : string) (permessageDeflate : bool) : M unit :=
  emit (WsDrain webSocketNodeSocket);;
  ws ← theWebSocket webSocketNodeSocket;
  let inflateBytes := base64 (recordedInflateBytes ws) in
  self ← theHost this;
  let extHostSocketMessage :=
    mkExtHostSocketMessage "VSCODE_EXTHOST_IPC_SOCKET" initialDataChunk
      (isSkipWebSocketFrames (eh_protocolHolder self))
      permessageDeflate inflateBytes in
  emit (ProcessSend extensionHostProcess extHostSocketMessage socket).

Definition ExtensionHost_reconnect (this : HostId)
    (protocolHolder : VSCodeProtocolHolder) (socket : SocketId)
    (debugPort : option Z) : M unit :=
  self ← theHost this;
  match extensionHostProcess self with
  | None => throw "Extension host process is not defined"
  | Some process =>
      initialDataChunk ← ExtensionHost_connect this protocolHolder debugPort;
      modify (set_hosts (alter (fun e =>
        mkExtensionHost (eh_uriTransformerPath e) (eh_socket e) protocolHolder
                        (eh_disposed e) (extensionHostProcess e)) this));;
      sendExthostIpcSocket this (webSocketNodeSocket protocolHolder) socket
        process initialDataChunk (getPermessageDeflate protocolHolder)
  end.

Definition ExtensionHost_dispose (this : HostId) : M unit :=
  self ← theHost this;
  if eh_disposed self then mret tt
  else
    modify (set_hosts
              <[this := mkExtensionHost (eh_uriTransformerPath self)
                          (eh_socket self) (eh_protocolHolder self) true
                          (extensionHostProcess self)]>);;
    emit (SocketEnd (eh_socket self) None);;
    match extensionHostProcess self with
    | Some process => emit (ProcessKill process)
    | None => mret tt
    end.

(** [opts.execArgv]: [--inspect[-brk]=0.0.0.0:<port>] when the port is
    a number other than zero. *)
Definition execArgv_of (startParams : StartParams) : list string :=
  match truthy_port (port startParams) with
  | Some n =>
      ["--inspect"
       +:+ (if default false (break startParams) then "-brk" else "")
       +:+ "=0.0.0.0:" +:+ pretty n]
  | None => []
  end.

(** [start]: the listeners on the streams of the worker only log and
    are left out, as is the environment given to [fork]; the pid is the
    number of the process among the objects created. *)
Definition ExtensionHost_start (this : HostId) (startParams : StartParams)
    : M unit :=
  self ← theHost this;
  initialDataChunk ←
    ExtensionHost_connect this (eh_protocolHolder self) (port startParams);
  process ← fresh;
  emit (Fork process "bootstrap-fork"
          ["--type=extensionHost";
           "--uriTransformerPath=" +:+ eh_uriTransformerPath self]
          (execArgv_of startParams) isWindows true);;
  modify (set_hosts (alter (fun e =>
    mkExtensionHost (eh_uriTransformerPath e) (eh_socket e)
                    (eh_protocolHolder e) (eh_disposed e) (Some process)) this));;
  modify (set_processes
            <[process := mkChildProcess
                [onConsoleMessageListener this;
                 onMessageReadyListener this initialDataChunk]
                [this] [this]]>).

(** [removeListener]: the most recently added instance goes. *)
Fixpoint remove_first (l : MessageListener) (ls : list MessageListener)
    : list MessageListener :=
  match ls with
  | [] => []
  | x :: rest => if decide (x = l) then rest else x :: remove_first l rest
  end.

Definition removeListener (l : MessageListener) (ls : list MessageListener)
    : list MessageListener :=
  rev (remove_first l (rev ls)).

(** One listener of the [message] event of the worker [process]. *)
Definition call_message_listener (process : Pid) (message : WorkerMessage)
    (l : MessageListener) : M unit :=
  match l with
  | onConsoleMessageListener _ => mret tt        (* logs *)
  | onMessageReadyListener this initialDataChunk =>
      match message with
      | IpcReady =>
          modify (set_processes (alter (fun c =>
            mkChildProcess (removeListener l (messageListeners c))
                           (exitListeners c) (errorListeners c)) process));;
          self ← theHost this;
          sendExthostIpcSocket this
            (webSocketNodeSocket (eh_protocolHolder self)) (eh_socket self)
            process initialDataChunk
            (getPermessageDeflate (eh_protocolHolder self))
      | _ => mret tt
      end
  end.

(** The worker [process] emits [message]: the listeners attached at
    that moment are called in the order of their attachment. *)
Definition worker_message (process : Pid) (message : WorkerMessage) : M unit :=
  c ← theProcess process;
  forEach (call_message_listener process message) (messageListeners c).

Definition worker_exit (process : Pid) : M unit :=
  c ← theProcess process;
  forEach ExtensionHost_dispose (exitListeners c).

Definition worker_error (process : Pid) : M unit :=
  c ← theProcess process;
  forEach ExtensionHost_dispose (errorListeners c).

Definition worker_messages (process : Pid) (messages : list WorkerMessage)
    : M unit :=
  forEach (worker_message process) messages.

(** *** ExtensionHostReconnectionDetails *)

Definition setExtensionHost (d : DetailsId) (extensionHost : option HostId)
    : M unit :=
  modify (set_extensionHostDetails (alter (fun e =>
    mkExtensionHostDetails (ed_protocolHolder e) (remoteStartParams e)
      extensionHost (ed_disposed e) (ed_onDidClientDisconnect e)) d)).

(** [dispose]: the worker is disposed and [onDidClientDisconnect] is
    fired, whose listeners delete the entry of the session. *)
Definition ExtensionHostReconnectionDetails_dispose (this : DetailsId) : M unit :=
  self ← theExtensionHostDetails this;
  if ed_disposed self then mret tt
  else
    match ed_extensionHost self with
    | Some extensionHost =>
        ExtensionHost_dispose extensionHost;;
        setExtensionHost this None
    | None => mret tt
    end;;
    forEach (fun token => modify (set_extensionHostConnections (delete token)))
            (ed_onDidClientDisconnect self).

(** *** WebsocketUpgrade.upgradeSocket on the store *)

(** The response is written, whatever the key; the framed channel is
    created with no inflate bytes recorded yet. *)
Definition upgradeSocket (req : IncomingMessage) (socket : SocketId)
    : M (WsId * bool) :=
  emit (SocketWrite socket (response_text req));;
  let permessageDeflate := permessageDeflate_of req in
  websocketNodeSocket ← fresh;
  modify (set_websockets
            <[websocketNodeSocket := mkWebSocket socket permessageDeflate []]>);;
  mret (websocketNodeSocket, permessageDeflate).

(** *** CheWebsocketHandler *)

Definition BAD_REQUEST : string := "HTTP/1.1 400 Bad Request" +:+ CRLF +:+ CRLF.

(** [parsedQuery.name === 'true'] *)
Definition is_true_text (v : option QueryValue) : bool :=
  match v with
  | Some (QString s) => String.eqb s "true"
  | _ => false
  end.

Definition handleAuthRequest (protocolHolder : VSCodeProtocolHolder) : M unit :=
  sendControlMessage protocolHolder signRequest.

Definition abortWebSocketConnection (protocolHolder : VSCodeProtocolHolder)
    (reason : string) : M unit :=
  let persistentProtocol := getProtocol protocolHolder in
  sendControl persistentProtocol (errorMessage reason);;
  protocol_dispose persistentProtocol;;
  socket ← getSocket persistentProtocol;
  emit (WsDrain socket);;
  socket' ← getSocket persistentProtocol;
  emit (WsDispose socket').

(** [{ language: 'en', ...connectionTypeRequest.args }] *)
Definition startParams_of (request : ConnectionTypeRequest) : StartParams :=
  match args request with
  | Some a =>
      mkStartParams (Some (default "en" (language a))) (port a) (break a)
  | None => mkStartParams (Some "en") None None
  end.

(** [validateDebugPort]: a port [0] is replaced by the free port that
    the system finds. *)
Definition validateDebugPort (params : StartParams) : M StartParams :=
  match port params with
  | Some 0%Z =>
      w ← get;
      mret (mkStartParams (language params) (Some (findFreePort (nextId w)))
                          (break params))
  | _ => mret params
  end.

(** [remoteStartParams.port || 0] *)
Definition port_or_zero (params : StartParams) : option Z :=
  Some (default 0%Z (port params)).

Definition handleConnectionTypeRequest (request : ConnectionTypeRequest)
    (protocolHolder : VSCodeProtocolHolder) (socket : SocketId) : M unit :=
  let token := reconnectionToken protocolHolder in
  match desiredConnectionType request with
  | Some Management =>
      w ← get;
      match managementConnections w !! token with
      | None =>
          if isReconnecting protocolHolder then
            abortWebSocketConnection protocolHolder
              "Asking to reconnect but provided token is unknown"
          else
            details ← fresh;
            modify (set_managementDetails
                      <[details := mkManagementDetails protocolHolder false]>);;
            modify (set_managementConnections <[token := details]>);;
            emit (ClientConnected (getProtocol protocolHolder) details);;
            sendControlMessage protocolHolder okMessage
      | Some managementConnectionDetails =>
          ManagementReconnectionDetails_reconnect
            managementConnectionDetails protocolHolder;;
          sendControlMessage protocolHolder okMessage
      end
  | Some ExtensionHost =>
      let remoteExtensionHostStartParams := startParams_of request in
      w ← get;
      match extensionHostConnections w !! token with
      | None =>
          if isReconnecting protocolHolder then
            abortWebSocketConnection protocolHolder
              "Reconnecting but no previous connection has been found. Aborting."
          else
            details ← fresh;
            modify (set_extensionHostDetails
                      <[details := mkExtensionHostDetails protocolHolder
                          remoteExtensionHostStartParams None false []]>);;
            modify (set_extensionHostConnections <[token := details]>);;
            modify (set_extensionHostDetails (alter (fun e =>
              mkExtensionHostDetails (ed_protocolHolder e) (remoteStartParams e)
                (ed_extensionHost e) (ed_disposed e)
                (ed_onDidClientDisconnect e ++ [token])%list) details));;
            (* the port is assigned in the object that the details hold *)
            validated ← validateDebugPort remoteExtensionHostStartParams;
            modify (set_extensionHostDetails (alter (fun e =>
              mkExtensionHostDetails (ed_protocolHolder e) validated
                (ed_extensionHost e) (ed_disposed e)
                (ed_onDidClientDisconnect e)) details));;
            extensionHost ← fresh;
            modify (set_hosts
                      <[extensionHost := mkExtensionHost uriTransformerPath socket
                                           protocolHolder false None]>);;
            setExtensionHost details (Some extensionHost);;
            ExtensionHost_start extensionHost validated;;
            sendControlMessage protocolHolder okMessage
      | Some extensionHostConnectionDetails =>
          details ← theExtensionHostDetails extensionHostConnectionDetails;
          match ed_extensionHost details with
          | None =>
              abortWebSocketConnection protocolHolder
                "Extension host is not defined"
          | Some extensionHostProcess =>
              (* the promise of [reconnect] is returned, not awaited:
                 its rejection does not reach the [catch] *)
              ExtensionHost_reconnect extensionHostProcess protocolHolder socket
                (port_or_zero (remoteStartParams details))
          end
      end
  | Some Tunnel => sendControlMessage protocolHolder okMessage
  | None => sendControlMessage protocolHolder okMessage
  end.

(** The listener that [handle] gives to [onControlMessage]; the promise
    of [handleConnectionTypeRequest] is dropped, so a rejection stays
    there. *)
Definition unawaited (m : M unit) : M unit :=
  fun w => match m w with
           | (Thrown _, w') => (Returned tt, w')
           | r => r
           end.

Definition control_listener (protocolHolder : VSCodeProtocolHolder)
    (socket : SocketId) (message : ControlMessage) : M unit :=
  match message with
  | AuthRequest => handleAuthRequest protocolHolder
  | ConnectionTypeMessage request =>
      unawaited (handleConnectionTypeRequest request protocolHolder socket)
  | OtherControlMessage => mret tt
  end.

Definition handle (req : IncomingMessage) (socket : SocketId) : M unit :=
  '(websocketNodeSocket, permessageDeflate) ← upgradeSocket req socket;
  let parsedQuery := parseQuery (default "" (url req)) in
  let reconnectionToken := parsedQuery !! "reconnectionToken" in
  let reconnection := is_true_text (parsedQuery !! "reconnection") in
  let skipWebSocketFrames := is_true_text (parsedQuery !! "skipWebSocketFrames") in
  match reconnectionToken with
  | Some (QString token) =>
      if String.eqb token "" then emit (SocketEnd socket (Some BAD_REQUEST))
      else
        protocol ← fresh;
        modify (set_protocols
                  <[protocol := mkProtocol websocketNodeSocket [] false]>);;
        let protocolHolder :=
          mkHolder websocketNodeSocket reconnection token permessageDeflate
                   skipWebSocketFrames protocol in
        modify (set_controlListeners
                  (fun l => (l ++ [(protocol, protocolHolder, socket)])%list))
  | Some (QArray _) => emit (SocketEnd socket (Some BAD_REQUEST))
  | None => emit (SocketEnd socket (Some BAD_REQUEST))
  end.

(** A control message arrives on [protocol]: the listeners subscribed
    to it are called. *)
Definition control_message (protocol : ProtoId) (message : ControlMessage)
    : M unit :=
  w ← get;
  forEach (fun '(p, protocolHolder, socket) =>
             if (p =? protocol)%nat
             then control_listener protocolHolder socket message
             else mret tt)
          (controlListeners w).

End Gateway.

End Broker.

(* ===================================================================== *)
(** ** A concrete platform and concrete requests *)
(* ===================================================================== *)

Module Examples.
Import Platform WebsocketUpgrade Broker.

(** The offer [permessage-deflate; client_max_window_bits], parsed. *)
Definition deflate_offer : gmap string (list (gmap string (list ParamValue))) :=
  {[ "permessage-deflate" := [ {[ "client_max_window_bits" := [PTrue] ]} ] ]}.

(** One platform, for statements about concrete requests: digests and
    encodings are written symbolically, the parsers know the headers and
    the request targets used below. *)
#[global] Instance platform : Externals := {|
  sha1_base64 := fun s => "sha1-base64(" +:+ s +:+ ")";
  base64 := fun b => "base64(" +:+ String.string_of_list_byte b +:+ ")";
  HeaderParser_parse := fun h =>
    match h with
    | Some "permessage-deflate; client_max_window_bits" => deflate_offer
    | _ => ∅
    end;
  HeaderParser_format := fun offers =>
    match offers !! "permessage-deflate" with
    | Some [params] =>
        match params !! "client_max_window_bits" with
        | Some [PNumber n] =>
            "permessage-deflate; client_max_window_bits=" +:+ pretty n
        | _ => "permessage-deflate"
        end
    | _ => ""
    end;
  parseQuery := fun u =>
    if String.eqb u "/?reconnectionToken=T1&reconnection=false" then
      {[ "reconnectionToken" := QString "T1"; "reconnection" := QString "false" ]}
    else if String.eqb u "/?reconnectionToken=T1&reconnection=true" then
      {[ "reconnectionToken" := QString "T1"; "reconnection" := QString "true" ]}
    else if String.eqb u "/?reconnectionToken=T2&reconnection=false" then
      {[ "reconnectionToken" := QString "T2"; "reconnection" := QString "false" ]}
    else if String.eqb u "/?reconnectionToken=T2&reconnection=true" then
      {[ "reconnectionToken" := QString "T2"; "reconnection" := QString "true" ]}
    else if String.eqb u "/?reconnectionToken=T99&reconnection=true" then
      {[ "reconnectionToken" := QString "T99"; "reconnection" := QString "true" ]}
    else if String.eqb u "/?reconnectionToken=T1&reconnectionToken=T2" then
      {[ "reconnectionToken" := QArray ["T1"; "T2"] ]}
    else ∅;
  findFreePort := fun n => (9229 + Z.of_nat n)%Z;
  isWindows := false;
  uriTransformerPath := "/checode/out/vs/che/node/che-uri-transformer"
|}.

(** The key of the example of RFC 6455, with an offer of compression. *)
Definition rfc_request : IncomingMessage :=
  mkRequest (Some "/?reconnectionToken=T1&reconnection=false")
    {[ "sec-websocket-key" := "dGhlIHNhbXBsZSBub25jZQ==";
       "sec-websocket-extensions" := "permessage-deflate; client_max_window_bits" ]}.

(** The same key between a no-break space and a space. *)
Definition padded_key_request : IncomingMessage :=
  mkRequest (Some "/?reconnectionToken=T1&reconnection=false")
    {[ "sec-websocket-key" :=
         String (Ascii.ascii_of_nat 160) "dGhlIHNhbXBsZSBub25jZQ== " ]}.

(** A request without the header. *)
Definition missing_key_request : IncomingMessage :=
  mkRequest (Some "/?reconnectionToken=T1&reconnection=false") ∅.

(** A key that is not the base64 text of sixteen bytes. *)
Definition malformed_key_request : IncomingMessage :=
  mkRequest (Some "/?reconnectionToken=T1&reconnection=false")
    {[ "sec-websocket-key" := "!!" ]}.

Definition request (target : string) : IncomingMessage :=
  mkRequest (Some target) {[ "sec-websocket-key" := "dGhlIHNhbXBsZSBub25jZQ==" ]}.

End Examples.

Module Scenario.
Import Platform WebsocketUpgrade Broker Examples.

Definition management_request : ConnectionTypeRequest :=
  mkConnectionTypeRequest (Some Management) (Some "abc") None.

(** An extension-host request that asks for a debug port to be found. *)
Definition extension_host_request : ConnectionTypeRequest :=
  mkConnectionTypeRequest (Some ExtensionHost) (Some "abc")
    (Some (mkStartParams None (Some 0%Z) None)).

(** Scenario 1 of the specification: a fresh management session [T1] on
    the OS socket 10.  The websocket is object 0, the protocol object 1,
    the session object 2. *)
Definition fresh_management : World :=
  exec (control_message 1 (ConnectionTypeMessage management_request))
    (exec (control_message 1 AuthRequest)
       (exec (handle (request "/?reconnectionToken=T1&reconnection=false") 10)
             empty_world)).

Definition first_holder_T1 : VSCodeProtocolHolder :=
  mkHolder 0 false "T1" false false 1.

(** Scenario 2, up to the [connectionType] message: a second socket, 11,
    for [T1] with [reconnection=true].  Its websocket is object 3, its
    protocol object 4. *)
Definition second_socket_T1 : World :=
  exec (handle (request "/?reconnectionToken=T1&reconnection=true") 11)
       fresh_management.

Definition second_holder_T1 : VSCodeProtocolHolder :=
  mkHolder 3 true "T1" false false 4.

(** Scenario 3, up to the [connectionType] message. *)
Definition unknown_token_socket : World :=
  exec (handle (request "/?reconnectionToken=T99&reconnection=true") 10)
       empty_world.

Definition holder_T99 : VSCodeProtocolHolder :=
  mkHolder 0 true "T99" false false 1.

(** Scenario 4: a fresh extension-host session [T2] on the OS socket 20:
    websocket 0, protocol 1, session 2, extension host 3, worker 4, which
    then says it is ready. *)
Definition fresh_extension_host : World :=
  exec (worker_message 4 IpcReady)
    (exec (control_message 1 (ConnectionTypeMessage extension_host_request))
       (exec (handle (request "/?reconnectionToken=T2&reconnection=false") 20)
             empty_world)).

Definition first_holder_T2 : VSCodeProtocolHolder :=
  mkHolder 0 false "T2" false false 1.

(** Scenario 5, up to the [connectionType] message: a second socket, 21,
    for [T2]: websocket 5, protocol 6. *)
Definition second_socket_T2 : World :=
  exec (handle (request "/?reconnectionToken=T2&reconnection=true") 21)
       fresh_extension_host.

Definition second_holder_T2 : VSCodeProtocolHolder :=
  mkHolder 5 true "T2" false false 6.

(** The store in which [handleConnectionTypeRequest] calls [start]: the
    socket 20 is upgraded and the extension host, object 2, is
    instantiated on it. *)
Definition before_start : World :=
  exec (h ← fresh;
        modify (set_hosts
                  <[h := mkExtensionHost uriTransformerPath 20 first_holder_T2
                           false None]>))
    (exec (handle (request "/?reconnectionToken=T2&reconnection=false") 20)
          empty_world).

End Scenario.

(* ===================================================================== *)
(** ** Invariants of gateway code *)
(* ===================================================================== *)

Module Invariants.
Import Platform WebsocketUpgrade Broker.

(** The computation [m] keeps the property [I] of the store: if [I] holds
    of the store it starts from, [I] holds of the store it leaves, however
    it ends. *)
Definition preserves (I : World -> Prop) {A} (m : M A) : Prop :=
  forall w, I w -> I (snd (m w)).

(** What can happen to the gateway: an upgrade request on a socket, a
    control message on a protocol, a message, the exit or an error of a
    worker, and the disposal of a session or of an extension host. *)
Inductive GatewayEvent :=
| Upgrade (req : IncomingMessage) (socket : SocketId)
| Control (protocol : ProtoId) (message : ControlMessage)
| FromWorker (process : Pid) (message : WorkerMessage)
| WorkerExit (process : Pid)
| WorkerError (process : Pid)
| DisposeManagementSession (details : DetailsId)
| DisposeExtensionHostSession (details : DetailsId)
| DisposeExtensionHost (host : HostId).

Section Events.
Context `{Externals}.

Definition react (ev : GatewayEvent) : M unit :=
  match ev with
  | Upgrade req socket => handle req socket
  | Control protocol message => control_message protocol message
  | FromWorker process message => worker_message process message
  | WorkerExit process => worker_exit process
  | WorkerError process => worker_error process
  | DisposeManagementSession details => ManagementReconnectionDetails_dispose details
  | DisposeExtensionHostSession details =>
      ExtensionHostReconnectionDetails_dispose details
  | DisposeExtensionHost host => ExtensionHost_dispose host
  end.

(** The store after a sequence of events, each handler run to its end. *)
Fixpoint after (evs : list GatewayEvent) (w : World) : World :=
  match evs with
  | [] => w
  | ev :: rest => after rest (exec (react ev) w)
  end.

End Events.
End Invariants.

(* ===================================================================== *)
(** ** Stores between the steps of a first connect *)
(* ===================================================================== *)

Module Transient.
Import Platform WebsocketUpgrade Broker Examples Scenario.

(** The socket 10 is upgraded for the token [T1]: websocket 0,
    protocol 1; no [connectionType] message has arrived yet. *)
Definition upgraded_T1 : World :=
  exec (handle (request "/?reconnectionToken=T1&reconnection=false") 10)
       empty_world.

(** The socket 20 is upgraded for the token [T2]: websocket 0,
    protocol 1. *)
Definition upgraded_T2 : World :=
  exec (handle (request "/?reconnectionToken=T2&reconnection=false") 20)
       empty_world.

(** The first connect for [T2] has stored the session, object 2, under
    the token and waits for the debug port. *)
Definition session_stored_T2 : World :=
  exec (details ← fresh;
        modify (set_extensionHostDetails
                  <[details := mkExtensionHostDetails first_holder_T2
                      (startParams_of extension_host_request) None false
                      ["T2"]]>);;
        modify (set_extensionHostConnections <["T2" := details]>))
       upgraded_T2.

(** A second socket, 21, for [T2] arrives meanwhile: websocket 3,
    protocol 4. *)
Definition session_without_host : World :=
  exec (handle (request "/?reconnectionToken=T2&reconnection=true") 21)
       session_stored_T2.

Definition early_holder_T2 : VSCodeProtocolHolder :=
  mkHolder 3 true "T2" false false 4.

(** The first connect has gone on to instantiate the extension host,
    object 3, and has not forked the worker yet; then the second socket
    arrives: websocket 4, protocol 5. *)
Definition host_without_process : World :=
  exec (handle (request "/?reconnectionToken=T2&reconnection=true") 21)
    (exec (h ← fresh;
           modify (set_hosts
                     <[h := mkExtensionHost uriTransformerPath 20 first_holder_T2
                              false None]>);;
           setExtensionHost 2 (Some h))
          session_stored_T2).

Definition later_holder_T2 : VSCodeProtocolHolder :=
  mkHolder 4 true "T2" false false 5.

End Transient.

(* ===================================================================== *)
(** ** The HTTP side: HttpMessage and CheHttpRequestHandler *)
(* ===================================================================== *)

Module Http.
Import Platform WebsocketUpgrade.

(** The fields of [fs.Stats] that [serveFile] reads; [mtime] is
    [stat.mtime.getTime()]. *)
Record Stats := mkStats {
  ino : Z;
  size : Z;
  mtime : Z
}.

(** The values given to [JSON.stringify] by the handler. *)
Local Unset Elimination Schemes.
Inductive Json :=
| JsonString (s : string)
| JsonArray (items : list Json)
| JsonObject (properties : list (string * Json)).
Local Set Elimination Schemes.

(** What the handler calls and this repository does not define: Node's
    [url], [path], [fs] and [process], and the built-ins of the
    language. *)
Class Node := {
  (** [url.parse(u, true)]: the pathname, if any, and the query *)
  url_parse : string -> option string * gmap string QueryValue;
  (** [path.extname], [path.normalize], [path.join] *)
  path_extname : string -> string;
  path_normalize : string -> string;
  path_join : list string -> string;
  (** [String.prototype.toLowerCase] *)
  toLowerCase : string -> string;
  (** [decodeURIComponent]; [None] when it throws a [URIError] *)
  decodeURIComponent : string -> option string;
  (** [fs.stat]; [None] when it fails *)
  fs_stat : string -> option Stats;
  (** [fs.promises.readFile(file, 'utf-8')]; [None] when it fails *)
  fs_readFile : string -> option string;
  (** [JSON.stringify] *)
  JSON_stringify : Json -> string;
  (** [__dirname] of the handler *)
  dirname : string;
  (** whether [process.env['VSCODE_DEV']] is set to a non-empty text *)
  VSCODE_DEV : bool
}.

(** The calls on the [ServerResponse], in program order; a header object
    is the list of its properties in the order of their creation. *)
Inductive ResponseCall :=
| WriteHead (code : nat) (headers : list (string * string))
| EndResponse (content : option string)
| Pipe (filePath : string).

(** How the promise of an [async] method ends. *)
Inductive Settled :=
| Resolved
| Rejected.

(** [object[key] = value]: a key that exists keeps its place. *)
Fixpoint set_header (key value : string) (headers : list (string * string))
    : list (string * string) :=
  match headers with
  | [] => [(key, value)]
  | (k, v) :: rest =>
      if String.eqb k key then (k, value) :: rest
      else (k, v) :: set_header key value rest
  end.

Fixpoint get_header (key : string) (headers : list (string * string))
    : option string :=
  match headers with
  | [] => None
  | (k, v) :: rest => if String.eqb k key then Some v else get_header key rest
  end.

Definition QUOTE : Ascii.ascii := Ascii.ascii_of_nat 34.
Definition COLON : Ascii.ascii := Ascii.ascii_of_nat 58.

(** [s.indexOf(c) !== -1] for a single character. *)
Fixpoint has_char (c : Ascii.ascii) (s : string) : bool :=
  match s with
  | EmptyString => false
  | String x rest => if Ascii.eqb x c then true else has_char c rest
  end.

(** [s.substr(n)] *)
Fixpoint substr (n : nat) (s : string) : string :=
  match n, s with
  | O, _ => s
  | S n', String _ rest => substr n' rest
  | S _, EmptyString => EmptyString
  end.

(** Whether [pattern] occurs in [s]: what an unanchored regular
    expression for a fixed text tests. *)
Fixpoint occurs (pattern s : string) : bool :=
  if String.prefix pattern s then true
  else match s with
       | EmptyString => false
       | String _ rest => occurs pattern rest
       end.

(** [s.replace(pattern, replacement)] for a text pattern and a
    replacement taken as it is: the first occurrence is replaced. *)
Fixpoint replace_first (pattern replacement s : string) : string :=
  if String.prefix pattern s
  then replacement +:+ substr (String.length pattern) s
  else match s with
       | EmptyString => EmptyString
       | String c rest => String c (replace_first pattern replacement rest)
       end.

(** [HttpMessage]: the request, and the pathname and the query that
    [validate] stores. *)
Record HttpMessage := mkMessage {
  req : IncomingMessage;
  pathname : string;
  query : gmap string QueryValue
}.

(** [new HttpMessage(req, res)] *)
Definition new_message (r : IncomingMessage) : HttpMessage :=
  mkMessage r "" ∅.

Definition TEXT_MIME_TYPES : gmap string string :=
  list_to_map
    [(".html", "text/html"); (".js", "text/javascript");
     (".json", "application/json"); (".css", "text/css");
     (".svg", "image/svg+xml")].

Definition MAP_EXT_TO_MEDIA_MIMES : gmap string string :=
  list_to_map
    [(".bmp", "image/bmp"); (".gif", "image/gif"); (".ico", "image/x-icon");
     (".jpe", "image/jpg"); (".jpeg", "image/jpg"); (".jpg", "image/jpg");
     (".png", "image/png"); (".tga", "image/x-tga"); (".tif", "image/tiff");
     (".tiff", "image/tiff"); (".woff", "application/font-woff")].

Definition error (errorCode : nat) (errorMessage : option string)
    : list ResponseCall :=
  [WriteHead errorCode [("Content-Type", "text/plain")]; EndResponse errorMessage].

Definition error400 (errorMessage : option string) := error 400 errorMessage.
Definition error304 (errorMessage : option string) := error 304 errorMessage.
Definition error404 (errorMessage : option string) := error 404 errorMessage.

Definition ok (content : string) (headers : list (string * string))
    : list ResponseCall :=
  [WriteHead 200 headers; EndResponse (Some content)].

(** [getRemoteAuthority]: the port 443 is added to a host without a
    colon when the forwarded protocol is https. *)
Definition getRemoteAuthority (message : HttpMessage) : option string :=
  let xForwardedProto := headers (req message) !! "x-forwarded-proto" in
  let host := headers (req message) !! "host" in
  match xForwardedProto, host with
  | Some proto, Some h =>
      if String.eqb proto "https" && negb (String.eqb h "")
         && negb (has_char COLON h)
      then Some (h +:+ ":443")
      else host
  | _, _ => host
  end.

(** The weak validator: [W/], then, between double quotes, the inode,
    the size and the time of modification joined by [-]; the numbers are
    integers, printed in decimal. *)
Definition etag_of (stat : Stats) : string :=
  "W/" +:+ String QUOTE
    (pretty (ino stat) +:+ "-" +:+ pretty (size stat) +:+ "-"
     +:+ pretty (mtime stat) +:+ String QUOTE "").

Section Handler.
Context `{Node}.

(** [validate]: the answer, the message with the pathname and the query
    stored, and the calls on the response. *)
Definition validate (message : HttpMessage)
    : bool * HttpMessage * list ResponseCall :=
  match url (req message) with
  | None => (false, message, error400 (Some "missing url parameter"))
  | Some u =>
      if String.eqb u "" then
        (false, message, error400 (Some "missing url parameter"))
      else
        match url_parse u with
        | (Some p, q) =>
            if String.eqb p "" then
              (false, message, error400 (Some "missing pathname"))
            else (true, mkMessage (req message) p q, [])
        | (None, _) => (false, message, error400 (Some "missing pathname"))
        end
  end.

Definition okJsonObject (object : Json) : list ResponseCall :=
  [WriteHead 200 [("Content-Type", "application/json")];
   EndResponse (Some (JSON_stringify object))].

Definition getMediaMime (forPath : string) : option string :=
  MAP_EXT_TO_MEDIA_MIMES !! toLowerCase (path_extname forPath).

(** [TEXT_MIME_TYPES[ext] || this.getMediaMime(filePath) || 'text/plain'] *)
Definition contentType_of (filePath : string) : string :=
  match TEXT_MIME_TYPES !! path_extname filePath with
  | Some mime => mime
  | None => default "text/plain" (getMediaMime filePath)
  end.

(** [serveFile]: every failure inside is caught and answered by 404, so
    the promise always resolves; the result is the calls on the
    response. *)
Definition serveFile (message : HttpMessage) (filePath : string)
    (responseHeaders : list (string * string)) : list ResponseCall :=
  let filePath := path_normalize filePath in
  match fs_stat filePath with
  | Some stat =>
      let etag := etag_of stat in
      if decide (headers (req message) !! "if-none-match" = Some etag)
      then error304 None
      else
        let responseHeaders :=
          set_header "Etag" etag
            (set_header "Content-Type" (contentType_of filePath)
                        responseHeaders) in
        [WriteHead 200 responseHeaders; Pipe filePath]
  | None => error404 None
  end.

Definition APP_ROOT : string := path_join [dirname; ".."; ".."; ".."; ".."].
Definition WORKBENCH_DEV : string :=
  path_join [APP_ROOT; "out"; "vs"; "code"; "browser"; "workbench";
             "workbench-dev.html"].
Definition WORKBENCH : string :=
  path_join [APP_ROOT; "out"; "vs"; "code"; "browser"; "workbench";
             "workbench.html"].

(** [escapeAttribute]: every double quote of the value is replaced by
    [&quot;] (a regular expression with the [g] flag). *)
Fixpoint escapeAttribute (value : string) : string :=
  match value with
  | EmptyString => EmptyString
  | String c rest =>
      if Ascii.eqb c QUOTE then "&quot;" +:+ escapeAttribute rest
      else String c (escapeAttribute rest)
  end.

Definition handleRemoteResource (message : HttpMessage)
    : Settled * list ResponseCall :=
  match query message !! "path" with
  | Some (QString queryPath) =>
      if String.eqb queryPath "" then
        (Resolved, error400 (Some "invalid query path"))
      else (Resolved, serveFile message queryPath [])
  | _ => (Resolved, error400 (Some "invalid query path"))
  end.

(** [handleStatic]: a [URIError] of [decodeURIComponent] rejects the
    promise before anything is written. *)
Definition handleStatic (message : HttpMessage) : Settled * list ResponseCall :=
  match decodeURIComponent (substr 8 (pathname message)) with
  | Some decoded =>
      let relativeFilePath := path_normalize decoded in
      (Resolved, serveFile message (path_join [APP_ROOT; relativeFilePath]) [])
  | None => (Rejected, [])
  end.

(** The object given to [JSON.stringify]; a property whose value is
    [undefined] is not written, so it is left out here. *)
Definition webConfigJSON (message : HttpMessage) : Json :=
  JsonObject
    (match getRemoteAuthority message with
     | Some authority => [("remoteAuthority", JsonString authority)]
     | None => []
     end
     ++ [("welcomeBanner",
          JsonObject
            [("message", JsonString "CheCode");
             ("actions",
              JsonArray
                [JsonObject
                   [("href", JsonString "https://github.com/eclipse-che/code");
                    ("label", JsonString "Use Code inside Eclipse Che")]])])]).

(** [handleRoot]: a failure of [readFile] rejects the promise before
    anything is written. *)
Definition handleRoot (message : HttpMessage) : Settled * list ResponseCall :=
  let workbenchFile := if VSCODE_DEV then WORKBENCH_DEV else WORKBENCH in
  match fs_readFile workbenchFile with
  | Some webContent =>
      let data :=
        replace_first "{{WEBVIEW_ENDPOINT}}" ""
          (replace_first "{{WORKBENCH_AUTH_SESSION}}" ""
             (replace_first "{{WORKBENCH_BUILTIN_EXTENSIONS}}"
                (escapeAttribute (JSON_stringify (JsonArray [])))
                (replace_first "{{WORKBENCH_WEB_CONFIGURATION}}"
                   (escapeAttribute (JSON_stringify (webConfigJSON message)))
                   webContent))) in
      (Resolved,
       ok data [("Content-Type", "text/html");
                ("Content-Security-Policy",
                 "require-trusted-types-for 'script';")])
  | None => (Rejected, [])
  end.

Definition manifest : Json :=
  JsonObject
    [("name", JsonString "Eclipse Che");
     ("short_name", JsonString "Eclipse Che");
     ("start_url", JsonString "/");
     ("lang", JsonString "en-US");
     ("display", JsonString "standalone")].

(** [CheHttpRequestHandler.handle] on a new message for the request. *)
Definition handle (r : IncomingMessage) : Settled * list ResponseCall :=
  match validate (new_message r) with
  | (false, _, calls) => (Resolved, calls)
  | (true, message, _) =>
      if occurs "/favicon.ico" (pathname message) then
        (Resolved,
         serveFile message
           (path_join [APP_ROOT; "resources"; "win32"; "code.ico"]) [])
      else if occurs "/manifest.json" (pathname message) then
        (Resolved, okJsonObject manifest)
      else if String.eqb (pathname message) "/" then handleRoot message
      else if String.prefix "/static/" (pathname message) then
        handleStatic message
      else if String.prefix "/vscode-remote-resource" (pathname message) then
        handleRemoteResource message
      else (Resolved, error400 (Some "no matching request"))
  end.

End Handler.

(** The number of response heads among the calls. *)
Fixpoint heads (calls : list ResponseCall) : nat :=
  match calls with
  | [] => 0
  | WriteHead _ _ :: rest => S (heads rest)
  | _ :: rest => heads rest
  end.

End Http.

(* ===================================================================== *)
(** ** One concrete platform for the HTTP side *)
(* ===================================================================== *)

Module HttpExamples.
Import Platform WebsocketUpgrade Http.

(** The text before the first [?] and the text after it. *)
Fixpoint split_query (u : string) : string * option string :=
  match u with
  | EmptyString => (EmptyString, None)
  | String c rest =>
      if Ascii.eqb c (Ascii.ascii_of_nat 63) then (EmptyString, Some rest)
      else let '(p, q) := split_query rest in (String c p, q)
  end.

(** The extension of the last segment: from its last dot on. *)
Fixpoint extname_from (s found : string) : string :=
  match s with
  | EmptyString => found
  | String c rest =>
      if Ascii.eqb c (Ascii.ascii_of_nat 46) then extname_from rest s
      else if Ascii.eqb c (Ascii.ascii_of_nat 47) then extname_from rest ""
      else extname_from rest found
  end.

Definition lower (c : Ascii.ascii) : Ascii.ascii :=
  let n := Ascii.nat_of_ascii c in
  if (65 <=? n)%nat && (n <=? 90)%nat then Ascii.ascii_of_nat (n + 32) else c.

Fixpoint lower_case (s : string) : string :=
  match s with
  | EmptyString => EmptyString
  | String c rest => String (lower c) (lower_case rest)
  end.

Fixpoint stringify (j : Json) : string :=
  match j with
  | JsonString s => String QUOTE (s +:+ String QUOTE "")
  | JsonArray items => "[" +:+ String.concat "," (map stringify items) +:+ "]"
  | JsonObject properties =>
      "{"
      +:+ String.concat ","
            (map (fun '(k, v) =>
                    String QUOTE (k +:+ String QUOTE (":" +:+ stringify v)))
                 properties)
      +:+ "}"
  end.

Definition icon_stats : Stats := mkStats 7 1150 1600000000000.

Definition icon_path : string := "/app/resources/win32/code.ico".

Definition workbench_html : string :=
  "<meta id='vscode-workbench-web-configuration' data-settings='{{WORKBENCH_WEB_CONFIGURATION}}'>".

(** A platform on which paths are written in normal form, the disk holds
    the icon and the workbench page, a query has at most the key [path],
    and the texts to decode have no escapes (a [%] is refused). *)
#[global] Instance node : Node := {|
  url_parse u :=
    let '(p, q) := split_query u in
    (if String.eqb p "" then None else Some p,
     match q with
     | Some text =>
         if String.prefix "path=" text
         then {[ "path" := QString (substr 5 text) ]}
         else ∅
     | None => ∅
     end);
  path_extname p := extname_from p "";
  path_normalize p := p;
  path_join segments := String.concat "/" segments;
  toLowerCase := lower_case;
  decodeURIComponent s :=
    if has_char (Ascii.ascii_of_nat 37) s then None else Some s;
  fs_stat p := if String.eqb p icon_path then Some icon_stats else None;
  fs_readFile p :=
    if String.eqb p "/app/out/vs/code/browser/workbench/workbench.html"
    then Some workbench_html else None;
  JSON_stringify := stringify;
  dirname := "/app/out/vs/che/node";
  VSCODE_DEV := false
|}.

(** A request of a browser behind an https proxy. *)
Definition proxied_request : IncomingMessage :=
  mkRequest (Some "/")
    {[ "host" := "che.example.org"; "x-forwarded-proto" := "https" ]}.

(** A request that reaches the server directly. *)
Definition direct_request : IncomingMessage :=
  mkRequest (Some "/") {[ "host" := "localhost:3100" ]}.

(** A first request for the icon, and the request that revalidates it
    with the validator received. *)
Definition icon_request : IncomingMessage :=
  mkRequest (Some "/favicon.ico") {[ "host" := "localhost:3100" ]}.

Definition icon_revalidation : IncomingMessage :=
  mkRequest (Some "/favicon.ico")
    {[ "host" := "localhost:3100"; "if-none-match" := etag_of icon_stats ]}.

End HttpExamples.

(* ===================================================================== *)
(** ** Properties of the URI transformer *)
(* ===================================================================== *)

Module UriTransformerFacts.
Import UriTransformer.

Lemma transformIncoming_remote (u : UriParts) :
  scheme u = "vscode-remote" ->
  transformIncoming u = mkUri "file" None (path u) None None.
Proof. intros E. unfold transformIncoming. rewrite E. reflexivity. Qed.

Lemma transformOutgoing_file (ra : string) (u : UriParts) :
  scheme u = "file" ->
  transformOutgoing ra u = mkUri "vscode-remote" (Some ra) (path u) None None.
Proof. intros E. unfold transformOutgoing. rewrite E. reflexivity. Qed.

(** C9, as the code has it: for a [vscode-remote] URI the round trip
    [transformOutgoing (transformIncoming u)] gives the [vscode-remote]
    URI with the path of [u], the authority of the session and neither
    query nor fragment; it is [u] again exactly when [u] already has the
    authority of the session and no query and no fragment. *)
Theorem transformOutgoing_transformIncoming_remote
    (remoteAuthority : string) (u : UriParts) :
  scheme u = "vscode-remote" ->
  transformOutgoing remoteAuthority (transformIncoming u)
    = mkUri "vscode-remote" (Some remoteAuthority) (path u) None None
  /\ (transformOutgoing remoteAuthority (transformIncoming u) = u
      <-> authority u = Some remoteAuthority
          /\ query u = None /\ fragment u = None).
Proof.
  intros E.
  assert (R : transformOutgoing remoteAuthority (transformIncoming u)
              = mkUri "vscode-remote" (Some remoteAuthority) (path u) None None).
  { rewrite (transformIncoming_remote u E). reflexivity. }
  split; [exact R|]. rewrite R. destruct u as [s a p q f]; simpl in *.
  split.
  - intros H. injection H as _ Ha Hq Hf. auto.
  - intros (Ha & Hq & Hf). subst. reflexivity.
Qed.

Lemma transformOutgoing_transformIncoming_remote_witness :
  scheme session_uri = "vscode-remote"
  /\ transformOutgoing "localhost:8080" (transformIncoming session_uri)
     = session_uri.
Proof.
  split; [reflexivity|].
  apply (proj1 (transformOutgoing_transformIncoming_remote
                  "localhost:8080" session_uri eq_refl)).
Defined.

(** C9 as stated fails: the authority of the URI is replaced by the
    authority of the session. *)
Lemma roundtrip_remote_counterexample :
  scheme foreign_uri = "vscode-remote"
  /\ transformOutgoing "localhost:8080" (transformIncoming foreign_uri)
     <> foreign_uri.
Proof. split; [reflexivity | discriminate]. Qed.

End UriTransformerFacts.

(* ===================================================================== *)
(** ** Properties of the watch arm of the remote filesystem channel *)
(* ===================================================================== *)

Module RemoteFileSystemChannelFacts.
Import UriTransformer RemoteFileSystemChannel.

Lemma length_append (s w : string) :
  String.length (s +:+ w) = String.length s + String.length w.
Proof. induction s as [|c s IH]; simpl; [reflexivity | now rewrite IH]. Qed.

(** The key of a [watch] with a non-empty [watchId] is never the
    [sessionId] alone. *)
Lemma concatenated_key_differs (s w : string) : w <> "" -> s +:+ w <> s.
Proof.
  intros Hw E. apply (f_equal String.length) in E.
  rewrite length_append in E. destruct w; [congruence | simpl in E; lia].
Qed.

Lemma call_watch_miss s w u o st :
  fileWatchers st !! (s +:+ w) = None -> call_watch s w u o st = (st, []).
Proof. intros H. unfold call_watch. now rewrite H. Qed.

Lemma call_watch_hit s w u o st fw :
  fileWatchers st !! (s +:+ w) = Some fw ->
  call_watch s w u o st
  = (mkChannel (fileWatchers st)
       (<[s +:+ w := mkDisposable fw (transformIncoming u) o]>
          (fileWatcherDisposables st))
       (created st),
     [ProviderWatch fw (transformIncoming u) o]).
Proof. intros H. unfold call_watch. now rewrite H. Qed.

Lemma step_fileWatchers_key ev st k :
  is_Some (fileWatchers (fst (step ev st)) !! k) ->
  is_Some (fileWatchers st !! k) \/ ev = FirstListenerAdd k.
Proof.
  destruct ev as [s w u o|s w|s|s]; simpl.
  - unfold call_watch. destruct (fileWatchers st !! (s +:+ w)); simpl; auto.
  - unfold call_unwatch.
    destruct (fileWatcherDisposables st !! (s +:+ w)); simpl; auto.
  - destruct (decide (s = k)) as [->|Hne]; [auto|].
    rewrite lookup_insert_ne by done. auto.
  - destruct (decide (s = k)) as [->|Hne].
    + rewrite lookup_delete_eq. intros [? ?]; discriminate.
    + rewrite lookup_delete_ne by done. auto.
Qed.

(** Entries of [fileWatchers] are only ever stored by the first-listener
    hook of a [filechange] event, under the session id of that event. *)
Lemma fileWatchers_keys_from_hook evs st k :
  is_Some (fileWatchers (run evs st) !! k) ->
  is_Some (fileWatchers st !! k) \/ In (FirstListenerAdd k) evs.
Proof.
  revert st. induction evs as [|ev evs IH]; intros st H; simpl in *; [auto|].
  destruct (IH _ H) as [H1|H1]; [|auto].
  destruct (step_fileWatchers_key _ _ _ H1) as [H2|H2]; auto.
Qed.

(** A [watch] whose concatenated key was never the session id of a
    [filechange] listener does nothing, whatever happened before. *)
Lemma watch_without_listener_under_key evs s w u o :
  ~ In (FirstListenerAdd (s +:+ w)) evs ->
  call_watch s w u o (run evs init) = (run evs init, []).
Proof.
  intros Hnot. apply call_watch_miss.
  destruct (fileWatchers (run evs init) !! (s +:+ w)) eqn:E; [|reflexivity].
  destruct (fileWatchers_keys_from_hook evs init (s +:+ w)) as [[x Hx]|Hin].
  - rewrite E. eauto.
  - discriminate Hx.
  - contradiction.
Qed.

(** C10, as the code has it: a [watch] with a non-empty [watchId] looks
    [fileWatchers] up under [sessionId+watchId], which is never the key
    [sessionId] of the caller's own [filechange] entry.  When no entry is
    stored under the concatenated key the call makes no call on any
    watcher and leaves the channel as it was; when one is (the key is the
    session id of some [filechange] listener), the call does register a
    watch on that entry and stores its disposable. *)
Theorem watch_uses_concatenated_key
    (sessionId watchId : string) (uri : UriParts) (opts : WatchOptions)
    (st : Channel) :
  watchId <> "" ->
  sessionId +:+ watchId <> sessionId
  /\ (fileWatchers st !! (sessionId +:+ watchId) = None ->
      call_watch sessionId watchId uri opts st = (st, []))
  /\ (forall fw, fileWatchers st !! (sessionId +:+ watchId) = Some fw ->
      snd (call_watch sessionId watchId uri opts st)
        = [ProviderWatch fw (transformIncoming uri) opts]
      /\ fileWatcherDisposables (fst (call_watch sessionId watchId uri opts st))
           !! (sessionId +:+ watchId)
         = Some (mkDisposable fw (transformIncoming uri) opts)).
Proof.
  intros Hw. split; [now apply concatenated_key_differs|].
  split; [apply call_watch_miss|].
  intros fw H. rewrite (call_watch_hit _ _ _ _ _ _ H). simpl.
  split; [reflexivity | apply lookup_insert_eq].
Qed.

Lemma watch_uses_concatenated_key_witness :
  "0.44" <> ""
  /\ call_watch "6e75064c" "0.44" session_uri default_opts
       (run [FirstListenerAdd "6e75064c"] init)
     = (run [FirstListenerAdd "6e75064c"] init, []).
Proof.
  assert (Hw : "0.44" <> "") by discriminate.
  split; [exact Hw|].
  apply (proj1 (proj2 (watch_uses_concatenated_key
                         "6e75064c" "0.44" session_uri default_opts
                         (run [FirstListenerAdd "6e75064c"] init) Hw))).
  vm_compute. reflexivity.
Defined.

(** C10 as stated fails: with a [filechange] listener of session [s1]
    in place, the call [watch ["s", "1", uri, opts]] finds the entry of
    [s1], calls [watch] on it and stores the disposable. *)
Lemma watch_registers_on_key_collision :
  "1" <> ""
  /\ call_watch "s" "1" session_uri default_opts
       (run [FirstListenerAdd "s1"] init)
     <> (run [FirstListenerAdd "s1"] init, []).
Proof.
  split; [discriminate|]. intros E.
  apply (f_equal snd) in E. vm_compute in E. discriminate.
Qed.

End RemoteFileSystemChannelFacts.

(* ===================================================================== *)
(** ** Properties of the websocket upgrade *)
(* ===================================================================== *)

Module WebsocketUpgradeFacts.
Import Platform WebsocketUpgrade Broker.

Section Facts.
Context `{Externals}.

Lemma key_of_present req k :
  headers req !! "sec-websocket-key" = Some k -> key_of req = Some (trim k).
Proof. intros E. unfold key_of. now rewrite E. Qed.

(** The first four lines are there whatever the request. *)
Lemma response_headers_prefix req :
  exists more,
    response_headers req
    = ["HTTP/1.1 101 Switching Protocols"; "Upgrade: websocket";
       "Connection: Upgrade";
       "Sec-WebSocket-Accept: "
         +:+ sha1_base64 (key_text (key_of req) +:+ GUID)] ++ more.
Proof.
  unfold response_headers.
  destruct (offers_of req !! "permessage-deflate").
  - eexists. reflexivity.
  - exists []. reflexivity.
Qed.

Lemma response_text_switching req :
  exists rest,
    response_text req = "HTTP/1.1 101 Switching Protocols" +:+ CRLF +:+ rest.
Proof.
  unfold response_text.
  destruct (response_headers_prefix req) as [more ->].
  eexists. simpl. reflexivity.
Qed.

Lemma upgradeSocket_run req socket w :
  upgradeSocket req socket w
  = (Returned (nextId w, permessageDeflate_of req),
     mkWorld (protocols w)
       (<[nextId w := mkWebSocket socket (permessageDeflate_of req) []]>
          (websockets w))
       (hosts w) (processes w) (managementDetails w)
       (extensionHostDetails w) (managementConnections w)
       (extensionHostConnections w) (controlListeners w) (S (nextId w))
       (trace w ++ [SocketWrite socket (response_text req)])).
Proof. reflexivity. Qed.

Lemma normalize_params_valueless params rest :
  params !! "client_max_window_bits" = Some (PTrue :: rest) ->
  normalize_params params
  = <["client_max_window_bits" := [PNumber 15]]> params.
Proof. intros E. unfold normalize_params. now rewrite E. Qed.

Lemma normalize_params_other params name :
  name <> "client_max_window_bits" ->
  normalize_params params !! name = params !! name.
Proof.
  intros Hne. unfold normalize_params.
  destruct (params !! "client_max_window_bits") as [[|[| |] ?]|]; try reflexivity.
  now rewrite lookup_insert_ne.
Qed.

Lemma normalize_params_valued params :
  (forall rest, params !! "client_max_window_bits" <> Some (PTrue :: rest)) ->
  normalize_params params = params.
Proof.
  intros Hv. unfold normalize_params.
  destruct (params !! "client_max_window_bits") as [[|[| |] rest]|] eqn:E;
    try reflexivity.
  now destruct (Hv rest).
Qed.

(** C5, as the code has it: [upgradeSocket] does not validate the key.
    For every upgrade request that carries a [Sec-WebSocket-Key], well
    formed or not, the one thing written to the socket is the
    [101 Switching Protocols] response with the digest of that key, the
    socket is not ended, and the framed channel is constructed. *)
Theorem upgradeSocket_accepts_any_key
    (req : IncomingMessage) (socket : SocketId) (w : World) (k : string) :
  headers req !! "sec-websocket-key" = Some k ->
  exists more,
    upgradeSocket req socket w
      = (Returned (nextId w, permessageDeflate_of req),
         exec (upgradeSocket req socket) w)
    /\ trace (exec (upgradeSocket req socket) w)
       = trace w
         ++ [SocketWrite socket
               (join CRLF
                  (["HTTP/1.1 101 Switching Protocols"; "Upgrade: websocket";
                    "Connection: Upgrade";
                    "Sec-WebSocket-Accept: "
                      +:+ sha1_base64 (trim k +:+ GUID)]
                   ++ more ++ [CRLF]))]
    /\ websockets (exec (upgradeSocket req socket) w) !! nextId w
       = Some (mkWebSocket socket (permessageDeflate_of req) []).
Proof.
  intros Hk. destruct (response_headers_prefix req) as [more Hmore].
  rewrite (key_of_present _ _ Hk) in Hmore. simpl key_text in Hmore.
  exists more. unfold exec. rewrite upgradeSocket_run. simpl.
  unfold response_text. rewrite Hmore, <- app_assoc.
  split; [reflexivity|]. split; [reflexivity|].
  apply lookup_insert_eq.
Qed.

(** C6: for every upgrade request that carries a [Sec-WebSocket-Key],
    the response written is the lines of [response_headers] joined by
    CRLF; its fourth line is [Sec-WebSocket-Accept] with the base64
    SHA-1 digest of the key (the value of the header, trimmed) followed
    by the GUID; and when the client offers [permessage-deflate] the
    fifth line is [Sec-WebSocket-Extensions] with the offers echoed,
    where in every offer a [client_max_window_bits] whose first value
    is the valueless [true] has become [[15]] and every other
    parameter is as offered. *)
Theorem upgrade_response_accept_and_extensions
    (req : IncomingMessage) (socket : SocketId) (w : World) (k : string) :
  headers req !! "sec-websocket-key" = Some k ->
  trace (exec (upgradeSocket req socket) w)
    = trace w ++ [SocketWrite socket (join CRLF (response_headers req ++ [CRLF]))]
  /\ response_headers req !! 0 = Some "HTTP/1.1 101 Switching Protocols"
  /\ response_headers req !! 3
     = Some ("Sec-WebSocket-Accept: " +:+ sha1_base64 (trim k +:+ GUID))
  /\ forall offered,
       offers_of req !! "permessage-deflate" = Some offered ->
       exists echoed,
         response_headers req !! 4
           = Some ("Sec-WebSocket-Extensions: "
                   +:+ HeaderParser_format {[ "permessage-deflate" := echoed ]})
         /\ Forall2 (fun params params' =>
              (forall rest,
                 params !! "client_max_window_bits" = Some (PTrue :: rest) ->
                 params' !! "client_max_window_bits" = Some [PNumber 15])
              /\ (forall name, name <> "client_max_window_bits" ->
                    params' !! name = params !! name)
              /\ ((forall rest,
                     params !! "client_max_window_bits" <> Some (PTrue :: rest)) ->
                  params' = params))
              offered echoed.
Proof.
  intros Hk. split; [reflexivity|].
  unfold response_headers. rewrite (key_of_present _ _ Hk). simpl key_text.
  split; [destruct (offers_of req !! _); reflexivity|].
  split; [destruct (offers_of req !! _); reflexivity|].
  intros offered Hoff. rewrite Hoff.
  exists (normalize_params <$> offered). split; [reflexivity|].
  apply Forall2_fmap_r, Forall_Forall2_diag, Forall_forall.
  intros params _. split; [|split].
  - intros rest E. rewrite (normalize_params_valueless _ _ E).
    apply lookup_insert_eq.
  - apply normalize_params_other.
  - apply normalize_params_valued.
Qed.

End Facts.

Import Examples.

Lemma upgradeSocket_accepts_any_key_witness :
  headers malformed_key_request !! "sec-websocket-key" = Some "!!"
  /\ exists more,
       trace (exec (upgradeSocket malformed_key_request 7) empty_world)
       = [SocketWrite 7
            (join CRLF
               (["HTTP/1.1 101 Switching Protocols"; "Upgrade: websocket";
                 "Connection: Upgrade";
                 "Sec-WebSocket-Accept: " +:+ sha1_base64 ("!!" +:+ GUID)]
                ++ more ++ [CRLF]))].
Proof.
  assert (Hk : headers malformed_key_request !! "sec-websocket-key" = Some "!!")
    by (vm_compute; reflexivity).
  split; [exact Hk|].
  destruct (upgradeSocket_accepts_any_key malformed_key_request 7 empty_world
              "!!" Hk) as (more & _ & Ht & _).
  exists more. exact Ht.
Defined.

(** C5 as stated fails: for a request whose key is malformed the gateway
    writes the 101 response and not a 400, and it does not end the
    socket. *)
Lemma malformed_key_is_accepted :
  trace (exec (upgradeSocket malformed_key_request 7) empty_world)
  = [SocketWrite 7
       (join CRLF
          ["HTTP/1.1 101 Switching Protocols"; "Upgrade: websocket";
           "Connection: Upgrade";
           "Sec-WebSocket-Accept: sha1-base64(!!258EAFA5-E914-47DA-95CA-C5AB0DC85B11)";
           CRLF])]
  /\ forall data,
       ~ In (SocketEnd 7 data)
            (trace (exec (upgradeSocket malformed_key_request 7) empty_world)).
Proof.
  split; [vm_compute; reflexivity|].
  intros data [E|[]]. discriminate.
Qed.

Lemma upgrade_response_accept_and_extensions_witness :
  headers rfc_request !! "sec-websocket-key" = Some "dGhlIHNhbXBsZSBub25jZQ=="
  /\ response_headers rfc_request !! 3
     = Some ("Sec-WebSocket-Accept: "
             +:+ sha1_base64 ("dGhlIHNhbXBsZSBub25jZQ==" +:+ GUID))
  /\ response_headers rfc_request !! 4
     = Some "Sec-WebSocket-Extensions: permessage-deflate; client_max_window_bits=15".
Proof.
  assert (Hk : headers rfc_request !! "sec-websocket-key"
               = Some "dGhlIHNhbXBsZSBub25jZQ==") by (vm_compute; reflexivity).
  split; [exact Hk|].
  destruct (upgrade_response_accept_and_extensions rfc_request 7 empty_world
              _ Hk) as (_ & _ & Hacc & Hext).
  split; [exact Hacc|].
  vm_compute. reflexivity.
Defined.

(** What is hashed is the value of the header after [trim()]. *)
Lemma padded_key_is_trimmed :
  response_headers padded_key_request !! 3
  = Some ("Sec-WebSocket-Accept: "
          +:+ sha1_base64 ("dGhlIHNhbXBsZSBub25jZQ==" +:+ GUID)).
Proof. vm_compute. reflexivity. Qed.

(** Without the header, [key] is [false] and the text [false] is hashed;
    the response is written all the same. *)
Lemma missing_key_is_hashed_as_false :
  trace (exec (upgradeSocket missing_key_request 7) empty_world)
  = [SocketWrite 7
       (join CRLF
          ["HTTP/1.1 101 Switching Protocols"; "Upgrade: websocket";
           "Connection: Upgrade";
           "Sec-WebSocket-Accept: " +:+ sha1_base64 ("false" +:+ GUID);
           CRLF])].
Proof. vm_compute. reflexivity. Qed.

End WebsocketUpgradeFacts.

(* ===================================================================== *)
(** ** Running gateway code on a store *)
(* ===================================================================== *)

Module Run.
Import Platform WebsocketUpgrade Broker.

(** Reduces the fields of a store built by the setters. *)
Ltac fields :=
  cbn [protocols websockets hosts processes managementDetails
       extensionHostDetails managementConnections extensionHostConnections
       controlListeners nextId trace set_protocols set_websockets set_hosts
       set_processes set_managementDetails set_extensionHostDetails
       set_managementConnections set_extensionHostConnections
       set_controlListeners set_nextId set_trace fst snd] in *.

Lemma bind_run {A B} (m : M A) (f : A -> M B) w a w1 :
  m w = (Returned a, w1) -> (m ≫= f) w = f a w1.
Proof. intros E. unfold mbind, M_bind. now rewrite E. Qed.

Lemma ret_run {A} (a : A) w : (mret a : M A) w = (Returned a, w).
Proof. reflexivity. Qed.

Lemma get_run w : get w = (Returned w, w).
Proof. reflexivity. Qed.

Lemma modify_run f w : modify f w = (Returned tt, f w).
Proof. reflexivity. Qed.

Lemma emit_run e w : emit e w = (Returned tt, set_trace (fun t => t ++ [e]) w).
Proof. reflexivity. Qed.

Lemma fresh_run w : fresh w = (Returned (nextId w), set_nextId S w).
Proof. reflexivity. Qed.

Lemma deref_run {A} (o : option A) a w : o = Some a -> deref o w = (Returned a, w).
Proof. now intros ->. Qed.

Lemma theProtocol_run p w st :
  protocols w !! p = Some st -> theProtocol p w = (Returned st, w).
Proof. intros E. unfold theProtocol. erewrite bind_run by apply get_run.
       now apply deref_run. Qed.

Lemma theWebSocket_run ws w st :
  websockets w !! ws = Some st -> theWebSocket ws w = (Returned st, w).
Proof. intros E. unfold theWebSocket. erewrite bind_run by apply get_run.
       now apply deref_run. Qed.

Lemma theHost_run h w st :
  hosts w !! h = Some st -> theHost h w = (Returned st, w).
Proof. intros E. unfold theHost. erewrite bind_run by apply get_run.
       now apply deref_run. Qed.

Lemma theProcess_run pid w st :
  processes w !! pid = Some st -> theProcess pid w = (Returned st, w).
Proof. intros E. unfold theProcess. erewrite bind_run by apply get_run.
       now apply deref_run. Qed.

Lemma theManagementDetails_run d w st :
  managementDetails w !! d = Some st ->
  theManagementDetails d w = (Returned st, w).
Proof. intros E. unfold theManagementDetails. erewrite bind_run by apply get_run.
       now apply deref_run. Qed.

Lemma theExtensionHostDetails_run d w st :
  extensionHostDetails w !! d = Some st ->
  theExtensionHostDetails d w = (Returned st, w).
Proof. intros E. unfold theExtensionHostDetails.
       erewrite bind_run by apply get_run. now apply deref_run. Qed.

Lemma getSocket_run p w st :
  protocols w !! p = Some st -> getSocket p w = (Returned (pp_socket st), w).
Proof. intros E. unfold getSocket.
       erewrite bind_run by (apply theProtocol_run; exact E). reflexivity. Qed.

Lemma sendControl_run p message w :
  sendControl p message w
  = (Returned tt, set_trace (fun t => t ++ [SendControl p message]) w).
Proof. reflexivity. Qed.

Lemma sendControlMessage_run holder message w :
  sendControlMessage holder message w
  = (Returned tt,
     set_trace (fun t => t ++ [SendControl (persistentProtocol holder) message]) w).
Proof. reflexivity. Qed.

Lemma sendDisconnect_run p w :
  sendDisconnect p w = (Returned tt, set_trace (fun t => t ++ [SendDisconnect p]) w).
Proof. reflexivity. Qed.

Lemma endAcceptReconnection_run p w :
  endAcceptReconnection p w
  = (Returned tt, set_trace (fun t => t ++ [EndAcceptReconnection p]) w).
Proof. reflexivity. Qed.

Lemma readEntireBuffer_run p w st :
  protocols w !! p = Some st ->
  readEntireBuffer p w
  = (Returned (pp_incoming st),
     set_protocols <[p := mkProtocol (pp_socket st) [] (pp_disposed st)]>
       (set_trace (fun t => t ++ [ReadEntireBuffer p]) w)).
Proof.
  intros E. unfold readEntireBuffer.
  erewrite bind_run by (apply theProtocol_run; exact E).
  erewrite bind_run by apply emit_run.
  erewrite bind_run by apply modify_run. reflexivity.
Qed.

Lemma beginAcceptReconnection_run p socket chunk w st :
  protocols w !! p = Some st ->
  beginAcceptReconnection p socket chunk w
  = (Returned tt,
     set_protocols
       <[p := mkProtocol socket (pp_incoming st ++ chunk) (pp_disposed st)]>
       (set_trace (fun t => t ++ [BeginAcceptReconnection p socket chunk]) w)).
Proof.
  intros E. unfold beginAcceptReconnection.
  erewrite bind_run by (apply theProtocol_run; exact E).
  erewrite bind_run by apply emit_run. reflexivity.
Qed.

Lemma protocol_dispose_run p w st :
  protocols w !! p = Some st ->
  protocol_dispose p w
  = (Returned tt,
     set_protocols <[p := mkProtocol (pp_socket st) (pp_incoming st) true]>
       (set_trace (fun t => t ++ [ProtocolDispose p]) w)).
Proof.
  intros E. unfold protocol_dispose.
  erewrite bind_run by (apply theProtocol_run; exact E).
  erewrite bind_run by apply emit_run. reflexivity.
Qed.

(** Solves a lookup in a store built by the setters. *)
Ltac find :=
  fields;
  first
    [ eassumption
    | apply lookup_insert_eq
    | rewrite lookup_insert_ne by congruence; find
    | rewrite lookup_alter_eq; find ].

(** Runs the first operation of a sequence. *)
Ltac run1 :=
  first
    [ apply ret_run | apply get_run | apply modify_run | apply emit_run
    | apply fresh_run | apply sendControl_run | apply sendControlMessage_run
    | apply sendDisconnect_run | apply endAcceptReconnection_run
    | eapply deref_run; find
    | eapply theProtocol_run; find
    | eapply theWebSocket_run; find
    | eapply theHost_run; find
    | eapply theProcess_run; find
    | eapply theManagementDetails_run; find
    | eapply theExtensionHostDetails_run; find
    | eapply getSocket_run; find
    | eapply readEntireBuffer_run; find
    | eapply beginAcceptReconnection_run; find
    | eapply protocol_dispose_run; find ].

Ltac step := erewrite bind_run by run1; cbv beta.

(** Two stores with the same fields are the same store. *)
Lemma world_eq w1 w2 :
  protocols w1 = protocols w2 -> websockets w1 = websockets w2 ->
  hosts w1 = hosts w2 -> processes w1 = processes w2 ->
  managementDetails w1 = managementDetails w2 ->
  extensionHostDetails w1 = extensionHostDetails w2 ->
  managementConnections w1 = managementConnections w2 ->
  extensionHostConnections w1 = extensionHostConnections w2 ->
  controlListeners w1 = controlListeners w2 ->
  nextId w1 = nextId w2 -> trace w1 = trace w2 -> w1 = w2.
Proof. destruct w1, w2; cbn; intros; subst; reflexivity. Qed.

Ltac records :=
  cbn [pp_socket pp_incoming pp_disposed ws_socket ws_permessageDeflate
       recordedInflateBytes md_protocolHolder md_disposed ed_protocolHolder
       remoteStartParams ed_extensionHost ed_disposed ed_onDidClientDisconnect
       eh_uriTransformerPath eh_socket eh_protocolHolder eh_disposed
       extensionHostProcess messageListeners exitListeners errorListeners] in *.

(** Closes a goal that compares two results on stores built by the
    setters. *)
Ltac same_store :=
  apply (f_equal (pair _)); apply world_eq; fields; records;
  rewrite <- ?app_assoc; cbn [app]; reflexivity.

End Run.

(* ===================================================================== *)
(** ** Properties of the session broker *)
(* ===================================================================== *)

Module BrokerFacts.
Import Platform WebsocketUpgrade Broker Run.

Section Facts.
Context `{Externals}.

(** The store after [abortWebSocketConnection]: the error is sent, the
    protocol is disposed, its socket is drained and disposed; nothing
    else changes. *)
Lemma abortWebSocketConnection_run holder reason w st :
  protocols w !! persistentProtocol holder = Some st ->
  abortWebSocketConnection holder reason w
  = (Returned tt,
     set_trace
       (fun t => t ++ [SendControl (persistentProtocol holder) (errorMessage reason);
                       ProtocolDispose (persistentProtocol holder);
                       WsDrain (pp_socket st); WsDispose (pp_socket st)])
       (set_protocols
          <[persistentProtocol holder
              := mkProtocol (pp_socket st) (pp_incoming st) true]> w)).
Proof.
  intros Hp. unfold abortWebSocketConnection, getProtocol.
  do 5 step. rewrite emit_run. same_store.
Qed.

(** C2: a [connectionType] request for a management or an
    extension-host connection, with [reconnection=true] and a token
    that has no entry in the table of that kind, is aborted: the
    control message [{reason, type: "error"}] is sent on the protocol
    (for management the reason is "Asking to reconnect but provided
    token is unknown"), the protocol is disposed, its websocket is
    drained and disposed, and neither table nor any session object
    changes. *)
Theorem reconnect_with_unknown_token_aborts
    (request : ConnectionTypeRequest) (holder : VSCodeProtocolHolder)
    (socket : SocketId) (w : World) (st : PersistentProtocol)
    (kind : ConnectionType) :
  desiredConnectionType request = Some kind ->
  isReconnecting holder = true ->
  match kind with
  | Management => managementConnections w !! reconnectionToken holder = None
  | ExtensionHost => extensionHostConnections w !! reconnectionToken holder = None
  | Tunnel => False
  end ->
  protocols w !! persistentProtocol holder = Some st ->
  let reason :=
    match kind with
    | Management => "Asking to reconnect but provided token is unknown"
    | _ => "Reconnecting but no previous connection has been found. Aborting."
    end in
  let w' := exec (handleConnectionTypeRequest request holder socket) w in
  handleConnectionTypeRequest request holder socket w = (Returned tt, w')
  /\ trace w'
     = trace w
       ++ [SendControl (persistentProtocol holder)
             [("reason", JString reason); ("type", JString "error")];
           ProtocolDispose (persistentProtocol holder);
           WsDrain (pp_socket st); WsDispose (pp_socket st)]
  /\ protocols w'
     = <[persistentProtocol holder
           := mkProtocol (pp_socket st) (pp_incoming st) true]> (protocols w)
  /\ managementConnections w' = managementConnections w
  /\ extensionHostConnections w' = extensionHostConnections w
  /\ managementDetails w' = managementDetails w
  /\ extensionHostDetails w' = extensionHostDetails w
  /\ hosts w' = hosts w /\ processes w' = processes w.
Proof.
  intros Hkind Hre Htable Hp reason w'.
  assert (E : handleConnectionTypeRequest request holder socket w
              = abortWebSocketConnection holder reason w).
  { unfold handleConnectionTypeRequest. rewrite Hkind.
    destruct kind; [| |contradiction]; step; rewrite Htable, Hre;
      reflexivity. }
  subst w'. unfold exec. rewrite E.
  rewrite (abortWebSocketConnection_run _ _ _ _ Hp). fields.
  repeat split; reflexivity.
Qed.

(** The store after [handle] for a request without a usable token. *)
Lemma handle_bad_request_run req socket w :
  match parseQuery (default "" (url req)) !! "reconnectionToken" with
  | Some (QString token) => token = ""
  | _ => True
  end ->
  handle req socket w
  = (Returned tt,
     set_trace (fun t => t ++ [SocketWrite socket (response_text req);
                               SocketEnd socket (Some BAD_REQUEST)])
       (set_websockets
          <[nextId w := mkWebSocket socket (permessageDeflate_of req) []]>
          (set_nextId S w))).
Proof.
  intros Hq. unfold handle.
  erewrite bind_run by apply WebsocketUpgradeFacts.upgradeSocket_run.
  cbv beta iota.
  destruct (parseQuery (default "" (url req)) !! "reconnectionToken")
    as [[token|l]|]; [subst token; cbn [String.eqb]| |];
    rewrite emit_run; same_store.
Qed.

(** C8: an upgrade request whose query has no [reconnectionToken], or
    has it more than once (an array), gets [HTTP/1.1 400 Bad Request]
    written with the end of the socket; no protocol (holder) is created,
    no listener is subscribed and no table gets an entry.  The response
    of the upgrade was written to the socket before. *)
Theorem handle_rejects_missing_or_repeated_token
    (req : IncomingMessage) (socket : SocketId) (w : World) :
  (parseQuery (default "" (url req)) !! "reconnectionToken" = None
   \/ exists l, parseQuery (default "" (url req)) !! "reconnectionToken"
                = Some (QArray l)) ->
  let w' := exec (handle req socket) w in
  handle req socket w = (Returned tt, w')
  /\ trace w'
     = trace w
       ++ [SocketWrite socket (response_text req);
           SocketEnd socket
             (Some ("HTTP/1.1 400 Bad Request" +:+ CRLF +:+ CRLF))]
  /\ protocols w' = protocols w
  /\ controlListeners w' = controlListeners w
  /\ managementConnections w' = managementConnections w
  /\ extensionHostConnections w' = extensionHostConnections w
  /\ managementDetails w' = managementDetails w
  /\ extensionHostDetails w' = extensionHostDetails w.
Proof.
  intros Hq w'. subst w'. unfold exec.
  rewrite handle_bad_request_run.
  - fields. repeat split; reflexivity.
  - destruct Hq as [-> | [l ->]]; exact I.
Qed.


(** The calls of [ManagementReconnectionDetails.reconnect], and what
    becomes of the two protocols. *)
Lemma ManagementReconnectionDetails_reconnect_run this holder w self old new :
  managementDetails w !! this = Some self ->
  protocols w !! persistentProtocol (md_protocolHolder self) = Some old ->
  protocols w !! persistentProtocol holder = Some new ->
  persistentProtocol (md_protocolHolder self) <> persistentProtocol holder ->
  ManagementReconnectionDetails_reconnect this holder w
  = (Returned tt,
     set_trace
       (fun t => t ++ [SendControl (persistentProtocol holder) okMessage;
                       ReadEntireBuffer (persistentProtocol holder);
                       BeginAcceptReconnection
                         (persistentProtocol (md_protocolHolder self))
                         (pp_socket new) (pp_incoming new);
                       EndAcceptReconnection
                         (persistentProtocol (md_protocolHolder self));
                       ProtocolDispose (persistentProtocol holder)])
       (set_protocols
          (fun m =>
             <[persistentProtocol holder := mkProtocol (pp_socket new) [] true]>
               (<[persistentProtocol (md_protocolHolder self)
                    := mkProtocol (pp_socket new)
                         (pp_incoming old ++ pp_incoming new) (pp_disposed old)]>
                  (<[persistentProtocol holder
                       := mkProtocol (pp_socket new) [] (pp_disposed new)]> m)))
          w)).
Proof.
  intros Hd Hold Hnew Hne. unfold ManagementReconnectionDetails_reconnect,
    getProtocol.
  do 6 step. erewrite protocol_dispose_run by find. same_store.
Qed.

(** C1, as the code has it: on a management connect whose token is in
    the management table, [reconnect] is called with the new protocol
    holder; it sends [{"type": "ok"}] on the NEW protocol (that of the
    holder it is given), drains the buffer of the new protocol, gives
    the socket of the new protocol and that buffer to the stored
    protocol by [beginAcceptReconnection] / [endAcceptReconnection],
    and disposes the new protocol; the handler then sends its closing
    [{"type": "ok"}], again on the new protocol.  The entry of the
    table is kept. *)
Theorem management_reconnect_answers_on_new_protocol
    (request : ConnectionTypeRequest) (holder : VSCodeProtocolHolder)
    (socket : SocketId) (w : World) (details : DetailsId)
    (self : ManagementReconnectionDetails) (old new : PersistentProtocol) :
  desiredConnectionType request = Some Management ->
  managementConnections w !! reconnectionToken holder = Some details ->
  managementDetails w !! details = Some self ->
  protocols w !! persistentProtocol (md_protocolHolder self) = Some old ->
  protocols w !! persistentProtocol holder = Some new ->
  persistentProtocol (md_protocolHolder self) <> persistentProtocol holder ->
  let stored := persistentProtocol (md_protocolHolder self) in
  let arriving := persistentProtocol holder in
  let w' := exec (handleConnectionTypeRequest request holder socket) w in
  handleConnectionTypeRequest request holder socket w = (Returned tt, w')
  /\ trace w'
     = trace w
       ++ [SendControl arriving [("type", JString "ok")];
           ReadEntireBuffer arriving;
           BeginAcceptReconnection stored (pp_socket new) (pp_incoming new);
           EndAcceptReconnection stored;
           ProtocolDispose arriving;
           SendControl arriving [("type", JString "ok")]]
  /\ protocols w' !! stored
     = Some (mkProtocol (pp_socket new) (pp_incoming old ++ pp_incoming new)
                        (pp_disposed old))
  /\ protocols w' !! arriving = Some (mkProtocol (pp_socket new) [] true)
  /\ managementConnections w' = managementConnections w
  /\ managementDetails w' = managementDetails w.
Proof.
  intros Hkind Htable Hd Hold Hnew Hne stored arriving w'.
  assert (E : handleConnectionTypeRequest request holder socket w
              = (Returned tt,
                 set_trace
                   (fun t => t ++ [SendControl (persistentProtocol holder)
                                     okMessage])
                   (snd (ManagementReconnectionDetails_reconnect
                           details holder w)))).
  { unfold handleConnectionTypeRequest. rewrite Hkind. step. rewrite Htable.
    rewrite (ManagementReconnectionDetails_reconnect_run _ _ _ _ _ _
               Hd Hold Hnew Hne).
    erewrite bind_run
      by (apply (ManagementReconnectionDetails_reconnect_run _ _ _ _ _ _
                   Hd Hold Hnew Hne)).
    reflexivity. }
  subst w'. unfold exec. rewrite E.
  rewrite (ManagementReconnectionDetails_reconnect_run _ _ _ _ _ _
             Hd Hold Hnew Hne).
  fields. rewrite <- app_assoc. cbn [app]. subst stored arriving.
  split; [reflexivity|]. split; [reflexivity|].
  split; [|split; [|split; reflexivity]].
  - rewrite lookup_insert_ne by congruence. apply lookup_insert_eq.
  - apply lookup_insert_eq.
Qed.

(** The calls of [ManagementReconnectionDetails.dispose]; the tables of
    the handler are not within its reach. *)
Lemma ManagementReconnectionDetails_dispose_run this w self st :
  managementDetails w !! this = Some self ->
  md_disposed self = false ->
  protocols w !! persistentProtocol (md_protocolHolder self) = Some st ->
  ManagementReconnectionDetails_dispose this w
  = (Returned tt,
     set_trace
       (fun t => t ++ [SendDisconnect (persistentProtocol (md_protocolHolder self));
                       ProtocolDispose (persistentProtocol (md_protocolHolder self));
                       WsEnd (pp_socket st)])
       (set_protocols
          <[persistentProtocol (md_protocolHolder self)
              := mkProtocol (pp_socket st) (pp_incoming st) true]>
          (set_managementDetails
             <[this := mkManagementDetails (md_protocolHolder self) true]> w))).
Proof.
  intros Hd Hf Hp. unfold ManagementReconnectionDetails_dispose, getProtocol.
  step. rewrite Hf. do 4 step. rewrite emit_run. same_store.
Qed.

(** Disposing a management session leaves its entry in the table. *)
Lemma management_dispose_keeps_entry this w self st token :
  managementDetails w !! this = Some self ->
  md_disposed self = false ->
  protocols w !! persistentProtocol (md_protocolHolder self) = Some st ->
  managementConnections w !! token = Some this ->
  managementConnections (exec (ManagementReconnectionDetails_dispose this) w)
    !! token = Some this.
Proof.
  intros Hd Hf Hp Ht. unfold exec.
  rewrite (ManagementReconnectionDetails_dispose_run _ _ _ _ Hd Hf Hp).
  exact Ht.
Qed.

(** *** The supervisor *)

Lemma ExtensionHost_connect_run this holder debugPort w self current new :
  hosts w !! this = Some self ->
  protocols w !! persistentProtocol (eh_protocolHolder self) = Some current ->
  protocols w !! persistentProtocol holder = Some new ->
  exists ps,
    ExtensionHost_connect this holder debugPort w
    = (Returned (base64 (pp_incoming current)),
       set_trace
         (fun t => t ++ [SendControl (persistentProtocol holder)
                           (connect_message debugPort);
                         ReadEntireBuffer
                           (persistentProtocol (eh_protocolHolder self));
                         ProtocolDispose (persistentProtocol holder);
                         SocketPause (eh_socket self)])
         (set_protocols (fun _ => ps) w))
    /\ ps !! persistentProtocol (eh_protocolHolder self)
       = Some (mkProtocol (pp_socket current) []
                 (if decide (persistentProtocol (eh_protocolHolder self)
                             = persistentProtocol holder)
                  then true else pp_disposed current)).
Proof.
  intros Hh Hcur Hnew. unfold ExtensionHost_connect, getProtocol.
  assert (Hsend :
    (match truthy_port debugPort with
     | Some n => sendControlMessage holder [("debugPort", JNumber n)]
     | None => sendControlMessage holder []
     end) w
    = (Returned tt,
       set_trace (fun t => t ++ [SendControl (persistentProtocol holder)
                                   (connect_message debugPort)]) w)).
  { unfold connect_message. destruct (truthy_port debugPort); reflexivity. }
  erewrite bind_run by exact Hsend. cbv beta.
  do 2 step.
  destruct (decide (persistentProtocol (eh_protocolHolder self)
                    = persistentProtocol holder)) as [Heq|Hne].
  - rewrite <- Heq. do 2 step. rewrite ret_run.
    eexists. split; [same_store|]. apply lookup_insert_eq.
  - do 2 step. rewrite ret_run.
    eexists. split; [same_store|].
    rewrite lookup_insert_ne by congruence. apply lookup_insert_eq.
Qed.

Lemma sendExthostIpcSocket_run this wsid socket pid chunk deflate w self ws :
  websockets w !! wsid = Some ws ->
  hosts w !! this = Some self ->
  sendExthostIpcSocket this wsid socket pid chunk deflate w
  = (Returned tt,
     set_trace
       (fun t => t ++ [WsDrain wsid;
                       ProcessSend pid
                         (mkExtHostSocketMessage "VSCODE_EXTHOST_IPC_SOCKET"
                            chunk (skipWebSocketFrames (eh_protocolHolder self))
                            deflate (base64 (recordedInflateBytes ws)))
                         socket])
       w).
Proof.
  intros Hws Hh. unfold sendExthostIpcSocket, isSkipWebSocketFrames.
  do 3 step. rewrite emit_run. same_store.
Qed.

(** The calls of [ExtensionHost.reconnect] on a host that has its
    worker: no process is created and none is killed; the host keeps
    its process and takes the new protocol holder. *)
Lemma ExtensionHost_reconnect_run this holder socket debugPort w self pid
    current new ws :
  hosts w !! this = Some self ->
  extensionHostProcess self = Some pid ->
  protocols w !! persistentProtocol (eh_protocolHolder self) = Some current ->
  protocols w !! persistentProtocol holder = Some new ->
  websockets w !! webSocketNodeSocket holder = Some ws ->
  exists ps,
    ExtensionHost_reconnect this holder socket debugPort w
    = (Returned tt,
       set_trace
         (fun t => t ++ [SendControl (persistentProtocol holder)
                           (connect_message debugPort);
                         ReadEntireBuffer
                           (persistentProtocol (eh_protocolHolder self));
                         ProtocolDispose (persistentProtocol holder);
                         SocketPause (eh_socket self);
                         WsDrain (webSocketNodeSocket holder);
                         ProcessSend pid
                           (mkExtHostSocketMessage "VSCODE_EXTHOST_IPC_SOCKET"
                              (base64 (pp_incoming current))
                              (skipWebSocketFrames holder)
                              (permessageDeflate holder)
                              (base64 (recordedInflateBytes ws)))
                           socket])
         (set_hosts
            (alter (fun e =>
               mkExtensionHost (eh_uriTransformerPath e) (eh_socket e) holder
                               (eh_disposed e) (extensionHostProcess e)) this)
            (set_protocols (fun _ => ps) w))).
Proof.
  intros Hh Hpid Hcur Hnew Hws.
  destruct (ExtensionHost_connect_run this holder debugPort w self current new
              Hh Hcur Hnew) as (ps & Hrun & _).
  exists ps. unfold ExtensionHost_reconnect, getPermessageDeflate.
  step. rewrite Hpid.
  erewrite bind_run by exact Hrun. cbv beta. step.
  erewrite sendExthostIpcSocket_run;
    [ | fields; exact Hws | fields; rewrite lookup_alter_eq, Hh; reflexivity ].
  same_store.
Qed.

(** *** No handler of a socket kills a worker *)

Lemma only_ret P {A} (a : A) : only P (mret a).
Proof. intros w. exists []. cbn. rewrite app_nil_r. auto. Qed.

Lemma only_bind P {A B} (m : M A) (f : A -> M B) :
  only P m -> (forall a, only P (f a)) -> only P (m ≫= f).
Proof.
  intros Hm Hf w. unfold mbind, M_bind.
  destruct (Hm w) as (a1 & E1 & F1). destruct (m w) as [[a|msg|] w1]; cbn in *.
  - destruct (Hf a w1) as (a2 & E2 & F2). exists (a1 ++ a2).
    rewrite E2, E1, app_assoc. split; [reflexivity | now apply Forall_app].
  - eauto.
  - eauto.
Qed.

Lemma only_emit (P : Effect -> Prop) e : P e -> only P (emit e).
Proof. intros Pe w. exists [e]. cbn. auto. Qed.

Lemma only_modify P (f : World -> World) :
  (forall w, trace (f w) = trace w) -> only P (modify f).
Proof. intros Hf w. exists []. cbn. rewrite Hf, app_nil_r. auto. Qed.

Lemma only_get P : only P get.
Proof. intros w. exists []. cbn. rewrite app_nil_r. auto. Qed.

Lemma only_deref P {A} (o : option A) : only P (deref o).
Proof. intros w. exists []. destruct o; cbn; rewrite app_nil_r; auto. Qed.

Lemma only_fresh P : only P fresh.
Proof. intros w. exists []. cbn. rewrite app_nil_r. auto. Qed.

Lemma only_throw P {A} msg : only P (throw (A := A) msg).
Proof. intros w. exists []. cbn. rewrite app_nil_r. auto. Qed.

Lemma only_forEach P {A} (f : A -> M unit) (l : list A) :
  (forall a, only P (f a)) -> only P (forEach f l).
Proof.
  intros Hf. induction l as [|x l IH]; cbn.
  - apply only_ret.
  - apply only_bind; auto.
Qed.

Lemma only_unawaited P (m : M unit) : only P m -> only P (unawaited m).
Proof.
  intros Hm w. unfold unawaited. destruct (Hm w) as (a & E & F).
  destruct (m w) as [[[]|msg|] w1]; cbn in *; eauto.
Qed.

(** Breaks a computation into the operations of the store. *)
Ltac only_steps :=
  repeat first
    [ apply only_ret | apply only_get | apply only_fresh | apply only_deref
    | apply only_throw
    | apply only_emit; cbn; congruence
    | apply only_modify; reflexivity
    | apply only_bind; [|intros ?]
    | apply only_forEach; intros ?
    | apply only_unawaited
    | match goal with
      | |- only _ (match ?x with _ => _ end) => destruct x
      | |- only _ (let '(_, _) := ?x in _) => destruct x
      end ].

Definition not_kill (e : Effect) : Prop := is_kill e = false.

Lemma handleConnectionTypeRequest_never_kills request holder socket :
  only not_kill (handleConnectionTypeRequest request holder socket).
Proof.
  unfold not_kill, handleConnectionTypeRequest, abortWebSocketConnection,
    ManagementReconnectionDetails_reconnect, ExtensionHost_reconnect,
    ExtensionHost_start, ExtensionHost_connect, sendExthostIpcSocket,
    validateDebugPort, sendControlMessage, setExtensionHost, getSocket,
    sendControl, readEntireBuffer, beginAcceptReconnection,
    endAcceptReconnection, protocol_dispose, theProtocol, theWebSocket,
    theHost, theManagementDetails, theExtensionHostDetails.
  only_steps.
Qed.

Lemma control_message_never_kills protocol message :
  only not_kill (control_message protocol message).
Proof.
  unfold control_message.
  apply only_bind; [apply only_get | intros w0].
  apply only_forEach. intros [[p holder] socket].
  destruct (p =? protocol)%nat; [|apply only_ret].
  destruct message; cbn [control_listener].
  - apply only_emit. reflexivity.
  - apply only_unawaited, handleConnectionTypeRequest_never_kills.
  - apply only_ret.
Qed.

Lemma handle_never_kills req socket : only not_kill (handle req socket).
Proof. unfold not_kill, handle, upgradeSocket. only_steps. Qed.

(** C3: when the table of extension-host sessions has an entry for the
    token and its [ExtensionHost] has a worker process, a
    [connectionType] request for that token calls [reconnect] on that
    [ExtensionHost]: the calls made are those of [connect] and of one
    socket hand-off to the stored process, no object is created (no
    fork) and no process is killed, and afterwards the host holds the
    same process handle as before; and no handler that a socket can
    trigger (an upgrade request, a control message) ever kills a
    worker. *)
Theorem extension_host_reconnect_keeps_worker
    (request : ConnectionTypeRequest) (holder : VSCodeProtocolHolder)
    (socket : SocketId) (w : World) (d : DetailsId)
    (details : ExtensionHostReconnectionDetails) (h : HostId)
    (host : ExtensionHostState) (pid : Pid)
    (current new : PersistentProtocol) (ws : WebSocketNodeSocket) :
  desiredConnectionType request = Some ExtensionHost ->
  extensionHostConnections w !! reconnectionToken holder = Some d ->
  extensionHostDetails w !! d = Some details ->
  ed_extensionHost details = Some h ->
  hosts w !! h = Some host ->
  extensionHostProcess host = Some pid ->
  protocols w !! persistentProtocol (eh_protocolHolder host) = Some current ->
  protocols w !! persistentProtocol holder = Some new ->
  websockets w !! webSocketNodeSocket holder = Some ws ->
  let w' := exec (handleConnectionTypeRequest request holder socket) w in
  (handleConnectionTypeRequest request holder socket w = (Returned tt, w')
   /\ trace w'
      = trace w
        ++ [SendControl (persistentProtocol holder)
              (connect_message (port_or_zero (remoteStartParams details)));
            ReadEntireBuffer (persistentProtocol (eh_protocolHolder host));
            ProtocolDispose (persistentProtocol holder);
            SocketPause (eh_socket host);
            WsDrain (webSocketNodeSocket holder);
            ProcessSend pid
              (mkExtHostSocketMessage "VSCODE_EXTHOST_IPC_SOCKET"
                 (base64 (pp_incoming current))
                 (skipWebSocketFrames holder) (permessageDeflate holder)
                 (base64 (recordedInflateBytes ws)))
              socket]
   /\ (exists host', hosts w' !! h = Some host'
                     /\ extensionHostProcess host' = Some pid
                     /\ eh_disposed host' = eh_disposed host
                     /\ eh_protocolHolder host' = holder)
   /\ processes w' = processes w
   /\ nextId w' = nextId w
   /\ extensionHostConnections w' = extensionHostConnections w
   /\ extensionHostDetails w' = extensionHostDetails w)
  /\ (forall req s, only not_kill (handle req s))
  /\ (forall p message, only not_kill (control_message p message)).
Proof.
  intros Hkind Htable Hd Hh Hhost Hpid Hcur Hnew Hws w'.
  split; [|split; [apply handle_never_kills | apply control_message_never_kills]].
  assert (E : handleConnectionTypeRequest request holder socket w
              = ExtensionHost_reconnect h holder socket
                  (port_or_zero (remoteStartParams details)) w).
  { unfold handleConnectionTypeRequest. rewrite Hkind. step. rewrite Htable.
    step. now rewrite Hh. }
  destruct (ExtensionHost_reconnect_run h holder socket
              (port_or_zero (remoteStartParams details)) w host pid current
              new ws Hhost Hpid Hcur Hnew Hws) as (ps & Hrun).
  subst w'. unfold exec. rewrite E, Hrun. fields.
  split; [reflexivity|]. split; [reflexivity|].
  split; [|repeat split; reflexivity].
  eexists. split; [rewrite lookup_alter_eq, Hhost; reflexivity|].
  records. auto.
Qed.

(** *** The hand-off after [start] *)

Lemma ExtensionHost_start_run this startParams w self st :
  hosts w !! this = Some self ->
  protocols w !! persistentProtocol (eh_protocolHolder self) = Some st ->
  exists ps,
  ExtensionHost_start this startParams w
  = (Returned tt,
     set_processes
       <[nextId w := mkChildProcess
           [onConsoleMessageListener this;
            onMessageReadyListener this (base64 (pp_incoming st))]
           [this] [this]]>
       (set_hosts
          <[this := mkExtensionHost (eh_uriTransformerPath self)
                      (eh_socket self) (eh_protocolHolder self)
                      (eh_disposed self) (Some (nextId w))]>
          (set_nextId S
             (set_trace
                (fun t => t ++ [SendControl
                                  (persistentProtocol (eh_protocolHolder self))
                                  (connect_message (port startParams));
                                ReadEntireBuffer
                                  (persistentProtocol (eh_protocolHolder self));
                                ProtocolDispose
                                  (persistentProtocol (eh_protocolHolder self));
                                SocketPause (eh_socket self);
                                Fork (nextId w) "bootstrap-fork"
                                  ["--type=extensionHost";
                                   "--uriTransformerPath="
                                     +:+ eh_uriTransformerPath self]
                                  (execArgv_of startParams) isWindows true])
                (set_protocols (fun _ => ps) w))))).
Proof.
  intros Hh Hp.
  destruct (ExtensionHost_connect_run this (eh_protocolHolder self)
              (port startParams) w self st st Hh Hp Hp) as (ps & Hrun & _).
  exists ps. unfold ExtensionHost_start. step.
  erewrite bind_run by exact Hrun. cbv beta. do 3 step.
  rewrite modify_run.
  apply (f_equal (pair _)); apply world_eq; fields; records;
    rewrite <- ?app_assoc; cbn [app]; try reflexivity.
  apply map_eq. intros i. rewrite lookup_alter, lookup_insert.
  case_decide; [subst i; now rewrite Hh | reflexivity].
Qed.

(** Before the worker is ready: a message that is not
    [VSCODE_EXTHOST_IPC_READY] changes nothing; the first that is
    removes the listener and hands the socket over. *)
Lemma worker_message_waiting pid message w this chunk ex er self ws :
  processes w !! pid
    = Some (mkChildProcess [onConsoleMessageListener this;
                            onMessageReadyListener this chunk] ex er) ->
  hosts w !! this = Some self ->
  websockets w !! webSocketNodeSocket (eh_protocolHolder self) = Some ws ->
  worker_message pid message w
  = (Returned tt,
     if is_ready message then
       set_trace
         (fun t => t ++ [WsDrain (webSocketNodeSocket (eh_protocolHolder self));
                         ProcessSend pid
                           (mkExtHostSocketMessage "VSCODE_EXTHOST_IPC_SOCKET"
                              chunk
                              (skipWebSocketFrames (eh_protocolHolder self))
                              (permessageDeflate (eh_protocolHolder self))
                              (base64 (recordedInflateBytes ws)))
                           (eh_socket self)])
         (set_processes
            <[pid := mkChildProcess [onConsoleMessageListener this] ex er]> w)
     else w).
Proof.
  intros Hproc Hh Hws. unfold worker_message. step.
  cbn [messageListeners forEach call_message_listener].
  step. destruct message; cbn [is_ready]; [|step; apply ret_run..].
  erewrite bind_run; [apply ret_run|].
  do 2 step.
  erewrite sendExthostIpcSocket_run; [ | fields; eassumption.. ].
  unfold getPermessageDeflate.
  apply (f_equal (pair _)); apply world_eq; fields; records;
    rewrite <- ?app_assoc; cbn [app]; try reflexivity.
  apply map_eq. intros i. rewrite lookup_alter, lookup_insert.
  case_decide; [subst i; rewrite Hproc; cbn [fmap option_fmap option_map]
               |reflexivity].
  records. unfold removeListener. cbn [rev app remove_first].
  rewrite decide_True by reflexivity. reflexivity.
Qed.

(** After the hand-off no listener for the ready message is left. *)
Lemma worker_message_handed_over pid message w this ex er :
  processes w !! pid
    = Some (mkChildProcess [onConsoleMessageListener this] ex er) ->
  worker_message pid message w = (Returned tt, w).
Proof.
  intros Hproc. unfold worker_message. step.
  cbn [messageListeners forEach call_message_listener].
  step. apply ret_run.
Qed.

Lemma worker_messages_handed_over pid messages w this ex er :
  processes w !! pid
    = Some (mkChildProcess [onConsoleMessageListener this] ex er) ->
  worker_messages pid messages w = (Returned tt, w).
Proof.
  intros Hproc. unfold worker_messages.
  induction messages as [|m ms IH]; cbn [forEach]; [reflexivity|].
  erewrite bind_run by (eapply worker_message_handed_over; exact Hproc).
  exact IH.
Qed.

Lemma worker_messages_waiting pid messages w this chunk ex er self ws :
  processes w !! pid
    = Some (mkChildProcess [onConsoleMessageListener this;
                            onMessageReadyListener this chunk] ex er) ->
  hosts w !! this = Some self ->
  websockets w !! webSocketNodeSocket (eh_protocolHolder self) = Some ws ->
  worker_messages pid messages w
  = (Returned tt,
     if existsb is_ready messages then
       set_trace
         (fun t => t ++ [WsDrain (webSocketNodeSocket (eh_protocolHolder self));
                         ProcessSend pid
                           (mkExtHostSocketMessage "VSCODE_EXTHOST_IPC_SOCKET"
                              chunk
                              (skipWebSocketFrames (eh_protocolHolder self))
                              (permessageDeflate (eh_protocolHolder self))
                              (base64 (recordedInflateBytes ws)))
                           (eh_socket self)])
         (set_processes
            <[pid := mkChildProcess [onConsoleMessageListener this] ex er]> w)
     else w).
Proof.
  intros Hproc Hh Hws. unfold worker_messages.
  induction messages as [|m ms IH]; cbn [forEach existsb]; [reflexivity|].
  erewrite bind_run by (eapply worker_message_waiting; eassumption).
  destruct (is_ready m); cbn [orb].
  - apply (worker_messages_handed_over pid ms _ this ex er).
    fields. apply lookup_insert_eq.
  - exact IH.
Qed.

(** C4: after [start], whatever messages the worker sends, the
    listener for [VSCODE_EXTHOST_IPC_READY] acts on the first such
    message only: it is removed from the listeners of the process, the
    websocket is drained, and one [VSCODE_EXTHOST_IPC_SOCKET] message is
    sent to the process together with the OS socket, carrying the
    initial data chunk of [start], the two flags of the protocol holder
    and, as [inflateBytes], the base64 text of the recorded inflate
    bytes of the websocket.  Without such a message nothing is sent;
    with several, nothing more is sent. *)
Theorem ready_listener_hands_socket_over_once
    (h : HostId) (startParams : StartParams) (w : World)
    (host : ExtensionHostState) (st : PersistentProtocol)
    (ws : WebSocketNodeSocket) (messages : list WorkerMessage) :
  hosts w !! h = Some host ->
  protocols w !! persistentProtocol (eh_protocolHolder host) = Some st ->
  websockets w !! webSocketNodeSocket (eh_protocolHolder host) = Some ws ->
  let pid := nextId w in
  let holder := eh_protocolHolder host in
  let ready := onMessageReadyListener h (base64 (pp_incoming st)) in
  let w1 := exec (ExtensionHost_start h startParams) w in
  let w2 := exec (worker_messages pid messages) w1 in
  ExtensionHost_start h startParams w = (Returned tt, w1)
  /\ processes w1 !! pid
     = Some (mkChildProcess [onConsoleMessageListener h; ready] [h] [h])
  /\ worker_messages pid messages w1 = (Returned tt, w2)
  /\ trace w2
     = trace w1
       ++ (if existsb is_ready messages then
             [WsDrain (webSocketNodeSocket holder);
              ProcessSend pid
                (mkExtHostSocketMessage "VSCODE_EXTHOST_IPC_SOCKET"
                   (base64 (pp_incoming st))
                   (skipWebSocketFrames holder) (permessageDeflate holder)
                   (base64 (recordedInflateBytes ws)))
                (eh_socket host)]
           else [])
  /\ processes w2 !! pid
     = Some (mkChildProcess
               (if existsb is_ready messages
                then [onConsoleMessageListener h]
                else [onConsoleMessageListener h; ready])
               [h] [h]).
Proof.
  intros Hh Hp Hws pid holder ready w1 w2.
  destruct (ExtensionHost_start_run h startParams w host st Hh Hp)
    as (ps & Hstart).
  assert (Hproc : processes w1 !! pid
                  = Some (mkChildProcess [onConsoleMessageListener h; ready]
                                         [h] [h])).
  { subst w1. unfold exec. rewrite Hstart. fields. apply lookup_insert_eq. }
  assert (Hhost : hosts w1 !! h
                  = Some (mkExtensionHost (eh_uriTransformerPath host)
                            (eh_socket host) (eh_protocolHolder host)
                            (eh_disposed host) (Some pid))).
  { subst w1. unfold exec. rewrite Hstart. fields. apply lookup_insert_eq. }
  assert (Hws1 : websockets w1 !! webSocketNodeSocket holder = Some ws).
  { subst w1. unfold exec. rewrite Hstart. fields. exact Hws. }
  pose proof (worker_messages_waiting pid messages w1 h
                (base64 (pp_incoming st)) [h] [h] _ ws Hproc Hhost Hws1)
    as Hrun.
  records.
  split; [subst w1; unfold exec; now rewrite Hstart|].
  split; [exact Hproc|].
  subst w2. unfold exec. rewrite Hrun. fields.
  split; [reflexivity|].
  destruct (existsb is_ready messages); fields.
  - split; [reflexivity | apply lookup_insert_eq].
  - split; [now rewrite app_nil_r | exact Hproc].
Qed.

End Facts.
Import Examples Scenario.

(** *** The scenarios of the specification *)

Lemma management_reconnect_answers_on_new_protocol_witness :
  managementConnections second_socket_T1 !! "T1" = Some 2
  /\ trace (exec (handleConnectionTypeRequest management_request
                    second_holder_T1 11) second_socket_T1)
     = trace second_socket_T1
       ++ [SendControl 4 [("type", JString "ok")]; ReadEntireBuffer 4;
           BeginAcceptReconnection 1 3 []; EndAcceptReconnection 1;
           ProtocolDispose 4; SendControl 4 [("type", JString "ok")]].
Proof.
  assert (Ht : managementConnections second_socket_T1 !! "T1" = Some 2)
    by (vm_compute; reflexivity).
  split; [exact Ht|].
  refine (proj1 (proj2 (management_reconnect_answers_on_new_protocol
            management_request second_holder_T1 11 second_socket_T1 2
            (mkManagementDetails first_holder_T1 false)
            (mkProtocol 0 [] false) (mkProtocol 3 [] false)
            eq_refl Ht _ _ _ _))).
  - vm_compute; reflexivity.
  - vm_compute; reflexivity.
  - vm_compute; reflexivity.
  - cbn. lia.
Defined.

(** C1 as stated fails: in scenario 2 the stored protocol of [T1] is
    object 1 and the protocol of the new socket is object 4; the
    [connectionType] message on the new socket makes the broker send
    [{"type": "ok"}] on protocol 4, and no control message at all is sent
    on the stored protocol 1. *)
Lemma management_reconnect_ok_not_on_stored_protocol :
  managementConnections second_socket_T1 !! "T1" = Some 2
  /\ (persistentProtocol ∘ md_protocolHolder)
       <$> managementDetails second_socket_T1 !! 2 = Some 1
  /\ drop (length (trace second_socket_T1))
          (trace (exec (control_message 4 (ConnectionTypeMessage management_request))
                       second_socket_T1))
     = [SendControl 4 [("type", JString "ok")]; ReadEntireBuffer 4;
        BeginAcceptReconnection 1 3 []; EndAcceptReconnection 1;
        ProtocolDispose 4; SendControl 4 [("type", JString "ok")]]
  /\ forall message,
       ~ In (SendControl 1 message)
            (drop (length (trace second_socket_T1))
               (trace (exec (control_message 4
                               (ConnectionTypeMessage management_request))
                            second_socket_T1))).
Proof.
  split; [vm_compute; reflexivity|]. split; [vm_compute; reflexivity|].
  assert (E : drop (length (trace second_socket_T1))
                (trace (exec (control_message 4
                                (ConnectionTypeMessage management_request))
                             second_socket_T1))
              = [SendControl 4 [("type", JString "ok")]; ReadEntireBuffer 4;
                 BeginAcceptReconnection 1 3 []; EndAcceptReconnection 1;
                 ProtocolDispose 4; SendControl 4 [("type", JString "ok")]])
    by (vm_compute; reflexivity).
  split; [exact E|]. intros message. rewrite E. cbn.
  intros [F|[F|[F|[F|[F|[F|[]]]]]]]; discriminate.
Qed.

Lemma reconnect_with_unknown_token_aborts_witness :
  isReconnecting holder_T99 = true
  /\ managementConnections unknown_token_socket !! "T99" = None
  /\ trace (exec (handleConnectionTypeRequest management_request holder_T99 10)
                 unknown_token_socket)
     = trace unknown_token_socket
       ++ [SendControl 1
             [("reason", JString "Asking to reconnect but provided token is unknown");
              ("type", JString "error")];
           ProtocolDispose 1; WsDrain 0; WsDispose 0]
  /\ managementConnections
       (exec (handleConnectionTypeRequest management_request holder_T99 10)
             unknown_token_socket)
     = managementConnections unknown_token_socket.
Proof.
  assert (Ht : managementConnections unknown_token_socket !! "T99" = None)
    by (vm_compute; reflexivity).
  assert (Hp : protocols unknown_token_socket !! 1 = Some (mkProtocol 0 [] false))
    by (vm_compute; reflexivity).
  split; [reflexivity|]. split; [exact Ht|].
  destruct (reconnect_with_unknown_token_aborts management_request holder_T99
              10 unknown_token_socket (mkProtocol 0 [] false) Management
              eq_refl eq_refl Ht Hp) as (_ & Htrace & _ & Hm & _).
  split; [exact Htrace | exact Hm].
Defined.

Lemma extension_host_reconnect_keeps_worker_witness :
  extensionHostConnections second_socket_T2 !! "T2" = Some 2
  /\ extensionHostProcess <$> hosts second_socket_T2 !! 3 = Some (Some 4)
  /\ (exists host',
        hosts (exec (handleConnectionTypeRequest extension_host_request
                       second_holder_T2 21) second_socket_T2) !! 3
        = Some host'
        /\ extensionHostProcess host' = Some 4)
  /\ processes (exec (handleConnectionTypeRequest extension_host_request
                        second_holder_T2 21) second_socket_T2)
     = processes second_socket_T2.
Proof.
  assert (Ht : extensionHostConnections second_socket_T2 !! "T2" = Some 2)
    by (vm_compute; reflexivity).
  split; [exact Ht|]. split; [vm_compute; reflexivity|].
  destruct (extension_host_reconnect_keeps_worker extension_host_request
              second_holder_T2 21 second_socket_T2 2
              (mkExtensionHostDetails first_holder_T2
                 (mkStartParams (Some "en") (Some 9232%Z) None) (Some 3) false
                 ["T2"])
              3
              (mkExtensionHost uriTransformerPath 20 first_holder_T2 false (Some 4))
              4 (mkProtocol 0 [] true) (mkProtocol 5 [] false)
              (mkWebSocket 21 false []))
    as ((_ & _ & (host' & Hh & Hpid & _) & Hprocs & _) & _).
  - reflexivity.
  - exact Ht.
  - vm_compute; reflexivity.
  - reflexivity.
  - vm_compute; reflexivity.
  - reflexivity.
  - vm_compute; reflexivity.
  - vm_compute; reflexivity.
  - vm_compute; reflexivity.
  - split; [|exact Hprocs]. exists host'. split; [exact Hh | exact Hpid].
Defined.

Lemma ready_listener_hands_socket_over_once_witness :
  hosts before_start !! 2
    = Some (mkExtensionHost uriTransformerPath 20 first_holder_T2 false None)
  /\ trace (exec (worker_messages 3 [ConsoleLog "log" "[]"; IpcReady; IpcReady])
              (exec (ExtensionHost_start 2 (mkStartParams (Some "en") None None))
                    before_start))
     = trace (exec (ExtensionHost_start 2 (mkStartParams (Some "en") None None))
                   before_start)
       ++ [WsDrain 0;
           ProcessSend 3
             (mkExtHostSocketMessage "VSCODE_EXTHOST_IPC_SOCKET"
                (base64 []) false false (base64 []))
             20].
Proof.
  assert (Hh : hosts before_start !! 2
               = Some (mkExtensionHost uriTransformerPath 20 first_holder_T2
                                       false None))
    by (vm_compute; reflexivity).
  split; [exact Hh|].
  refine (proj1 (proj2 (proj2 (proj2
            (ready_listener_hands_socket_over_once 2
               (mkStartParams (Some "en") None None) before_start _
               (mkProtocol 0 [] false) (mkWebSocket 20 false [])
               [ConsoleLog "log" "[]"; IpcReady; IpcReady] Hh _ _))))).
  - vm_compute; reflexivity.
  - vm_compute; reflexivity.
Defined.

Lemma handle_rejects_missing_or_repeated_token_witness :
  parseQuery "/?reconnectionToken=T1&reconnectionToken=T2" !! "reconnectionToken"
    = Some (QArray ["T1"; "T2"])
  /\ trace (exec (handle (request "/?reconnectionToken=T1&reconnectionToken=T2") 10)
                 empty_world)
     = [SocketWrite 10
          (response_text (request "/?reconnectionToken=T1&reconnectionToken=T2"));
        SocketEnd 10 (Some ("HTTP/1.1 400 Bad Request" +:+ CRLF +:+ CRLF))]
  /\ protocols (exec (handle (request "/?reconnectionToken=T1&reconnectionToken=T2") 10)
                     empty_world)
     = ∅.
Proof.
  assert (Hq : parseQuery "/?reconnectionToken=T1&reconnectionToken=T2"
                 !! "reconnectionToken" = Some (QArray ["T1"; "T2"]))
    by (vm_compute; reflexivity).
  split; [exact Hq|].
  destruct (handle_rejects_missing_or_repeated_token
              (request "/?reconnectionToken=T1&reconnectionToken=T2") 10
              empty_world (or_intror (ex_intro _ _ Hq)))
    as (_ & Htrace & Hp & _).
  split; [exact Htrace | exact Hp].
Defined.

(** C7 fails on the code: in scenario 1, disposing the management
    session of [T1] sends the disconnect, disposes the protocol and ends
    the socket, and the entry of [T1] is still in the management table. *)
Theorem management_dispose_leaves_table_entry :
  managementConnections fresh_management !! "T1" = Some 2
  /\ ManagementReconnectionDetails_dispose 2 fresh_management
     = (Returned tt, exec (ManagementReconnectionDetails_dispose 2) fresh_management)
  /\ trace (exec (ManagementReconnectionDetails_dispose 2) fresh_management)
     = trace fresh_management ++ [SendDisconnect 1; ProtocolDispose 1; WsEnd 0]
  /\ md_disposed
       <$> managementDetails
             (exec (ManagementReconnectionDetails_dispose 2) fresh_management) !! 2
     = Some true
  /\ managementConnections
       (exec (ManagementReconnectionDetails_dispose 2) fresh_management) !! "T1"
     = Some 2.
Proof. repeat split; vm_compute; reflexivity. Qed.

(** The sibling: disposing the extension-host session of [T2] fires
    [onDidClientDisconnect], whose listener deletes the entry. *)
Lemma extension_host_dispose_removes_table_entry :
  extensionHostConnections fresh_extension_host !! "T2" = Some 2
  /\ extensionHostConnections
       (exec (ExtensionHostReconnectionDetails_dispose 2) fresh_extension_host)
       !! "T2"
     = None.
Proof. split; vm_compute; reflexivity. Qed.

End BrokerFacts.

(* ===================================================================== *)
(** ** More on the URI transformer *)
(* ===================================================================== *)

Module UriTransformerMore.
Import UriTransformer.

Lemma eqb_false_of_ne (a b : string) : a <> b -> String.eqb a b = false.
Proof. intros Hne. now apply String.eqb_neq. Qed.

(** X1: both directions keep the path.  Going out and coming back keeps
    the scheme of every URI but a [vscode-remote] one (which comes back as
    [file]); coming in and going out keeps the scheme of every URI but a
    [vscode-local] one (which goes out as [file]); a URI of a scheme that
    is none of [file], [vscode-remote], [vscode-local] passes both ways
    unchanged, authority, query and fragment included. *)
Theorem transformer_round_trips (remoteAuthority : string) (u : UriParts) :
  path (transformIncoming u) = path u
  /\ path (transformOutgoing remoteAuthority u) = path u
  /\ (scheme u <> "vscode-remote" ->
      scheme (transformIncoming (transformOutgoing remoteAuthority u)) = scheme u)
  /\ (scheme u <> "vscode-local" ->
      scheme (transformOutgoing remoteAuthority (transformIncoming u)) = scheme u)
  /\ (scheme u <> "file" -> scheme u <> "vscode-remote" ->
      scheme u <> "vscode-local" ->
      transformIncoming u = u /\ transformOutgoing remoteAuthority u = u).
Proof.
  unfold transformIncoming, transformOutgoing.
  destruct (String.eqb_spec (scheme u) "file") as [Ef|Nf];
    destruct (String.eqb_spec (scheme u) "vscode-remote") as [Er|Nr];
    destruct (String.eqb_spec (scheme u) "vscode-local") as [El|Nl];
    try congruence; cbn;
    rewrite ?Ef, ?Er, ?El; cbn;
    rewrite ?(eqb_false_of_ne _ _ Nf), ?(eqb_false_of_ne _ _ Nr),
      ?(eqb_false_of_ne _ _ Nl); cbn;
    rewrite ?(eqb_false_of_ne _ _ Nf), ?(eqb_false_of_ne _ _ Nr),
      ?(eqb_false_of_ne _ _ Nl);
    repeat split; intros; try congruence.
Qed.

Lemma transformer_round_trips_witness :
  scheme (mkUri "file" None (Some "/projects/a.txt") None None) <> "vscode-remote"
  /\ scheme (transformIncoming
               (transformOutgoing "localhost:8080"
                  (mkUri "file" None (Some "/projects/a.txt") None None)))
     = "file".
Proof.
  assert (Hne : scheme (mkUri "file" None (Some "/projects/a.txt") None None)
                <> "vscode-remote") by discriminate.
  split; [exact Hne|].
  exact (proj1 (proj2 (proj2 (transformer_round_trips "localhost:8080"
           (mkUri "file" None (Some "/projects/a.txt") None None)))) Hne).
Defined.

(** X2: [transformOutgoingScheme] is the scheme part of
    [transformOutgoing]: for every URI and every authority, the scheme of
    the outgoing URI is the outgoing scheme of its scheme. *)
Theorem transformOutgoingScheme_agrees (remoteAuthority : string) (u : UriParts) :
  scheme (transformOutgoing remoteAuthority u) = transformOutgoingScheme (scheme u).
Proof.
  unfold transformOutgoing, transformOutgoingScheme.
  destruct (String.eqb (scheme u) "file"); [reflexivity|].
  destruct (String.eqb (scheme u) "vscode-local"); reflexivity.
Qed.

End UriTransformerMore.

(* ===================================================================== *)
(** ** More on the remote filesystem channel *)
(* ===================================================================== *)

Module RemoteFileSystemChannelMore.
Import UriTransformer RemoteFileSystemChannel.

Lemma call_unwatch_miss s w st :
  fileWatcherDisposables st !! (s +:+ w) = None -> call_unwatch s w st = (st, []).
Proof. intros E. unfold call_unwatch. now rewrite E. Qed.

Lemma call_unwatch_hit s w st d :
  fileWatcherDisposables st !! (s +:+ w) = Some d ->
  call_unwatch s w st
  = (mkChannel (fileWatchers st) (delete (s +:+ w) (fileWatcherDisposables st))
               (created st),
     [DisposableDispose d]).
Proof. intros E. unfold call_unwatch. now rewrite E. Qed.

Lemma call_watch_registered s w u o st fw :
  fileWatchers st !! (s +:+ w) = Some fw ->
  call_watch s w u o st
  = (mkChannel (fileWatchers st)
       (<[s +:+ w := mkDisposable fw (transformIncoming u) o]>
          (fileWatcherDisposables st))
       (created st),
     [ProviderWatch fw (transformIncoming u) o]).
Proof. intros E. unfold call_watch. now rewrite E. Qed.

(** X3: [watch] and [unwatch] with the same two ids undo each other.
    When a watcher is stored under the concatenated key and no disposable
    is, [unwatch] after [watch] disposes exactly the disposable that
    [watch] got, gives back the channel as it was, and a second [unwatch]
    finds nothing and makes no call. *)
Theorem unwatch_undoes_watch
    (sessionId watchId : string) (uri : UriParts) (opts : WatchOptions)
    (st : Channel) (fw : WatcherId) :
  fileWatchers st !! (sessionId +:+ watchId) = Some fw ->
  fileWatcherDisposables st !! (sessionId +:+ watchId) = None ->
  let st1 := fst (call_watch sessionId watchId uri opts st) in
  call_unwatch sessionId watchId st1
    = (st, [DisposableDispose (mkDisposable fw (transformIncoming uri) opts)])
  /\ call_unwatch sessionId watchId st = (st, []).
Proof.
  intros Hw Hd st1. subst st1.
  rewrite (call_watch_registered _ _ _ _ _ _ Hw). cbn [fst].
  split; [|now apply call_unwatch_miss].
  erewrite call_unwatch_hit by (cbn; apply lookup_insert_eq). cbn.
  rewrite delete_insert_eq, delete_id by exact Hd.
  destruct st; reflexivity.
Qed.

Lemma unwatch_undoes_watch_witness :
  let st := fst (filechange_onFirstListenerAdd "6e75064c" init) in
  fileWatchers st !! ("6e75064c" +:+ "") = Some 0
  /\ call_unwatch "6e75064c" ""
       (fst (call_watch "6e75064c" "" session_uri default_opts st))
     = (st, [DisposableDispose
               (mkDisposable 0 (transformIncoming session_uri) default_opts)]).
Proof.
  intros st.
  assert (Hw : fileWatchers st !! ("6e75064c" +:+ "") = Some 0)
    by (vm_compute; reflexivity).
  split; [exact Hw|].
  refine (proj1 (unwatch_undoes_watch "6e75064c" "" session_uri default_opts
                   st 0 Hw _)).
  vm_compute; reflexivity.
Defined.

(** X4: [watch] never disposes what it replaces.  A second [watch] under
    the same key overwrites the stored disposable; the [unwatch] that
    follows disposes the second disposable only and empties the key, so the
    disposable of the first [watch] is disposed by none of the three
    calls. *)
Theorem second_watch_drops_first_disposable
    (sessionId watchId : string) (uri1 uri2 : UriParts)
    (opts1 opts2 : WatchOptions) (st : Channel) (fw : WatcherId) :
  fileWatchers st !! (sessionId +:+ watchId) = Some fw ->
  let d1 := mkDisposable fw (transformIncoming uri1) opts1 in
  let d2 := mkDisposable fw (transformIncoming uri2) opts2 in
  let st1 := fst (call_watch sessionId watchId uri1 opts1 st) in
  let st2 := fst (call_watch sessionId watchId uri2 opts2 st1) in
  let st3 := fst (call_unwatch sessionId watchId st2) in
  snd (call_watch sessionId watchId uri1 opts1 st)
    ++ snd (call_watch sessionId watchId uri2 opts2 st1)
    ++ snd (call_unwatch sessionId watchId st2)
  = [ProviderWatch fw (transformIncoming uri1) opts1;
     ProviderWatch fw (transformIncoming uri2) opts2;
     DisposableDispose d2]
  /\ fileWatcherDisposables st1 !! (sessionId +:+ watchId) = Some d1
  /\ fileWatcherDisposables st2 !! (sessionId +:+ watchId) = Some d2
  /\ fileWatcherDisposables st3 !! (sessionId +:+ watchId) = None.
Proof.
  intros Hw d1 d2 st1 st2 st3. subst st1 st2 st3.
  rewrite (call_watch_registered _ _ uri1 opts1 _ _ Hw). cbn [fst snd].
  erewrite (call_watch_registered _ _ uri2 opts2) by exact Hw. cbn [fst snd].
  erewrite call_unwatch_hit by (cbn; apply lookup_insert_eq). cbn.
  split; [reflexivity|]. split; [apply lookup_insert_eq|].
  split; [apply lookup_insert_eq | apply lookup_delete_eq].
Qed.

Lemma second_watch_drops_first_disposable_witness :
  let st := fst (filechange_onFirstListenerAdd "s1" init) in
  fileWatchers st !! ("s" +:+ "1") = Some 0
  /\ fileWatcherDisposables
       (fst (call_unwatch "s" "1"
               (fst (call_watch "s" "1" foreign_uri default_opts
                       (fst (call_watch "s" "1" session_uri default_opts st))))))
       !! ("s" +:+ "1")
     = None.
Proof.
  intros st.
  assert (Hw : fileWatchers st !! ("s" +:+ "1") = Some 0)
    by (vm_compute; reflexivity).
  split; [exact Hw|].
  exact (proj2 (proj2 (proj2
           (second_watch_drops_first_disposable "s" "1" session_uri foreign_uri
              default_opts default_opts st 0 Hw)))).
Defined.

(** X5: the two hooks of a [filechange] emitter.  The first listener
    stores a new watcher under the session id, replacing without disposing
    whatever was stored there; when the last listener goes, that watcher is
    disposed and the session id is free again.  Neither hook touches the
    disposables of [watch] calls: those stay in their map after their
    watcher is gone. *)
Theorem filechange_hooks_create_and_release
    (sessionId : string) (st : Channel) :
  let st1 := fst (filechange_onFirstListenerAdd sessionId st) in
  let st2 := fst (filechange_onLastListenerRemove sessionId st1) in
  fileWatchers st1 !! sessionId = Some (created st)
  /\ snd (filechange_onFirstListenerAdd sessionId st) = []
  /\ snd (filechange_onLastListenerRemove sessionId st1)
     = [ProviderDispose (created st)]
  /\ fileWatchers st2 !! sessionId = None
  /\ (forall other, other <> sessionId ->
        fileWatchers st2 !! other = fileWatchers st !! other)
  /\ fileWatcherDisposables st2 = fileWatcherDisposables st.
Proof.
  unfold filechange_onFirstListenerAdd, filechange_onLastListenerRemove.
  cbn [fst snd fileWatchers fileWatcherDisposables created].
  rewrite !lookup_insert_eq.
  split; [reflexivity|]. split; [reflexivity|]. split; [reflexivity|].
  split; [apply lookup_delete_eq|]. split; [|reflexivity].
  intros other Hne. rewrite lookup_delete_ne, lookup_insert_ne by congruence.
  reflexivity.
Qed.

(** X6: a [watch] whose concatenated key was never the session id of a
    [filechange] listener registers nothing, after whatever sequence of
    [watch] and [unwatch] calls and listener changes the channel has
    seen. *)
Theorem watch_needs_listener_under_its_key
    (evs : list Event) (sessionId watchId : string) (uri : UriParts)
    (opts : WatchOptions) :
  ~ In (FirstListenerAdd (sessionId +:+ watchId)) evs ->
  call_watch sessionId watchId uri opts (run evs init) = (run evs init, []).
Proof.
  intros Hnot. unfold call_watch.
  destruct (fileWatchers (run evs init) !! (sessionId +:+ watchId)) eqn:E;
    [|reflexivity].
  destruct (RemoteFileSystemChannelFacts.fileWatchers_keys_from_hook
              evs init (sessionId +:+ watchId)) as [[x Hx]|Hin].
  - rewrite E. eauto.
  - discriminate Hx.
  - contradiction.
Qed.

Lemma watch_needs_listener_under_its_key_witness :
  ~ In (FirstListenerAdd ("6e75064c" +:+ "0.44"))
       [FirstListenerAdd "6e75064c"; CallUnwatch "6e75064c" "0.44";
        FirstListenerAdd "other"]
  /\ call_watch "6e75064c" "0.44" session_uri default_opts
       (run [FirstListenerAdd "6e75064c"; CallUnwatch "6e75064c" "0.44";
             FirstListenerAdd "other"] init)
     = (run [FirstListenerAdd "6e75064c"; CallUnwatch "6e75064c" "0.44";
             FirstListenerAdd "other"] init, []).
Proof.
  assert (Hnot : ~ In (FirstListenerAdd ("6e75064c" +:+ "0.44"))
                      [FirstListenerAdd "6e75064c"; CallUnwatch "6e75064c" "0.44";
                       FirstListenerAdd "other"]).
  { cbn. intros [F|[F|[F|[]]]]; discriminate. }
  split; [exact Hnot|].
  exact (watch_needs_listener_under_its_key _ "6e75064c" "0.44" session_uri
           default_opts Hnot).
Defined.

End RemoteFileSystemChannelMore.

(* ===================================================================== *)
(** ** More on the websocket upgrade *)
(* ===================================================================== *)

Module WebsocketUpgradeMore.
Import Platform WebsocketUpgrade Broker.

Lemma append_assoc (a b c : string) : (a +:+ b) +:+ c = a +:+ (b +:+ c).
Proof.
  induction a as [|x a IH]; [reflexivity|].
  change (String x ((a +:+ b) +:+ c) = String x (a +:+ (b +:+ c))).
  now f_equal.
Qed.

(** [join] of a list with one more element. *)
Lemma join_snoc (sep x : string) (l : list string) :
  l <> [] -> join sep (l ++ [x]) = join sep l +:+ sep +:+ x.
Proof.
  induction l as [|a l IH]; [congruence|]. intros _.
  destruct l as [|b l].
  - reflexivity.
  - change (join sep ((a :: b :: l) ++ [x]))
      with (a +:+ sep +:+ join sep ((b :: l) ++ [x])).
    rewrite IH by congruence.
    change (join sep (a :: b :: l)) with (a +:+ sep +:+ join sep (b :: l)).
    now rewrite !append_assoc.
Qed.

Section More.
Context `{Externals}.

(** X7: the compression flag and the response agree.  The flag that
    [upgradeSocket] returns, and that the framed channel is constructed
    with, is [true] exactly when the client offered [permessage-deflate];
    then the response has five lines, the fifth being
    [Sec-WebSocket-Extensions]; otherwise it has the four fixed lines and
    no such header. *)
Theorem deflate_flag_matches_response
    (req : IncomingMessage) (socket : SocketId) (w : World) :
  let flag := permessageDeflate_of req in
  upgradeSocket req socket w
    = (Returned (nextId w, flag), exec (upgradeSocket req socket) w)
  /\ ws_permessageDeflate
       <$> websockets (exec (upgradeSocket req socket) w) !! nextId w
     = Some flag
  /\ (flag = true <-> is_Some (offers_of req !! "permessage-deflate"))
  /\ length (response_headers req) = (if flag then 5 else 4)
  /\ (flag = true ->
      exists value,
        response_headers req !! 4 = Some ("Sec-WebSocket-Extensions: " +:+ value))
  /\ (flag = false -> response_headers req !! 4 = None).
Proof.
  intros flag. subst flag. unfold exec.
  rewrite WebsocketUpgradeFacts.upgradeSocket_run. cbn [snd websockets].
  split; [reflexivity|]. split; [now rewrite lookup_insert_eq|].
  unfold permessageDeflate_of, response_headers.
  destruct (offers_of req !! "permessage-deflate") as [offered|] eqn:E.
  - rewrite bool_decide_eq_true_2 by eauto.
    split; [split; eauto|]. split; [reflexivity|].
    split; [eauto | discriminate].
  - rewrite bool_decide_eq_false_2 by (intros [? ?]; discriminate).
    split; [split; [discriminate | intros [? ?]; discriminate]|].
    split; [reflexivity|]. split; [discriminate | reflexivity].
Qed.

(** X8: whatever the request, the text that [upgradeSocket] writes is
    its header lines joined by CRLF and then closed by an empty line: it
    ends with CRLF CRLF. *)
Theorem response_ends_with_empty_line (req : IncomingMessage) :
  response_text req = join CRLF (response_headers req) +:+ CRLF +:+ CRLF.
Proof.
  unfold response_text. apply join_snoc.
  destruct (WebsocketUpgradeFacts.response_headers_prefix req) as [more ->].
  discriminate.
Qed.

End More.

(** X9: the replacement of [client_max_window_bits] is idempotent, and
    after it no offer has a [client_max_window_bits] whose first value is
    the valueless [true]. *)
Theorem normalize_params_settles (params : gmap string (list ParamValue)) :
  normalize_params (normalize_params params) = normalize_params params
  /\ forall rest,
       normalize_params params !! "client_max_window_bits" <> Some (PTrue :: rest).
Proof.
  assert (Hno : forall rest,
             normalize_params params !! "client_max_window_bits"
             <> Some (PTrue :: rest)).
  { intros rest. unfold normalize_params.
    destruct (params !! "client_max_window_bits") as [[|[| |] tl]|] eqn:E;
      rewrite ?lookup_insert_eq, ?E; congruence. }
  split; [|exact Hno].
  now apply WebsocketUpgradeFacts.normalize_params_valued.
Qed.

End WebsocketUpgradeMore.

(* ===================================================================== *)
(** ** More on the session broker *)
(* ===================================================================== *)

Module BrokerMore.
Import Platform WebsocketUpgrade Broker Run Invariants.

Section More.
Context `{Externals}.

(** X10: a first management connect.  When the token has no entry in the
    management table and the connection does not ask to reconnect, the
    broker creates the session, stores it under the token, fires the
    client-connected event once with the protocol of the connection, and
    answers [{"type": "ok"}] on that protocol; the extension-host table
    and the protocols are untouched. *)
Theorem fresh_management_connect_registers_session
    (request : ConnectionTypeRequest) (holder : VSCodeProtocolHolder)
    (socket : SocketId) (w : World) :
  desiredConnectionType request = Some Management ->
  managementConnections w !! reconnectionToken holder = None ->
  isReconnecting holder = false ->
  let w' := exec (handleConnectionTypeRequest request holder socket) w in
  handleConnectionTypeRequest request holder socket w = (Returned tt, w')
  /\ trace w'
     = trace w
       ++ [ClientConnected (persistentProtocol holder) (nextId w);
           SendControl (persistentProtocol holder) [("type", JString "ok")]]
  /\ managementConnections w'
     = <[reconnectionToken holder := nextId w]> (managementConnections w)
  /\ managementDetails w'
     = <[nextId w := mkManagementDetails holder false]> (managementDetails w)
  /\ nextId w' = S (nextId w)
  /\ protocols w' = protocols w
  /\ extensionHostConnections w' = extensionHostConnections w
  /\ extensionHostDetails w' = extensionHostDetails w.
Proof.
  intros Hkind Htable Hre w'.
  assert (E : handleConnectionTypeRequest request holder socket w
              = (Returned tt,
                 set_trace
                   (fun t => t ++ [ClientConnected (persistentProtocol holder)
                                     (nextId w);
                                   SendControl (persistentProtocol holder)
                                     okMessage])
                   (set_managementConnections
                      <[reconnectionToken holder := nextId w]>
                      (set_managementDetails
                         <[nextId w := mkManagementDetails holder false]>
                         (set_nextId S w))))).
  { unfold handleConnectionTypeRequest, getProtocol. rewrite Hkind. step.
    rewrite Htable, Hre. do 4 step. rewrite sendControlMessage_run.
    same_store. }
  subst w'. unfold exec. rewrite E. fields. repeat split; reflexivity.
Qed.

(** The listeners of other protocols ignore a message. *)
Lemma control_message_skips_others protocol message
    (ls : list (ProtoId * VSCodeProtocolHolder * SocketId)) w :
  Forall (fun l => fst (fst l) <> protocol) ls ->
  forEach (fun '(p, protocolHolder, socket) =>
             if (p =? protocol)%nat
             then control_listener protocolHolder socket message
             else mret tt) ls w
  = (Returned tt, w).
Proof.
  induction 1 as [|[[p holder] socket] ls Hne _ IH]; [reflexivity|].
  cbn [forEach]. cbn [fst] in Hne.
  rewrite (proj2 (Nat.eqb_neq p protocol) Hne).
  erewrite bind_run by apply ret_run. exact IH.
Qed.

Lemma forEach_app {A} (f : A -> M unit) (l1 l2 : list A) w w1 :
  forEach f l1 w = (Returned tt, w1) ->
  forEach f (l1 ++ l2) w = forEach f l2 w1.
Proof.
  revert w. induction l1 as [|x l1 IH]; intros w E; cbn [forEach app] in *.
  - rewrite ret_run in E. now inversion E.
  - unfold mbind, M_bind in *. destruct (f x w) as [[[]|msg|] w0]; try discriminate.
    now apply IH.
Qed.

(** X11: an upgrade request with one non-empty [reconnectionToken] is
    accepted.  The socket is not ended; a websocket and a protocol on it
    are created, and one listener is subscribed for the control messages
    of that protocol, with a holder that carries the token and the flags of
    the query: [reconnection] and [skipWebSocketFrames] are [true] only
    for the exact text [true].  No table changes.  If no earlier listener
    is subscribed under the number of the new protocol, an [auth] message
    on it is then answered by exactly one [{"type": "sign", "data": ""}]
    on that protocol. *)
Theorem handle_subscribes_for_single_token
    (req : IncomingMessage) (socket : SocketId) (w : World) (token : string) :
  parseQuery (default "" (url req)) !! "reconnectionToken" = Some (QString token) ->
  token <> "" ->
  let query := parseQuery (default "" (url req)) in
  let ws := nextId w in
  let p := S (nextId w) in
  let holder :=
    mkHolder ws (is_true_text (query !! "reconnection")) token
      (permessageDeflate_of req) (is_true_text (query !! "skipWebSocketFrames")) p in
  let w' := exec (handle req socket) w in
  handle req socket w = (Returned tt, w')
  /\ trace w' = trace w ++ [SocketWrite socket (response_text req)]
  /\ websockets w'
     = <[ws := mkWebSocket socket (permessageDeflate_of req) []]> (websockets w)
  /\ protocols w' = <[p := mkProtocol ws [] false]> (protocols w)
  /\ controlListeners w' = controlListeners w ++ [(p, holder, socket)]
  /\ managementConnections w' = managementConnections w
  /\ extensionHostConnections w' = extensionHostConnections w
  /\ (reconnection holder = true <-> query !! "reconnection" = Some (QString "true"))
  /\ (Forall (fun l => fst (fst l) <> p) (controlListeners w) ->
      control_message p AuthRequest w'
      = (Returned tt,
         set_trace
           (fun t => t ++ [SendControl p [("type", JString "sign");
                                          ("data", JString "")]])
           w')).
Proof.
  intros Hq Hne query ws p holder w'.
  assert (E : handle req socket w
              = (Returned tt,
                 set_controlListeners (fun l => l ++ [(p, holder, socket)])
                   (set_protocols <[p := mkProtocol ws [] false]>
                      (set_nextId S
                         (set_trace
                            (fun t => t ++ [SocketWrite socket (response_text req)])
                            (set_websockets
                               <[ws := mkWebSocket socket (permessageDeflate_of req) []]>
                               (set_nextId S w))))))).
  { unfold handle.
    erewrite bind_run by apply WebsocketUpgradeFacts.upgradeSocket_run.
    cbv beta iota. rewrite Hq.
    rewrite (proj2 (String.eqb_neq token "") Hne).
    do 2 step. rewrite modify_run. same_store. }
  subst w'. unfold exec. rewrite E. fields.
  split; [reflexivity|]. split; [reflexivity|]. split; [reflexivity|].
  split; [reflexivity|]. split; [reflexivity|]. split; [reflexivity|].
  split; [reflexivity|]. split.
  - subst holder. cbn [reconnection]. unfold is_true_text.
    destruct (query !! "reconnection") as [[s|l]|]; try (split; discriminate).
    destruct (String.eqb_spec s "true") as [->|Hs]; split; congruence.
  - intros Hold. unfold control_message. step. fields.
    erewrite forEach_app by (apply control_message_skips_others; exact Hold).
    cbn [forEach]. rewrite Nat.eqb_refl.
    cbn [control_listener]. unfold handleAuthRequest.
    erewrite bind_run by apply sendControlMessage_run. apply ret_run.
Qed.

(** X12: an extension-host session whose worker handle is not set yet.
    When the token has an entry in the extension-host table and that
    session has no [ExtensionHost], the connection is aborted with the
    reason "Extension host is not defined": the error is sent, the
    protocol disposed, its websocket drained and disposed; the session and
    the table stay as they are and no ok is sent. *)
Theorem extension_host_not_defined_aborts
    (request : ConnectionTypeRequest) (holder : VSCodeProtocolHolder)
    (socket : SocketId) (w : World) (d : DetailsId)
    (details : ExtensionHostReconnectionDetails) (st : PersistentProtocol) :
  desiredConnectionType request = Some ExtensionHost ->
  extensionHostConnections w !! reconnectionToken holder = Some d ->
  extensionHostDetails w !! d = Some details ->
  ed_extensionHost details = None ->
  protocols w !! persistentProtocol holder = Some st ->
  let w' := exec (handleConnectionTypeRequest request holder socket) w in
  handleConnectionTypeRequest request holder socket w = (Returned tt, w')
  /\ trace w'
     = trace w
       ++ [SendControl (persistentProtocol holder)
             [("reason", JString "Extension host is not defined");
              ("type", JString "error")];
           ProtocolDispose (persistentProtocol holder);
           WsDrain (pp_socket st); WsDispose (pp_socket st)]
  /\ extensionHostConnections w' = extensionHostConnections w
  /\ extensionHostDetails w' = extensionHostDetails w
  /\ hosts w' = hosts w /\ processes w' = processes w /\ nextId w' = nextId w.
Proof.
  intros Hkind Htable Hd Hnone Hp w'.
  assert (E : handleConnectionTypeRequest request holder socket w
              = abortWebSocketConnection holder "Extension host is not defined" w).
  { unfold handleConnectionTypeRequest. rewrite Hkind. step. rewrite Htable.
    step. now rewrite Hnone. }
  subst w'. unfold exec. rewrite E.
  rewrite (BrokerFacts.abortWebSocketConnection_run _ _ _ _ Hp). fields.
  repeat split; reflexivity.
Qed.

(** X13: a reconnection to an extension host that has no worker process.
    [ExtensionHost.reconnect] throws "Extension host process is not
    defined" before it does anything; the handler returns that promise
    without awaiting it, so its [catch] is not reached: the request is
    rejected with that message, nothing is sent on the protocol (no error,
    no ok), nothing is disposed and the store is as before; the listener of
    control messages drops the rejection. *)
Theorem reconnect_without_process_rejects_silently
    (request : ConnectionTypeRequest) (holder : VSCodeProtocolHolder)
    (socket : SocketId) (w : World) (d : DetailsId)
    (details : ExtensionHostReconnectionDetails) (h : HostId)
    (host : ExtensionHostState) :
  desiredConnectionType request = Some ExtensionHost ->
  extensionHostConnections w !! reconnectionToken holder = Some d ->
  extensionHostDetails w !! d = Some details ->
  ed_extensionHost details = Some h ->
  hosts w !! h = Some host ->
  extensionHostProcess host = None ->
  handleConnectionTypeRequest request holder socket w
    = (Thrown "Extension host process is not defined", w)
  /\ control_listener holder socket (ConnectionTypeMessage request) w
     = (Returned tt, w).
Proof.
  intros Hkind Htable Hd Hh Hhost Hnone.
  assert (E : handleConnectionTypeRequest request holder socket w
              = (Thrown "Extension host process is not defined", w)).
  { unfold handleConnectionTypeRequest. rewrite Hkind. step. rewrite Htable.
    step. rewrite Hh. unfold ExtensionHost_reconnect. step. now rewrite Hnone. }
  split; [exact E|].
  cbn [control_listener]. unfold unawaited. now rewrite E.
Qed.

(** The calls of [ExtensionHost.dispose]. *)
Lemma ExtensionHost_dispose_run h w host :
  hosts w !! h = Some host ->
  ExtensionHost_dispose h w
  = (Returned tt,
     if eh_disposed host then w
     else
       set_trace
         (fun t => t ++ SocketEnd (eh_socket host) None
                        :: match extensionHostProcess host with
                           | Some process => [ProcessKill process]
                           | None => []
                           end)
         (set_hosts
            <[h := mkExtensionHost (eh_uriTransformerPath host) (eh_socket host)
                     (eh_protocolHolder host) true (extensionHostProcess host)]>
            w)).
Proof.
  intros Hh. unfold ExtensionHost_dispose. step.
  destruct (eh_disposed host); [apply ret_run|].
  do 2 step. destruct (extensionHostProcess host).
  - rewrite emit_run. same_store.
  - rewrite ret_run. same_store.
Qed.

(** X14: [ExtensionHost.dispose] is idempotent.  The first call on a
    host that is not disposed ends its socket and, if there is a worker,
    kills it, and marks the host disposed; a call on a disposed host does
    nothing, so disposing twice is disposing once. *)
Theorem ExtensionHost_dispose_is_idempotent
    (h : HostId) (w : World) (host : ExtensionHostState) :
  hosts w !! h = Some host ->
  let w1 := exec (ExtensionHost_dispose h) w in
  ExtensionHost_dispose h w = (Returned tt, w1)
  /\ trace w1
     = trace w
       ++ (if eh_disposed host then []
           else SocketEnd (eh_socket host) None
                :: match extensionHostProcess host with
                   | Some process => [ProcessKill process]
                   | None => []
                   end)
  /\ (exists host', hosts w1 !! h = Some host'
                    /\ eh_disposed host' = true
                    /\ extensionHostProcess host' = extensionHostProcess host)
  /\ ExtensionHost_dispose h w1 = (Returned tt, w1).
Proof.
  intros Hh w1. subst w1. unfold exec.
  rewrite (ExtensionHost_dispose_run h w host Hh). cbn [snd].
  destruct (eh_disposed host) eqn:Hd.
  - split; [reflexivity|]. split; [now rewrite app_nil_r|].
    split; [exists host; auto|].
    rewrite (ExtensionHost_dispose_run h w host Hh). now rewrite Hd.
  - split; [reflexivity|]. split; [reflexivity|]. fields.
    split; [eexists; split; [apply lookup_insert_eq|]; cbn; auto|].
    erewrite ExtensionHost_dispose_run by (fields; apply lookup_insert_eq).
    reflexivity.
Qed.

(** X15: the exit of the worker disposes its supervisor once.  With the
    listeners that [start] attaches, the [exit] of the worker ends the
    socket of the extension host and calls [kill] on the process; an
    [error] event after it does nothing more.  Neither removes the session
    from the extension-host table: the token stays bound to the session of
    the disposed host. *)
Theorem worker_exit_disposes_supervisor_once
    (pid : Pid) (w : World) (c : ChildProcess) (h : HostId)
    (host : ExtensionHostState) :
  processes w !! pid = Some c ->
  exitListeners c = [h] ->
  errorListeners c = [h] ->
  hosts w !! h = Some host ->
  eh_disposed host = false ->
  extensionHostProcess host = Some pid ->
  let w1 := exec (worker_exit pid) w in
  worker_exit pid w = (Returned tt, w1)
  /\ trace w1 = trace w ++ [SocketEnd (eh_socket host) None; ProcessKill pid]
  /\ worker_error pid w1 = (Returned tt, w1)
  /\ extensionHostConnections w1 = extensionHostConnections w
  /\ extensionHostDetails w1 = extensionHostDetails w.
Proof.
  intros Hc Hex Her Hh Hd Hp w1.
  assert (E : worker_exit pid w
              = (Returned tt,
                 set_trace
                   (fun t => t ++ [SocketEnd (eh_socket host) None; ProcessKill pid])
                   (set_hosts
                      <[h := mkExtensionHost (eh_uriTransformerPath host)
                               (eh_socket host) (eh_protocolHolder host) true
                               (Some pid)]> w))).
  { unfold worker_exit. step. rewrite Hex. cbn [forEach].
    erewrite bind_run by (apply ExtensionHost_dispose_run; exact Hh).
    rewrite Hd, Hp. apply ret_run. }
  subst w1. unfold exec. rewrite E. fields.
  split; [reflexivity|]. split; [reflexivity|].
  split; [|split; reflexivity].
  unfold worker_error. step. rewrite Her. cbn [forEach].
  erewrite bind_run
    by (apply ExtensionHost_dispose_run; fields; apply lookup_insert_eq).
  apply ret_run.
Qed.

(** The calls of [ManagementReconnectionDetails.dispose] on a session
    that is disposed already: none. *)
Lemma ManagementReconnectionDetails_dispose_again this w self :
  managementDetails w !! this = Some self ->
  md_disposed self = true ->
  ManagementReconnectionDetails_dispose this w = (Returned tt, w).
Proof.
  intros Hd Ht. unfold ManagementReconnectionDetails_dispose. step.
  rewrite Ht. apply ret_run.
Qed.

(** X16: [ManagementReconnectionDetails.dispose] is idempotent.  On a
    session that is not disposed it sends the disconnect, disposes the
    protocol and ends the socket; on a disposed one it does nothing, so a
    second call makes no call and changes nothing. *)
Theorem management_dispose_is_idempotent
    (d : DetailsId) (w : World) (self : ManagementReconnectionDetails)
    (st : PersistentProtocol) :
  managementDetails w !! d = Some self ->
  protocols w !! persistentProtocol (md_protocolHolder self) = Some st ->
  let w1 := exec (ManagementReconnectionDetails_dispose d) w in
  ManagementReconnectionDetails_dispose d w = (Returned tt, w1)
  /\ trace w1
     = trace w
       ++ (if md_disposed self then []
           else [SendDisconnect (persistentProtocol (md_protocolHolder self));
                 ProtocolDispose (persistentProtocol (md_protocolHolder self));
                 WsEnd (pp_socket st)])
  /\ ManagementReconnectionDetails_dispose d w1 = (Returned tt, w1).
Proof.
  intros Hd Hp w1. subst w1. unfold exec.
  destruct (md_disposed self) eqn:Hf.
  - rewrite (ManagementReconnectionDetails_dispose_again d w self Hd Hf).
    cbn [snd]. rewrite app_nil_r.
    split; [reflexivity|]. split; [reflexivity|].
    apply (ManagementReconnectionDetails_dispose_again d w self Hd Hf).
  - rewrite (BrokerFacts.ManagementReconnectionDetails_dispose_run d w self st
               Hd Hf Hp).
    fields. split; [reflexivity|]. split; [reflexivity|].
    eapply ManagementReconnectionDetails_dispose_again.
    + fields. apply lookup_insert_eq.
    + reflexivity.
Qed.

(** Firing [onDidClientDisconnect]: every listener deletes its token. *)
Lemma fire_onDidClientDisconnect_run (tokens : list string) w :
  forEach (fun token => modify (set_extensionHostConnections (delete token)))
          tokens w
  = (Returned tt,
     set_extensionHostConnections
       (fun m => foldl (fun m token => delete token m) m tokens) w).
Proof.
  revert w. induction tokens as [|t ts IH]; intros w; cbn [forEach foldl].
  - rewrite ret_run. same_store.
  - erewrite bind_run by apply modify_run. rewrite IH. same_store.
Qed.

Lemma lookup_foldl_delete_none {V} (tokens : list string) (m : gmap string V) t :
  m !! t = None -> foldl (fun m token => delete token m) m tokens !! t = None.
Proof.
  revert m. induction tokens as [|x ts IH]; intros m Hm; [exact Hm|].
  cbn [foldl]. apply IH. rewrite lookup_delete. case_decide; [reflexivity|exact Hm].
Qed.

Lemma lookup_foldl_delete_in {V} (tokens : list string) (m : gmap string V) t :
  In t tokens -> foldl (fun m token => delete token m) m tokens !! t = None.
Proof.
  revert m. induction tokens as [|x ts IH]; intros m Hin; [destruct Hin|].
  cbn [foldl]. destruct (String.string_dec x t) as [->|Hne].
  - apply lookup_foldl_delete_none, lookup_delete_eq.
  - destruct Hin as [Heq|Hin]; [contradiction|]. now apply IH.
Qed.

Lemma lookup_foldl_delete_out {V} (tokens : list string) (m : gmap string V) t :
  ~ In t tokens -> foldl (fun m token => delete token m) m tokens !! t = m !! t.
Proof.
  revert m. induction tokens as [|x ts IH]; intros m Hnin; [reflexivity|].
  cbn [foldl]. cbn in Hnin. rewrite IH by tauto.
  apply lookup_delete_ne. intros ->. tauto.
Qed.

(** X17: the disposal of an extension-host session.  It disposes the
    [ExtensionHost] of the session, clears the handle, and fires
    [onDidClientDisconnect]: every token for which a listener was
    registered loses its entry in the extension-host table, the other
    entries stay.  The [disposed] flag of the session is not set by it. *)
Theorem extension_host_session_dispose_removes_entry
    (d : DetailsId) (w : World) (details : ExtensionHostReconnectionDetails)
    (h : HostId) (host : ExtensionHostState) :
  extensionHostDetails w !! d = Some details ->
  ed_disposed details = false ->
  ed_extensionHost details = Some h ->
  hosts w !! h = Some host ->
  let w1 := exec (ExtensionHostReconnectionDetails_dispose d) w in
  ExtensionHostReconnectionDetails_dispose d w = (Returned tt, w1)
  /\ (forall token, In token (ed_onDidClientDisconnect details) ->
        extensionHostConnections w1 !! token = None)
  /\ (forall token, ~ In token (ed_onDidClientDisconnect details) ->
        extensionHostConnections w1 !! token = extensionHostConnections w !! token)
  /\ (exists details', extensionHostDetails w1 !! d = Some details'
                       /\ ed_extensionHost details' = None
                       /\ ed_disposed details' = false)
  /\ (exists host', hosts w1 !! h = Some host' /\ eh_disposed host' = true)
  /\ trace w1 = trace (exec (ExtensionHost_dispose h) w).
Proof.
  intros Hd Hf Hh Hhost w1.
  pose proof (ExtensionHost_dispose_run h w host Hhost) as Hrun.
  assert (E : ExtensionHostReconnectionDetails_dispose d w
              = (Returned tt,
                 set_extensionHostConnections
                   (fun m => foldl (fun m token => delete token m) m
                               (ed_onDidClientDisconnect details))
                   (set_extensionHostDetails
                      (alter (fun e =>
                         mkExtensionHostDetails (ed_protocolHolder e)
                           (remoteStartParams e) None (ed_disposed e)
                           (ed_onDidClientDisconnect e)) d)
                      (exec (ExtensionHost_dispose h) w)))).
  { unfold ExtensionHostReconnectionDetails_dispose, exec. rewrite Hrun.
    cbn [snd]. step. rewrite Hf, Hh.
    erewrite bind_run;
      [ apply fire_onDidClientDisconnect_run
      | erewrite bind_run by exact Hrun; unfold setExtensionHost;
        apply modify_run ]. }
  subst w1. unfold exec at 1 2 3 4 5 6. rewrite E. fields.
  split; [reflexivity|].
  split; [intros token Hin; now apply lookup_foldl_delete_in|].
  split; [intros token Hnin; rewrite lookup_foldl_delete_out by exact Hnin|].
  - unfold exec. rewrite Hrun. destruct (eh_disposed host); reflexivity.
  - split.
    + eexists. split.
      * rewrite lookup_alter_eq. unfold exec. rewrite Hrun.
        destruct (eh_disposed host); fields; rewrite Hd; reflexivity.
      * cbn. auto.
    + split; [|reflexivity].
      unfold exec. rewrite Hrun. destruct (eh_disposed host) eqn:Hdis; fields.
      * exists host. auto.
      * eexists. split; [apply lookup_insert_eq | reflexivity].
Qed.

(** The store after [ExtensionHost.start], field by field. *)
Lemma ExtensionHost_start_exact this startParams w self st :
  hosts w !! this = Some self ->
  protocols w !! persistentProtocol (eh_protocolHolder self) = Some st ->
  ExtensionHost_start this startParams w
  = (Returned tt,
     set_processes
       <[nextId w := mkChildProcess
           [onConsoleMessageListener this;
            onMessageReadyListener this (base64 (pp_incoming st))]
           [this] [this]]>
       (set_hosts
          (alter (fun e =>
             mkExtensionHost (eh_uriTransformerPath e) (eh_socket e)
               (eh_protocolHolder e) (eh_disposed e) (Some (nextId w))) this)
          (set_nextId S
             (set_trace
                (fun t => t ++ [SendControl
                                  (persistentProtocol (eh_protocolHolder self))
                                  (connect_message (port startParams));
                                ReadEntireBuffer
                                  (persistentProtocol (eh_protocolHolder self));
                                ProtocolDispose
                                  (persistentProtocol (eh_protocolHolder self));
                                SocketPause (eh_socket self);
                                Fork (nextId w) "bootstrap-fork"
                                  ["--type=extensionHost";
                                   "--uriTransformerPath="
                                     +:+ eh_uriTransformerPath self]
                                  (execArgv_of startParams) isWindows true])
                (set_protocols
                   (fun m =>
                      <[persistentProtocol (eh_protocolHolder self)
                          := mkProtocol (pp_socket st) [] true]>
                        (<[persistentProtocol (eh_protocolHolder self)
                             := mkProtocol (pp_socket st) [] (pp_disposed st)]> m))
                   w))))).
Proof.
  intros Hh Hp. unfold ExtensionHost_start. step.
  assert (Hconnect :
    ExtensionHost_connect this (eh_protocolHolder self) (port startParams) w
    = (Returned (base64 (pp_incoming st)),
       set_trace
         (fun t => t ++ [SendControl (persistentProtocol (eh_protocolHolder self))
                           (connect_message (port startParams));
                         ReadEntireBuffer
                           (persistentProtocol (eh_protocolHolder self));
                         ProtocolDispose
                           (persistentProtocol (eh_protocolHolder self));
                         SocketPause (eh_socket self)])
         (set_protocols
            (fun m =>
               <[persistentProtocol (eh_protocolHolder self)
                   := mkProtocol (pp_socket st) [] true]>
                 (<[persistentProtocol (eh_protocolHolder self)
                      := mkProtocol (pp_socket st) [] (pp_disposed st)]> m))
            w))).
  { unfold ExtensionHost_connect, getProtocol.
    assert (Hsend :
      (match truthy_port (port startParams) with
       | Some n => sendControlMessage (eh_protocolHolder self)
                     [("debugPort", JNumber n)]
       | None => sendControlMessage (eh_protocolHolder self) []
       end) w
      = (Returned tt,
         set_trace
           (fun t => t ++ [SendControl
                             (persistentProtocol (eh_protocolHolder self))
                             (connect_message (port startParams))]) w)).
    { unfold connect_message.
      destruct (truthy_port (port startParams)); reflexivity. }
    erewrite bind_run by exact Hsend. cbv beta.
    do 4 step. rewrite ret_run. same_store. }
  erewrite bind_run by exact Hconnect. cbv beta.
  do 3 step. rewrite modify_run. same_store.
Qed.

(** The result of [validateDebugPort]: the store is only read. *)
Lemma validateDebugPort_run params w :
  validateDebugPort params w
  = (Returned
       (match port params with
        | Some 0%Z =>
            mkStartParams (language params) (Some (findFreePort (nextId w)))
                          (break params)
        | _ => params
        end),
     w).
Proof.
  unfold validateDebugPort.
  destruct (port params) as [[| |]|]; apply ret_run.
Qed.

(** X18: a first extension-host connect.  When the token has no entry
    in the extension-host table and the connection does not ask to
    reconnect, the broker registers a session under the token with a
    listener that removes it, replaces a requested debug port [0] by the
    free port found, instantiates the extension host on the socket, stores
    it in the session, starts it and answers ok.  The port that [start]
    uses for the [debugPort] control message and for the [--inspect]
    argument of the fork is the validated port, which is also the port
    kept in the session.  One process is forked, with the console and the
    ready listener attached. *)
Theorem fresh_extension_host_connect_starts_worker
    (request : ConnectionTypeRequest) (holder : VSCodeProtocolHolder)
    (socket : SocketId) (w : World) (st : PersistentProtocol) :
  desiredConnectionType request = Some ExtensionHost ->
  extensionHostConnections w !! reconnectionToken holder = None ->
  isReconnecting holder = false ->
  protocols w !! persistentProtocol holder = Some st ->
  let d := nextId w in
  let h := S (nextId w) in
  let pid := S (S (nextId w)) in
  let requested := startParams_of request in
  let validated :=
    match port requested with
    | Some 0%Z =>
        mkStartParams (language requested) (Some (findFreePort (S (nextId w))))
                      (break requested)
    | _ => requested
    end in
  let w' := exec (handleConnectionTypeRequest request holder socket) w in
  handleConnectionTypeRequest request holder socket w = (Returned tt, w')
  /\ trace w'
     = trace w
       ++ [SendControl (persistentProtocol holder) (connect_message (port validated));
           ReadEntireBuffer (persistentProtocol holder);
           ProtocolDispose (persistentProtocol holder);
           SocketPause socket;
           Fork pid "bootstrap-fork"
             ["--type=extensionHost";
              "--uriTransformerPath=" +:+ uriTransformerPath]
             (execArgv_of validated) isWindows true;
           SendControl (persistentProtocol holder) [("type", JString "ok")]]
  /\ extensionHostConnections w'
     = <[reconnectionToken holder := d]> (extensionHostConnections w)
  /\ extensionHostDetails w' !! d
     = Some (mkExtensionHostDetails holder validated (Some h) false
               [reconnectionToken holder])
  /\ hosts w' !! h
     = Some (mkExtensionHost uriTransformerPath socket holder false (Some pid))
  /\ processes w' !! pid
     = Some (mkChildProcess
               [onConsoleMessageListener h;
                onMessageReadyListener h (base64 (pp_incoming st))]
               [h] [h])
  /\ protocols w' !! persistentProtocol holder
     = Some (mkProtocol (pp_socket st) [] true)
  /\ managementConnections w' = managementConnections w.
Proof.
  intros Hkind Htable Hre Hp d h pid requested validated w'.
  assert (E : exists W,
             handleConnectionTypeRequest request holder socket w = (Returned tt, W)
             /\ W = w').
  { subst w'. unfold exec. unfold handleConnectionTypeRequest, getProtocol.
    rewrite Hkind. step. rewrite Htable, Hre.
    do 4 step.
    erewrite bind_run by apply validateDebugPort_run. cbv beta. fields.
    do 3 step. unfold setExtensionHost. step.
    erewrite bind_run
      by (eapply ExtensionHost_start_exact;
          [ fields; apply lookup_insert_eq
          | fields; records; exact Hp ]).
    cbv beta. rewrite sendControlMessage_run. cbn [snd].
    eexists. split; reflexivity. }
  destruct E as (W & Erun & EW). rewrite Erun. split; [now rewrite EW|].
  clear Erun EW W. subst w'. unfold exec.
  unfold handleConnectionTypeRequest, getProtocol.
  rewrite Hkind. step. rewrite Htable, Hre.
  do 4 step.
  erewrite bind_run by apply validateDebugPort_run. cbv beta. fields.
  do 3 step. unfold setExtensionHost. step.
  erewrite bind_run
    by (eapply ExtensionHost_start_exact;
        [ fields; apply lookup_insert_eq
        | fields; records; exact Hp ]).
  cbv beta. rewrite sendControlMessage_run. fields. records.
  fold requested. fold validated.
  split; [rewrite <- app_assoc; reflexivity|].
  split; [reflexivity|].
  split.
  { rewrite !lookup_alter_eq, lookup_insert_eq. reflexivity. }
  split.
  { rewrite lookup_alter_eq, lookup_insert_eq. reflexivity. }
  split; [apply lookup_insert_eq|].
  split; [apply lookup_insert_eq | reflexivity].
Qed.

(** *** What the handlers keep *)

Lemma preserves_ret I {A} (a : A) : preserves I (mret a : M A).
Proof. intros w Hw. exact Hw. Qed.

Lemma preserves_get I : preserves I get.
Proof. intros w Hw. exact Hw. Qed.

Lemma preserves_throw I {A} msg : preserves I (throw (A := A) msg).
Proof. intros w Hw. exact Hw. Qed.

Lemma preserves_deref I {A} (o : option A) : preserves I (deref o).
Proof. intros w Hw. destruct o; exact Hw. Qed.

Lemma preserves_bind I {A B} (m : M A) (f : A -> M B) :
  preserves I m -> (forall a, preserves I (f a)) -> preserves I (m ≫= f).
Proof.
  intros Hm Hf w Hw. unfold mbind, M_bind. specialize (Hm w Hw).
  destruct (m w) as [[a|msg|] w1]; cbn in *; auto. now apply Hf.
Qed.

Lemma preserves_modify (I : World -> Prop) f :
  (forall w, I w -> I (f w)) -> preserves I (modify f).
Proof. intros Hf w Hw. now apply Hf. Qed.

Lemma preserves_fresh (I : World -> Prop) :
  (forall w, I w -> I (set_nextId S w)) -> preserves I fresh.
Proof. intros Hf w Hw. now apply Hf. Qed.

(** A computation that starts by reading the store may use what the
    property says of the store it reads. *)
Lemma preserves_read (I : World -> Prop) {A} (k : World -> M A) :
  (forall w, I w -> I (snd (k w w))) -> preserves I (get ≫= k).
Proof. intros Hk w Hw. now apply Hk. Qed.

Lemma preserves_forEach I {A} (f : A -> M unit) (l : list A) :
  (forall a, preserves I (f a)) -> preserves I (forEach f l).
Proof.
  intros Hf. induction l as [|x l IH]; cbn [forEach].
  - apply preserves_ret.
  - apply preserves_bind; auto.
Qed.

Lemma preserves_unawaited I (m : M unit) :
  preserves I m -> preserves I (unawaited m).
Proof.
  intros Hm w Hw. unfold unawaited. specialize (Hm w Hw).
  destruct (m w) as [[[]|msg|] w1]; exact Hm.
Qed.

Lemma from_store (I : World -> Prop) {A} (m : M A) w :
  preserves I m -> I w -> I (snd (m w)).
Proof. intros Hm. apply Hm. Qed.

(** Breaks a computation into the operations of the store; [solve] shows
    that one modification keeps the property. *)
Ltac keep_steps solve :=
  repeat first
    [ apply preserves_ret | apply preserves_get | apply preserves_deref
    | apply preserves_throw
    | apply preserves_fresh; intros ? ?; cbv beta in *; fields; solve
    | apply preserves_modify; intros ? ?; cbv beta in *; fields; solve
    | apply preserves_bind; [|intros ?]
    | apply preserves_forEach; intros ?
    | apply preserves_unawaited
    | match goal with
      | |- preserves _ (match ?x with _ => _ end) => destruct x
      | |- preserves _ (let '(_, _) := ?x in _) => destruct x
      end ].

(** The operations that the handlers are made of. *)
Ltac operations :=
  unfold handle, upgradeSocket, control_message, control_listener,
    handleAuthRequest, worker_message, worker_exit, worker_error,
    call_message_listener, ExtensionHostReconnectionDetails_dispose,
    ManagementReconnectionDetails_dispose, ExtensionHost_dispose,
    abortWebSocketConnection,
    ManagementReconnectionDetails_reconnect, ExtensionHost_reconnect,
    ExtensionHost_start, ExtensionHost_connect, sendExthostIpcSocket,
    validateDebugPort, sendControlMessage, setExtensionHost, getSocket,
    sendControl, sendDisconnect, readEntireBuffer, beginAcceptReconnection,
    endAcceptReconnection, protocol_dispose, theProtocol, theWebSocket,
    theHost, theProcess, theManagementDetails, theExtensionHostDetails, emit.

(** A connection request never rebinds a token of the management
    table: it binds a token only when the token is free. *)
Lemma handleConnectionTypeRequest_keeps_management_binding
    token d request holder socket :
  preserves (fun w => managementConnections w !! token = Some d)
            (handleConnectionTypeRequest request holder socket).
Proof.
  set (I := fun w => managementConnections w !! token = Some d).
  unfold handleConnectionTypeRequest.
  destruct (desiredConnectionType request) as [[| |]|].
  - apply preserves_read. intros w Hw.
    destruct (managementConnections w !! reconnectionToken holder) eqn:E.
    + apply (from_store I); [|exact Hw]. subst I. operations.
      keep_steps assumption.
    + assert (token <> reconnectionToken holder)
        by (unfold I in Hw; congruence).
      apply (from_store I); [|exact Hw]. subst I. operations.
      keep_steps ltac:(first [ assumption
                             | rewrite lookup_insert_ne by congruence;
                               assumption ]).
  - subst I. operations. keep_steps assumption.
  - subst I. operations. keep_steps assumption.
  - subst I. operations. keep_steps assumption.
Qed.

Lemma react_keeps_management_binding token d ev :
  preserves (fun w => managementConnections w !! token = Some d) (react ev).
Proof.
  destruct ev; cbn [react].
  - operations. keep_steps assumption.
  - unfold control_message. apply preserves_bind; [apply preserves_get|].
    intros w0. apply preserves_forEach. intros [[p holder] socket].
    destruct (p =? protocol)%nat; [|apply preserves_ret].
    destruct message; cbn [control_listener].
    + operations. keep_steps assumption.
    + apply preserves_unawaited,
        handleConnectionTypeRequest_keeps_management_binding.
    + apply preserves_ret.
  - operations. keep_steps assumption.
  - operations. keep_steps assumption.
  - operations. keep_steps assumption.
  - operations. keep_steps assumption.
  - operations. keep_steps assumption.
  - operations. keep_steps assumption.
Qed.

(** X19: a management session is never forgotten.  Once a token is
    bound in the management table, it stays bound to the same session
    object whatever happens afterwards: upgrades, control messages,
    messages, exits and errors of workers, and the disposal of any session
    or extension host, that of its own session included. *)
Theorem management_binding_is_permanent
    (evs : list GatewayEvent) (w : World) (token : string) (d : DetailsId) :
  managementConnections w !! token = Some d ->
  managementConnections (after evs w) !! token = Some d.
Proof.
  revert w. induction evs as [|ev evs IH]; intros w Hw; cbn [after].
  - exact Hw.
  - apply IH. exact (react_keeps_management_binding token d ev w Hw).
Qed.

(** A connection request never rebinds a token of the extension-host
    table either. *)
Lemma handleConnectionTypeRequest_keeps_extension_host_binding
    token d request holder socket :
  preserves (fun w => extensionHostConnections w !! token = Some d)
            (handleConnectionTypeRequest request holder socket).
Proof.
  set (I := fun w => extensionHostConnections w !! token = Some d).
  unfold handleConnectionTypeRequest.
  destruct (desiredConnectionType request) as [[| |]|].
  - subst I. operations. keep_steps assumption.
  - apply preserves_read. intros w Hw.
    destruct (extensionHostConnections w !! reconnectionToken holder) eqn:E.
    + apply (from_store I); [|exact Hw]. subst I. operations.
      keep_steps assumption.
    + assert (token <> reconnectionToken holder)
        by (unfold I in Hw; congruence).
      apply (from_store I); [|exact Hw]. subst I. operations.
      keep_steps ltac:(first [ assumption
                             | rewrite lookup_insert_ne by congruence;
                               assumption ]).
  - subst I. operations. keep_steps assumption.
  - subst I. operations. keep_steps assumption.
Qed.

Lemma react_keeps_extension_host_binding token d ev :
  (forall session, ev <> DisposeExtensionHostSession session) ->
  preserves (fun w => extensionHostConnections w !! token = Some d) (react ev).
Proof.
  intros Hev. destruct ev; cbn [react].
  - operations. keep_steps assumption.
  - unfold control_message. apply preserves_bind; [apply preserves_get|].
    intros w0. apply preserves_forEach. intros [[p holder] socket].
    destruct (p =? protocol)%nat; [|apply preserves_ret].
    destruct message; cbn [control_listener].
    + operations. keep_steps assumption.
    + apply preserves_unawaited,
        handleConnectionTypeRequest_keeps_extension_host_binding.
    + apply preserves_ret.
  - operations. keep_steps assumption.
  - operations. keep_steps assumption.
  - operations. keep_steps assumption.
  - operations. keep_steps assumption.
  - now contradiction (Hev details).
  - operations. keep_steps assumption.
Qed.

(** X20: only the disposal of a session unbinds an extension-host
    token.  Through any sequence of events without a call of
    [ExtensionHostReconnectionDetails.dispose], a token bound in the
    extension-host table stays bound to the same session: the exit or an
    error of the worker and the disposal of the [ExtensionHost] leave the
    entry where it is. *)
Theorem extension_host_binding_outlives_worker
    (evs : list GatewayEvent) (w : World) (token : string) (d : DetailsId) :
  Forall (fun ev => forall session, ev <> DisposeExtensionHostSession session)
         evs ->
  extensionHostConnections w !! token = Some d ->
  extensionHostConnections (after evs w) !! token = Some d.
Proof.
  intros Hevs. revert w.
  induction Hevs as [|ev evs Hev _ IH]; intros w Hw; cbn [after].
  - exact Hw.
  - apply IH. exact (react_keeps_extension_host_binding token d ev Hev w Hw).
Qed.

(** X21: a management connection keeps off the extension hosts.  A
    [connectionType] request for [Management] changes neither the
    extension-host table, nor a session of it, nor an extension host, nor
    a worker process, whatever the store is and however the request
    ends. *)
Theorem management_request_leaves_extension_hosts_alone
    (request : ConnectionTypeRequest) (holder : VSCodeProtocolHolder)
    (socket : SocketId) (w : World) :
  desiredConnectionType request = Some Management ->
  let w' := exec (handleConnectionTypeRequest request holder socket) w in
  extensionHostConnections w' = extensionHostConnections w
  /\ extensionHostDetails w' = extensionHostDetails w
  /\ hosts w' = hosts w
  /\ processes w' = processes w.
Proof.
  intros Hkind w'. subst w'. unfold exec.
  apply (from_store
           (fun w0 => extensionHostConnections w0 = extensionHostConnections w
                      /\ extensionHostDetails w0 = extensionHostDetails w
                      /\ hosts w0 = hosts w
                      /\ processes w0 = processes w));
    [|repeat split; reflexivity].
  unfold handleConnectionTypeRequest. rewrite Hkind. operations.
  keep_steps assumption.
Qed.

(** X22: an extension-host connection keeps off the management
    sessions.  A [connectionType] request for [ExtensionHost] changes
    neither the management table nor a management session, whatever the
    store is and however the request ends. *)
Theorem extension_host_request_leaves_management_alone
    (request : ConnectionTypeRequest) (holder : VSCodeProtocolHolder)
    (socket : SocketId) (w : World) :
  desiredConnectionType request = Some ExtensionHost ->
  let w' := exec (handleConnectionTypeRequest request holder socket) w in
  managementConnections w' = managementConnections w
  /\ managementDetails w' = managementDetails w.
Proof.
  intros Hkind w'. subst w'. unfold exec.
  apply (from_store
           (fun w0 => managementConnections w0 = managementConnections w
                      /\ managementDetails w0 = managementDetails w));
    [|split; reflexivity].
  unfold handleConnectionTypeRequest. rewrite Hkind. operations.
  keep_steps assumption.
Qed.

(** X23: a reconnection after the management session was disposed.
    [dispose] leaves the token in the table, so a later management
    connect with that token is taken for a reconnection: it is answered
    ok twice on the arriving protocol, and the socket of the arriving
    protocol is handed by [beginAcceptReconnection] to the stored
    protocol, which is disposed and stays so, as does the session. *)
Theorem reconnect_after_management_dispose_is_accepted
    (request : ConnectionTypeRequest) (holder : VSCodeProtocolHolder)
    (socket : SocketId) (w : World) (details : DetailsId)
    (self : ManagementReconnectionDetails) (old new : PersistentProtocol) :
  desiredConnectionType request = Some Management ->
  managementConnections w !! reconnectionToken holder = Some details ->
  managementDetails w !! details = Some self ->
  md_disposed self = false ->
  protocols w !! persistentProtocol (md_protocolHolder self) = Some old ->
  protocols w !! persistentProtocol holder = Some new ->
  persistentProtocol (md_protocolHolder self) <> persistentProtocol holder ->
  let stored := persistentProtocol (md_protocolHolder self) in
  let arriving := persistentProtocol holder in
  let w1 := exec (ManagementReconnectionDetails_dispose details) w in
  let w2 := exec (handleConnectionTypeRequest request holder socket) w1 in
  handleConnectionTypeRequest request holder socket w1 = (Returned tt, w2)
  /\ trace w2
     = trace w1
       ++ [SendControl arriving [("type", JString "ok")];
           ReadEntireBuffer arriving;
           BeginAcceptReconnection stored (pp_socket new) (pp_incoming new);
           EndAcceptReconnection stored;
           ProtocolDispose arriving;
           SendControl arriving [("type", JString "ok")]]
  /\ protocols w2 !! stored
     = Some (mkProtocol (pp_socket new) (pp_incoming old ++ pp_incoming new) true)
  /\ managementDetails w2 !! details
     = Some (mkManagementDetails (md_protocolHolder self) true)
  /\ managementConnections w2 !! reconnectionToken holder = Some details.
Proof.
  intros Hkind Htable Hd Hf Hold Hnew Hne stored arriving w1 w2.
  subst w2 w1. unfold exec.
  rewrite (BrokerFacts.ManagementReconnectionDetails_dispose_run details w self
             old Hd Hf Hold).
  cbn [snd].
  match goal with
  | |- context [handleConnectionTypeRequest _ _ _ ?W] => set (w1 := W)
  end.
  assert (Hd1 : managementDetails w1 !! details
                = Some (mkManagementDetails (md_protocolHolder self) true))
    by (subst w1; fields; apply lookup_insert_eq).
  assert (Hold1 : protocols w1 !! stored
                  = Some (mkProtocol (pp_socket old) (pp_incoming old) true))
    by (subst w1 stored; fields; apply lookup_insert_eq).
  assert (Hnew1 : protocols w1 !! arriving = Some new).
  { subst w1 arriving. fields. rewrite lookup_insert_ne by exact Hne.
    exact Hnew. }
  assert (Htable1 : managementConnections w1 !! reconnectionToken holder
                    = Some details) by (subst w1; fields; exact Htable).
  assert (E : handleConnectionTypeRequest request holder socket w1
              = (Returned tt,
                 set_trace
                   (fun t => t ++ [SendControl (persistentProtocol holder)
                                     okMessage])
                   (snd (ManagementReconnectionDetails_reconnect
                           details holder w1)))).
  { unfold handleConnectionTypeRequest. rewrite Hkind. step. rewrite Htable1.
    pose proof (BrokerFacts.ManagementReconnectionDetails_reconnect_run
                  details holder w1 _ _ new Hd1 Hold1 Hnew1 Hne) as R.
    erewrite bind_run by exact R. rewrite R. apply sendControlMessage_run. }
  rewrite E.
  rewrite (BrokerFacts.ManagementReconnectionDetails_reconnect_run
             details holder w1 _ _ new Hd1 Hold1 Hnew1 Hne).
  clearbody w1. fields. cbn [md_protocolHolder pp_socket pp_incoming pp_disposed].
  fold stored arriving.
  split; [reflexivity|].
  split; [rewrite <- app_assoc; reflexivity|].
  split.
  { rewrite lookup_insert_ne by (subst stored arriving; congruence).
    apply lookup_insert_eq. }
  split; [exact Hd1 | exact Htable1].
Qed.

End More.

Import Examples Scenario Transient.

Lemma fresh_management_connect_registers_session_witness :
  managementConnections upgraded_T1 !! "T1" = None
  /\ managementConnections
       (exec (handleConnectionTypeRequest management_request first_holder_T1 10)
             upgraded_T1)
     = <["T1" := 2]> (managementConnections upgraded_T1).
Proof.
  assert (Ht : managementConnections upgraded_T1 !! "T1" = None)
    by (vm_compute; reflexivity).
  split; [exact Ht|].
  exact (proj1 (proj2 (proj2
    (fresh_management_connect_registers_session management_request
       first_holder_T1 10 upgraded_T1 eq_refl Ht eq_refl)))).
Defined.

Lemma handle_subscribes_for_single_token_witness :
  controlListeners
    (exec (handle (request "/?reconnectionToken=T1&reconnection=false") 10)
          empty_world)
  = [(1, first_holder_T1, 10)].
Proof.
  refine (proj1 (proj2 (proj2 (proj2 (proj2
    (handle_subscribes_for_single_token
       (request "/?reconnectionToken=T1&reconnection=false") 10 empty_world
       "T1" _ _)))))).
  - vm_compute; reflexivity.
  - discriminate.
Defined.

Lemma extension_host_not_defined_aborts_witness :
  extensionHostConnections session_without_host !! "T2" = Some 2
  /\ trace (exec (handleConnectionTypeRequest extension_host_request
                    early_holder_T2 21) session_without_host)
     = trace session_without_host
       ++ [SendControl 4
             [("reason", JString "Extension host is not defined");
              ("type", JString "error")];
           ProtocolDispose 4; WsDrain 3; WsDispose 3].
Proof.
  assert (Ht : extensionHostConnections session_without_host !! "T2" = Some 2)
    by (vm_compute; reflexivity).
  split; [exact Ht|].
  refine (proj1 (proj2
    (extension_host_not_defined_aborts extension_host_request early_holder_T2
       21 session_without_host 2
       (mkExtensionHostDetails first_holder_T2
          (startParams_of extension_host_request) None false ["T2"])
       (mkProtocol 3 [] false) eq_refl Ht _ eq_refl _))).
  - vm_compute; reflexivity.
  - vm_compute; reflexivity.
Defined.

Lemma reconnect_without_process_rejects_silently_witness :
  extensionHostConnections host_without_process !! "T2" = Some 2
  /\ control_listener later_holder_T2 21
       (ConnectionTypeMessage extension_host_request) host_without_process
     = (Returned tt, host_without_process).
Proof.
  assert (Ht : extensionHostConnections host_without_process !! "T2" = Some 2)
    by (vm_compute; reflexivity).
  split; [exact Ht|].
  refine (proj2
    (reconnect_without_process_rejects_silently extension_host_request
       later_holder_T2 21 host_without_process 2
       (mkExtensionHostDetails first_holder_T2
          (startParams_of extension_host_request) (Some 3) false ["T2"])
       3 (mkExtensionHost uriTransformerPath 20 first_holder_T2 false None)
       eq_refl Ht _ eq_refl _ eq_refl)).
  - vm_compute; reflexivity.
  - vm_compute; reflexivity.
Defined.

Lemma ExtensionHost_dispose_is_idempotent_witness :
  trace (exec (ExtensionHost_dispose 3) fresh_extension_host)
  = trace fresh_extension_host ++ [SocketEnd 20 None; ProcessKill 4].
Proof.
  refine (proj1 (proj2
    (ExtensionHost_dispose_is_idempotent 3 fresh_extension_host
       (mkExtensionHost uriTransformerPath 20 first_holder_T2 false (Some 4))
       _))).
  vm_compute; reflexivity.
Defined.

Lemma worker_exit_disposes_supervisor_once_witness :
  trace (exec (worker_exit 4) fresh_extension_host)
  = trace fresh_extension_host ++ [SocketEnd 20 None; ProcessKill 4].
Proof.
  refine (proj1 (proj2
    (worker_exit_disposes_supervisor_once 4 fresh_extension_host
       (mkChildProcess [onConsoleMessageListener 3] [3] [3]) 3
       (mkExtensionHost uriTransformerPath 20 first_holder_T2 false (Some 4))
       _ eq_refl eq_refl _ eq_refl eq_refl))).
  - vm_compute; reflexivity.
  - vm_compute; reflexivity.
Defined.

Lemma management_dispose_is_idempotent_witness :
  trace (exec (ManagementReconnectionDetails_dispose 2) fresh_management)
  = trace fresh_management ++ [SendDisconnect 1; ProtocolDispose 1; WsEnd 0].
Proof.
  refine (proj1 (proj2
    (management_dispose_is_idempotent 2 fresh_management
       (mkManagementDetails first_holder_T1 false) (mkProtocol 0 [] false)
       _ _))).
  - vm_compute; reflexivity.
  - vm_compute; reflexivity.
Defined.

Lemma extension_host_session_dispose_removes_entry_witness :
  extensionHostConnections fresh_extension_host !! "T2" = Some 2
  /\ extensionHostConnections
       (exec (ExtensionHostReconnectionDetails_dispose 2) fresh_extension_host)
     !! "T2" = None.
Proof.
  split; [vm_compute; reflexivity|].
  refine (proj1 (proj2
    (extension_host_session_dispose_removes_entry 2 fresh_extension_host
       (mkExtensionHostDetails first_holder_T2
          (mkStartParams (Some "en") (Some 9232%Z) None) (Some 3) false ["T2"])
       3 (mkExtensionHost uriTransformerPath 20 first_holder_T2 false (Some 4))
       _ eq_refl eq_refl _)) "T2" _).
  - vm_compute; reflexivity.
  - vm_compute; reflexivity.
  - left; reflexivity.
Defined.

Lemma fresh_extension_host_connect_starts_worker_witness :
  extensionHostConnections upgraded_T2 !! "T2" = None
  /\ hosts (exec (handleConnectionTypeRequest extension_host_request
                    first_holder_T2 20) upgraded_T2) !! 3
     = Some (mkExtensionHost uriTransformerPath 20 first_holder_T2 false (Some 4)).
Proof.
  assert (Ht : extensionHostConnections upgraded_T2 !! "T2" = None)
    by (vm_compute; reflexivity).
  split; [exact Ht|].
  refine (proj1 (proj2 (proj2 (proj2 (proj2
    (fresh_extension_host_connect_starts_worker extension_host_request
       first_holder_T2 20 upgraded_T2 (mkProtocol 0 [] false)
       eq_refl Ht eq_refl _)))))).
  vm_compute; reflexivity.
Defined.

Lemma management_binding_is_permanent_witness :
  managementConnections fresh_management !! "T1" = Some 2
  /\ managementConnections
       (after [DisposeManagementSession 2;
               Upgrade (request "/?reconnectionToken=T1&reconnection=true") 11;
               Control 4 (ConnectionTypeMessage management_request)]
              fresh_management) !! "T1"
     = Some 2.
Proof.
  assert (Ht : managementConnections fresh_management !! "T1" = Some 2)
    by (vm_compute; reflexivity).
  split; [exact Ht|].
  exact (management_binding_is_permanent _ fresh_management "T1" 2 Ht).
Defined.

Lemma extension_host_binding_outlives_worker_witness :
  extensionHostConnections fresh_extension_host !! "T2" = Some 2
  /\ extensionHostConnections
       (after [WorkerExit 4; WorkerError 4; DisposeExtensionHost 3]
              fresh_extension_host) !! "T2"
     = Some 2.
Proof.
  assert (Ht : extensionHostConnections fresh_extension_host !! "T2" = Some 2)
    by (vm_compute; reflexivity).
  split; [exact Ht|].
  refine (extension_host_binding_outlives_worker _ fresh_extension_host "T2" 2
            _ Ht).
  repeat (constructor; [intros session; discriminate|]). constructor.
Defined.

Lemma management_request_leaves_extension_hosts_alone_witness :
  hosts (exec (handleConnectionTypeRequest management_request second_holder_T2 21)
              second_socket_T2)
  = hosts second_socket_T2.
Proof.
  exact (proj1 (proj2 (proj2
    (management_request_leaves_extension_hosts_alone management_request
       second_holder_T2 21 second_socket_T2 eq_refl)))).
Defined.

Lemma extension_host_request_leaves_management_alone_witness :
  managementConnections
    (exec (handleConnectionTypeRequest extension_host_request second_holder_T1 11)
          second_socket_T1)
  = managementConnections second_socket_T1.
Proof.
  exact (proj1
    (extension_host_request_leaves_management_alone extension_host_request
       second_holder_T1 11 second_socket_T1 eq_refl)).
Defined.

Lemma reconnect_after_management_dispose_is_accepted_witness :
  managementConnections second_socket_T1 !! "T1" = Some 2
  /\ protocols
       (exec (handleConnectionTypeRequest management_request second_holder_T1 11)
             (exec (ManagementReconnectionDetails_dispose 2) second_socket_T1))
     !! 1
     = Some (mkProtocol 3 [] true).
Proof.
  assert (Ht : managementConnections second_socket_T1 !! "T1" = Some 2)
    by (vm_compute; reflexivity).
  split; [exact Ht|].
  refine (proj1 (proj2 (proj2
    (reconnect_after_management_dispose_is_accepted management_request
       second_holder_T1 11 second_socket_T1 2
       (mkManagementDetails first_holder_T1 false)
       (mkProtocol 0 [] false) (mkProtocol 3 [] false)
       eq_refl Ht _ eq_refl _ _ _)))).
  - vm_compute; reflexivity.
  - vm_compute; reflexivity.
  - vm_compute; reflexivity.
  - discriminate.
Defined.

End BrokerMore.

(* ===================================================================== *)
(** ** Properties of the HTTP side *)
(* ===================================================================== *)

Module HttpFacts.
Import Platform WebsocketUpgrade Http.

Lemma has_char_app c (a b : string) :
  has_char c (a +:+ b) = has_char c a || has_char c b.
Proof.
  induction a as [|x a IH]; [reflexivity|].
  change (has_char c (String x (a +:+ b))
          = has_char c (String x a) || has_char c b).
  cbn [has_char]. destruct (Ascii.eqb x c); [reflexivity | exact IH].
Qed.

Lemma get_set_header key value hs :
  get_header key (set_header key value hs) = Some value.
Proof.
  induction hs as [|[k v] hs IH]; cbn [set_header get_header].
  - now rewrite String.eqb_refl.
  - destruct (String.eqb k key) eqn:E; cbn [get_header]; rewrite E; auto.
Qed.

Lemma get_set_header_other key key' value hs :
  key <> key' ->
  get_header key (set_header key' value hs) = get_header key hs.
Proof.
  intros Hne. induction hs as [|[k v] hs IH]; cbn [set_header get_header].
  - now rewrite (proj2 (String.eqb_neq key' key)) by congruence.
  - destruct (String.eqb k key') eqn:E; cbn [get_header].
    + apply String.eqb_eq in E. subst k.
      now rewrite (proj2 (String.eqb_neq key' key)) by congruence.
    + destruct (String.eqb k key); auto.
Qed.

(** X24: behind an https proxy the remote authority has a port.  When
    the forwarded protocol is https and the [Host] header is not empty,
    [getRemoteAuthority] gives an authority with a colon: the host itself
    if it has one, the host followed by [:443] otherwise. *)
Theorem getRemoteAuthority_https_has_port (message : HttpMessage) (h : string) :
  headers (req message) !! "x-forwarded-proto" = Some "https" ->
  headers (req message) !! "host" = Some h ->
  h <> "" ->
  exists authority,
    getRemoteAuthority message = Some authority
    /\ has_char COLON authority = true
    /\ authority = (if has_char COLON h then h else h +:+ ":443").
Proof.
  intros Hproto Hhost Hne. unfold getRemoteAuthority.
  rewrite Hproto, Hhost.
  rewrite (proj2 (String.eqb_neq h "") Hne).
  change (String.eqb "https" "https") with true. cbn [andb negb].
  destruct (has_char COLON h) eqn:Hc; cbn [negb].
  - exists h. auto.
  - exists (h +:+ ":443"). split; [reflexivity|]. split; [|reflexivity].
    rewrite has_char_app, Hc. reflexivity.
Qed.

(** X25: without the forwarded https protocol the remote authority is
    the [Host] header as it came, or nothing when there is none. *)
Theorem getRemoteAuthority_is_host_otherwise (message : HttpMessage) :
  headers (req message) !! "x-forwarded-proto" <> Some "https" ->
  getRemoteAuthority message = headers (req message) !! "host".
Proof.
  intros Hproto. unfold getRemoteAuthority.
  destruct (headers (req message) !! "x-forwarded-proto") as [proto|];
    [|reflexivity].
  destruct (headers (req message) !! "host") as [h|]; [|reflexivity].
  destruct (String.eqb_spec proto "https") as [->|_]; [congruence|].
  reflexivity.
Qed.

(** [escapeAttribute] on a text put before another. *)
Lemma escapeAttribute_quot rest :
  has_char QUOTE ("&quot;" +:+ rest) = has_char QUOTE rest.
Proof. rewrite has_char_app. reflexivity. Qed.

(** X26: [escapeAttribute] leaves no double quote.  Its result has
    none, a value without one is returned as it is, and escaping twice is
    escaping once. *)
Theorem escapeAttribute_leaves_no_quote (value : string) :
  has_char QUOTE (escapeAttribute value) = false
  /\ (has_char QUOTE value = false -> escapeAttribute value = value)
  /\ escapeAttribute (escapeAttribute value) = escapeAttribute value.
Proof.
  assert (Hnone : forall v, has_char QUOTE (escapeAttribute v) = false).
  { induction v as [|c v IH]; [reflexivity|]. cbn [escapeAttribute].
    destruct (Ascii.eqb c QUOTE) eqn:E.
    - now rewrite escapeAttribute_quot.
    - cbn [has_char]. now rewrite E. }
  assert (Hsame : forall v, has_char QUOTE v = false -> escapeAttribute v = v).
  { induction v as [|c v IH]; [reflexivity|]. cbn [has_char escapeAttribute].
    destruct (Ascii.eqb c QUOTE); [discriminate|].
    intros Hv. now rewrite IH. }
  split; [apply Hnone|]. split; [apply Hsame|]. apply Hsame, Hnone.
Qed.

Section Handler.
Context `{Node}.

(** X27: the validator that [serveFile] sends is the one it accepts.
    If a request for a file is answered by the head 200, then a request
    for the same file whose [If-None-Match] header is the [Etag] of that
    head is answered by 304 with an empty body, as long as the file has
    not changed; no file is piped. *)
Theorem etag_round_trip (first second : HttpMessage) (filePath : string)
    (given given' sent : list (string * string)) (rest : list ResponseCall) :
  serveFile first filePath given = WriteHead 200 sent :: rest ->
  headers (req second) !! "if-none-match" = get_header "Etag" sent ->
  serveFile second filePath given'
  = [WriteHead 304 [("Content-Type", "text/plain")]; EndResponse None].
Proof.
  unfold serveFile. intros Hfirst Hmatch.
  destruct (fs_stat (path_normalize filePath)) as [stat|]; [|discriminate].
  destruct (decide (headers (req first) !! "if-none-match"
                    = Some (etag_of stat))); [discriminate|].
  injection Hfirst as Hsent _. subst sent.
  rewrite get_set_header in Hmatch.
  destruct (decide (headers (req second) !! "if-none-match"
                    = Some (etag_of stat))); [reflexivity | contradiction].
Qed.

(** X28: [serveFile] answers once and serves only what it found.  There
    is exactly one response head.  A file is piped only after its status
    was read, it is the normalized path, and the head is then 200 with
    the validator of the file as [Etag] and a [Content-Type] chosen from
    its extension, whatever headers were given.  If the status cannot be
    read the answer is 404. *)
Theorem serveFile_serves_what_it_found (message : HttpMessage)
    (filePath : string) (given : list (string * string)) :
  let calls := serveFile message filePath given in
  heads calls = 1
  /\ (forall served, In (Pipe served) calls ->
        served = path_normalize filePath
        /\ exists stat sent,
             fs_stat served = Some stat
             /\ calls = [WriteHead 200 sent; Pipe served]
             /\ get_header "Etag" sent = Some (etag_of stat)
             /\ get_header "Content-Type" sent = Some (contentType_of served))
  /\ (fs_stat (path_normalize filePath) = None ->
      calls = [WriteHead 404 [("Content-Type", "text/plain")]; EndResponse None]).
Proof.
  cbv zeta. unfold serveFile, error304, error404, error.
  destruct (fs_stat (path_normalize filePath)) as [stat|] eqn:Hstat.
  - destruct (decide (headers (req message) !! "if-none-match"
                      = Some (etag_of stat))).
    + split; [reflexivity|]. split; [|discriminate].
      intros served [E|[E|[]]]; discriminate.
    + split; [reflexivity|]. split; [|discriminate].
      intros served [E|[E|[]]]; [discriminate|].
      injection E as <-. split; [reflexivity|].
      eexists stat, _. split; [exact Hstat|]. split; [reflexivity|].
      split; [apply get_set_header|].
      rewrite get_set_header_other by discriminate. apply get_set_header.
  - split; [reflexivity|]. split; [|reflexivity].
    intros served [E|[E|[]]]; discriminate.
Qed.



End Handler.

Import HttpExamples.

Lemma getRemoteAuthority_https_has_port_witness :
  getRemoteAuthority (new_message proxied_request) = Some "che.example.org:443".
Proof.
  destruct (getRemoteAuthority_https_has_port (new_message proxied_request)
              "che.example.org") as (authority & E & _ & Ha).
  - vm_compute; reflexivity.
  - vm_compute; reflexivity.
  - discriminate.
  - rewrite E, Ha. reflexivity.
Defined.

Lemma getRemoteAuthority_is_host_otherwise_witness :
  getRemoteAuthority (new_message direct_request) = Some "localhost:3100".
Proof.
  refine (eq_trans
            (getRemoteAuthority_is_host_otherwise (new_message direct_request) _)
            _).
  - vm_compute; discriminate.
  - vm_compute; reflexivity.
Defined.

Lemma etag_round_trip_witness :
  serveFile (new_message icon_request) icon_path []
  = [WriteHead 200 [("Content-Type", "image/x-icon");
                    ("Etag", etag_of icon_stats)];
     Pipe icon_path]
  /\ serveFile (new_message icon_revalidation) icon_path []
     = [WriteHead 304 [("Content-Type", "text/plain")]; EndResponse None].
Proof.
  assert (Hfirst : serveFile (new_message icon_request) icon_path []
                   = [WriteHead 200 [("Content-Type", "image/x-icon");
                                     ("Etag", etag_of icon_stats)];
                      Pipe icon_path])
    by (vm_compute; reflexivity).
  split; [exact Hfirst|].
  refine (etag_round_trip (new_message icon_request)
            (new_message icon_revalidation) icon_path [] [] _ _ Hfirst _).
  vm_compute; reflexivity.
Defined.

End HttpFacts.
